(** * PathPilot lab analytics: a shallow embedding of the derivation logic

    The development embeds the TypeScript classes
      - [FHIRClient] of [web/lib/fhir-client.ts] (status classifier),
      - [LabProcessor] (trend analysis, narratives),
      - [RiskScoreCalculator] of [pathpilot-demo/lib/risk-calculator.ts]
        (risk score, organ systems, MELD, deterioration),
    with the record types they exchange, and states the properties of the
    specification over them.

    Numbers.  A JavaScript [number] is an IEEE-754 binary64 value; it is
    modelled by Rocq's primitive [float], whose operations are the same
    binary64 operations with round-to-nearest-even.  Quantities that the
    code only ever builds from array lengths and small integer constants
    (counts, scores, contributions) stay below 2^53, where binary64
    arithmetic is exact; these are modelled in [Z].

    Strings are [string] (the text as a sequence of bytes; every key the
    sources search for is ASCII); arrays are [list]; [undefined] and absent
    fields are [option]; a call that may throw returns a [JS.Completion].
    The clock a call reads is an explicit argument [now]. *)

From Stdlib Require Import Floats ZArith List String Ascii Bool Lia.
From Stdlib Require Import DecimalString Permutation Sorted.
Import ListNotations.

Set Warnings "-inexact-float".

Local Open Scope string_scope.
Local Open Scope list_scope.
Local Open Scope Z_scope.

(** ** The JavaScript fragment the sources rely on *)

Module JS.

Definition number := float.

(** Relational operators on numbers; every comparison with NaN is false. *)
Definition gt (x y : number) : bool := PrimFloat.ltb y x.
Definition lt (x y : number) : bool := PrimFloat.ltb x y.
Definition ge (x y : number) : bool := PrimFloat.leb y x.
Definition le (x y : number) : bool := PrimFloat.leb x y.

Definition isNaN (x : number) : bool := PrimFloat.is_nan x.

(** ToBoolean on a number: [+0], [-0] and NaN are falsy. *)
Definition truthy (x : number) : bool :=
  negb (PrimFloat.is_zero x || PrimFloat.is_nan x).

(** ToBoolean on a string: only the empty string is falsy. *)
Definition truthy_string (s : string) : bool :=
  match s with EmptyString => false | _ => true end.

Definition Math_abs (x : number) : number := PrimFloat.abs x.

(** [Math.max]/[Math.min] on two arguments: NaN is contagious and
    [+0] is larger than [-0]. *)
Definition Math_max (x y : number) : number :=
  if PrimFloat.is_nan x || PrimFloat.is_nan y then PrimFloat.nan
  else if PrimFloat.ltb x y then y
  else if PrimFloat.ltb y x then x
  else if PrimFloat.get_sign x then y else x.

Definition Math_min (x y : number) : number :=
  if PrimFloat.is_nan x || PrimFloat.is_nan y then PrimFloat.nan
  else if PrimFloat.ltb x y then x
  else if PrimFloat.ltb y x then y
  else if PrimFloat.get_sign x then x else y.

(** An integer as a number: exact below 2^53 in magnitude, rounded to
    nearest beyond. *)
Definition of_Z (n : Z) : number :=
  SF2Prim (binary_normalize prec emax n 0 false).

(** [Math.round]: the integer nearest to [x], ties towards +infinity,
    i.e. floor(x + 1/2) computed exactly.  NaN, the infinities and the
    zeros are returned unchanged; a result that is zero keeps the sign
    of [x]. *)
Definition Math_round (x : number) : number :=
  match Prim2SF x with
  | S754_finite s m e =>
      if (0 <=? e)%Z then x
      else
        let k := Z.opp e in
        let sm := if s then Zneg m else Zpos m in
        let n := Z.shiftr (sm + Z.shiftl 1 (k - 1)) k in
        if (n =? 0)%Z then (if s then PrimFloat.neg_zero else PrimFloat.zero)
        else of_Z n
  | _ => x
  end.

(** [String.prototype.includes]. *)
Fixpoint includes (s sub : string) : bool :=
  String.prefix sub s ||
  match s with
  | EmptyString => false
  | String _ s' => includes s' sub
  end.

(** [Array.prototype.join] on an array of strings. *)
Definition join (sep : string) (l : list string) : string :=
  String.concat sep l.

(** Decimal rendering of a non-negative integer, as a template literal
    prints an array length. *)
Definition string_of_count (n : Z) : string :=
  NilZero.string_of_uint (N.to_uint (Z.to_N n)).

(** [Array.prototype.length] as an integer. *)
Definition length {A} (l : list A) : Z := Z.of_nat (List.length l).

(** A stable insertion sort; [after y x] says that [y] has to come after
    [x].  For a consistent comparator every stable sort returns this
    list. *)
Fixpoint insertSorted {A} (after : A -> A -> bool) (x : A) (l : list A)
  : list A :=
  match l with
  | [] => [x]
  | y :: l' => if after y x then x :: l else y :: insertSorted after x l'
  end.

Definition stableSort {A} (after : A -> A -> bool) (l : list A) : list A :=
  fold_left (fun acc x => insertSorted after x acc) l [].

(** [Array.prototype.sort(comparefn)]: [y] comes after [x] when
    [comparefn(y, x) > 0]; a NaN result counts as 0.  (With a comparator
    that is not a consistent order, as when a date is invalid, ECMAScript
    leaves the order to the implementation; the model fixes this one.) *)
Definition sort {A} (comparefn : A -> A -> number) (l : list A) : list A :=
  stableSort (fun y x => gt (comparefn y x) 0%float) l.

(** Plain objects with string keys, as created by [{}]: the own
    properties in creation order.  Keys are unique. *)
Definition Obj (V : Type) : Type := list (string * V).

Fixpoint own {V} (o : Obj V) (key : string) : option V :=
  match o with
  | [] => None
  | (k, v) :: o' => if String.eqb k key then Some v else own o' key
  end.

(** [o[key] = v] for a key that is already an own property. *)
Fixpoint update {V} (o : Obj V) (key : string) (v : V) : Obj V :=
  match o with
  | [] => []
  | (k, w) :: o' =>
      if String.eqb k key then (k, v) :: o' else (k, w) :: update o' key v
  end.

(** The properties every plain object inherits from [Object.prototype];
    reading one of them from an object that has no own property of that
    name yields a function (or, for [__proto__], the prototype itself). *)
Definition Object_prototype_keys : list string :=
  [ "constructor"; "__defineGetter__"; "__defineSetter__"; "hasOwnProperty";
    "__lookupGetter__"; "__lookupSetter__"; "isPrototypeOf";
    "propertyIsEnumerable"; "toString"; "valueOf"; "__proto__";
    "toLocaleString" ].

Definition inherited (key : string) : bool :=
  existsb (String.eqb key) Object_prototype_keys.

Definition digit (c : ascii) : option N :=
  let n := N_of_ascii c in
  if ((48 <=? n) && (n <=? 57))%N then Some (n - 48)%N else None.

Fixpoint digits (s : string) (acc : N) : option N :=
  match s with
  | EmptyString => Some acc
  | String c s' =>
      match digit c with
      | Some d => digits s' (acc * 10 + d)%N
      | None => None
      end
  end.

(** A key is an array index when it is the canonical decimal form of an
    integer in [0, 2^32 - 2]. *)
Definition arrayIndex (key : string) : option N :=
  match key with
  | EmptyString => None
  | String c rest =>
      if Ascii.eqb c "0" then
        match rest with EmptyString => Some 0%N | _ => None end
      else
        match digits key 0 with
        | Some n => if (n <=? 4294967294)%N then Some n else None
        | None => None
        end
  end.

Definition isIndexKey {V} (kv : string * V) : bool :=
  match arrayIndex (fst kv) with Some _ => true | None => false end.

Definition indexAfter {V} (y x : string * V) : bool :=
  match arrayIndex (fst y), arrayIndex (fst x) with
  | Some m, Some n => (n <? m)%N
  | _, _ => false
  end.

(** [Object.entries]: array-index keys in ascending numeric order, then
    the other keys in creation order. *)
Definition Object_entries {V} (o : Obj V) : list (string * V) :=
  stableSort indexAfter (filter isIndexKey o)
  ++ filter (fun kv => negb (isIndexKey kv)) o.

(** The outcome of running code that may throw. *)
Inductive Completion (A : Type) : Type :=
| Normal (a : A)
| Throw (error : string).
Arguments Normal {A} a.
Arguments Throw {A} error.

End JS.

(** Functions of the host the sources call and the repository does not
    define.  [Math.log] is implementation-approximated in ECMAScript; the
    standard fixes its value at 1. *)
Class Builtins := {
  (** [new Date(s).getTime()]: milliseconds since the epoch, NaN for an
      invalid date string. *)
  Date_getTime : string -> JS.number;
  (** [String.prototype.toLowerCase]. *)
  toLowerCase : string -> string;
  (** [parseFloat] applied to a string. *)
  parseFloat_string : string -> JS.number;
  (** [Math.log]. *)
  Math_log : JS.number -> JS.number;
  Math_log_1 : Math_log 1%float = 0%float;
  (** The time value of a [Date] after [d.setDate(d.getDate() - 7)]
      (seven calendar days earlier in the local time zone). *)
  Date_minus7days : JS.number -> JS.number
}.

(** The text formatting of the host, used by the narratives only. *)
Class Formatting := {
  (** [Number.prototype.toString] (radix 10), as used by template
      literals. *)
  Number_toString : JS.number -> string;
  (** [x.toFixed(1)]. *)
  Number_toFixed1 : JS.number -> string;
  (** [String.prototype.trim]. *)
  String_trim : string -> string
}.

(** ** Data model (the interfaces [LabResult], [LabTrend], [FHIRObservation]) *)

Inductive Status := normal | critical | abnormal.

Definition Status_eqb (a b : Status) : bool :=
  match a, b with
  | normal, normal | critical, critical | abnormal, abnormal => true
  | _, _ => false
  end.

(** [value: number | string]. *)
Inductive Value := VNum (x : JS.number) | VStr (s : string).

Module ReferenceRange.
Record t := {
  low : option JS.number;
  high : option JS.number;
  text : option string
}.
End ReferenceRange.

Module LabResult.
Record t := {
  id : string;
  code : string;
  name : string;
  value : Value;
  unit : string;
  referenceRange : option ReferenceRange.t;
  status : Status;
  effectiveDateTime : string;
  category : string;
  interpretation : option string
}.
End LabResult.

Inductive TrendDirection := rising | falling | stable.

(** A data point of a trend; its status is copied from the result. *)
Module TrendPoint.
Record t := {
  date : string;
  value : JS.number;
  status : Status
}.
End TrendPoint.

Module LabTrend.
Record t := {
  labName : string;
  code : string;
  unit : string;
  data : list TrendPoint.t;
  currentValue : JS.number;
  previousValue : option JS.number;
  delta : option JS.number;
  deltaPercent : option JS.number;
  trend : TrendDirection
}.
End LabTrend.

(** The FHIR resources read by the client.  Fields the client reads
    through [?.] or guards with [||] are optional; fields it never reads
    (the subject, the system and code of a quantity) are left out. *)
Module Coding.
Record t := {
  system : string;
  code : string;
  display : string
}.
End Coding.

Module CodeableConcept.
Record t := {
  coding : option (list Coding.t);
  text : option string
}.
End CodeableConcept.

Module Quantity.
Record t := {
  value : JS.number;
  unit : string
}.
End Quantity.

Module FHIRRange.
Record t := {
  low : option Quantity.t;
  high : option Quantity.t;
  text : option string
}.
End FHIRRange.

Module FHIRObservation.
Record t := {
  id : string;
  status : string;
  code : CodeableConcept.t;
  effectiveDateTime : string;
  valueQuantity : option Quantity.t;
  referenceRange : option (list FHIRRange.t);
  interpretation : option (list CodeableConcept.t)
}.
End FHIRObservation.

(** An entry of the [criticalRanges] table. *)
Module CriticalRange.
Record t := {
  low : option JS.number;
  high : option JS.number
}.
End CriticalRange.

(** A [Bundle] of observations, as [getLabResults] reads it. *)
Module BundleEntry.
Record t := {
  fullUrl : string;
  resource : FHIRObservation.t
}.
End BundleEntry.

Module FHIRBundle.
Record t := {
  type : string;
  total : option JS.number;
  entry : option (list BundleEntry.t)
}.
End FHIRBundle.

(** The [Patient] resource as [getPatient] reads it.  The answer of the
    server is untyped ([any]); every field the client reads may be
    missing. *)
Module HumanName.
Record t := {
  given : option (list string);
  family : option string
}.
End HumanName.

(** A coding of which only the optional [code] is read. *)
Module CodeOnly.
Record t := {
  code : option string
}.
End CodeOnly.

Module IdentifierType.
Record t := {
  coding : option (list CodeOnly.t)
}.
End IdentifierType.

Module Identifier.
Record t := {
  type : option IdentifierType.t;
  value : option string
}.
End Identifier.

Module PatientResource.
Record t := {
  id : option string;
  name : option (list HumanName.t);
  birthDate : option string;
  gender : option string;
  identifier : option (list Identifier.t)
}.
End PatientResource.

(** The interface [Patient].  [id], [birthDate] and [gender] are copied
    from the answer as they are, [undefined] included. *)
Module Patient.
Record t := {
  id : option string;
  name : string;
  birthDate : option string;
  gender : option string;
  mrn : string
}.
End Patient.

(** The [DiagnosticReport] resources of a bundle and the interface
    [DiagnosticReport] they are mapped to. *)
Module PresentedForm.
Record t := {
  contentType : string;
  url : string;
  title : string
}.
End PresentedForm.

Module ReportCode.
Record t := {
  coding : option (list CodeOnly.t);
  text : option string
}.
End ReportCode.

Module Period.
Record t := {
  start : option string
}.
End Period.

Module ReportResource.
Record t := {
  id : string;
  status : string;
  code : option ReportCode.t;
  effectivePeriod : option Period.t;
  effectiveDateTime : option string;
  conclusion : option string;
  presentedForm : option (list PresentedForm.t)
}.
End ReportResource.

Module ReportEntry.
Record t := {
  resource : ReportResource.t
}.
End ReportEntry.

Module ReportBundle.
Record t := {
  entry : option (list ReportEntry.t)
}.
End ReportBundle.

Module DiagnosticReport.
Record t := {
  id : string;
  status : string;
  code : string;
  name : string;
  effectiveDateTime : option string;
  conclusion : option string;
  presentedForm : option (list PresentedForm.t)
}.
End DiagnosticReport.

(** ** Risk calculator ([RiskScoreCalculator]) *)

Inductive RiskLevel := level_critical | level_high | level_moderate | level_low.

Module RiskFactor.
Record t := {
  name : string;
  weight : JS.number;
  value : string;
  contribution : Z
}.
End RiskFactor.

Module RiskScore.
Record t := {
  score : Z;
  level : RiskLevel;
  factors : list RiskFactor.t
}.
End RiskScore.

Inductive OrganTrend := worsening | organ_stable | improving.

Module OrganSystemRisk.
Record t := {
  system : string;
  score : Z;
  trend : OrganTrend;
  markers : list string
}.
End OrganSystemRisk.

(** The anonymous result type [{ score: number; markers: string[] }] of
    [checkHighRiskMarkers]. *)
Module HighRiskMarkers.
Record t := {
  score : Z;
  markers : list string
}.
End HighRiskMarkers.

(** [parseFloat(v)] for a [number | string] value.  The argument is first
    converted to a string; for a number the decimal rendering parses back
    to the same number, except that [-0] prints as "0". *)
Definition parseFloat `{Builtins} (v : Value) : JS.number :=
  match v with
  | VNum x => if PrimFloat.is_zero x then PrimFloat.zero else x
  | VStr s => parseFloat_string s
  end.

(** ** FHIR client ([FHIRClient]): the status classifier *)

Module FHIRClient.
Section WithBuiltins.
Context `{Builtins}.

(** [a || b] for a string that may be undefined. *)
Definition orString (a : option string) (b : string) : string :=
  match a with
  | Some s => if JS.truthy_string s then s else b
  | None => b
  end.

(** [xs?.[0]]. *)
Definition first {A} (xs : option (list A)) : option A :=
  match xs with
  | Some (x :: _) => Some x
  | _ => None
  end.

(** Step 1 of [transformObservation]: the status after the reference-range
    block. *)
Definition rangeRule (value : option JS.number) (refRange : option FHIRRange.t)
  : Status :=
  let status := normal in
  match value, refRange with
  | Some value, Some refRange =>
      let belowLow :=
        match FHIRRange.low refRange with
        | Some low =>
            if JS.lt value (Quantity.value low) then
              if JS.lt value (Quantity.value low * 0.5)%float
              then critical else abnormal
            else status
        | None => status
        end in
      match FHIRRange.high refRange with
      | Some high =>
          if JS.gt value (Quantity.value high) then
            if JS.gt value (Quantity.value high * 1.5)%float
            then critical else abnormal
          else belowLow
      | None => belowLow
      end
  | _, _ => status
  end.

Definition criticalRanges : JS.Obj CriticalRange.t :=
  [ ("Potassium", {| CriticalRange.low := Some 2.5%float; CriticalRange.high := Some 6.5%float |});
    ("Sodium", {| CriticalRange.low := Some 120%float; CriticalRange.high := Some 160%float |});
    ("Glucose", {| CriticalRange.low := Some 40%float; CriticalRange.high := Some 500%float |});
    ("Hemoglobin", {| CriticalRange.low := Some 5%float; CriticalRange.high := Some 20%float |});
    ("Platelet", {| CriticalRange.low := Some 20%float; CriticalRange.high := Some 1000%float |});
    ("Creatinine", {| CriticalRange.low := None; CriticalRange.high := Some 10%float |}) ].

(** [Object.entries(criticalRanges).find(...)]: the first entry, in table
    order, whose key occurs in the lab name. *)
Definition findCritical (labName : string) : option (string * CriticalRange.t) :=
  find (fun entry => JS.includes (toLowerCase labName) (toLowerCase (fst entry)))
       (JS.Object_entries criticalRanges).

(** [(range.high && value > range.high) || (range.low && value < range.low)];
    a bound is tested for truthiness before it is compared. *)
Definition outsideCritical (range : CriticalRange.t) (value : JS.number) : bool :=
  match CriticalRange.high range with
  | Some high => JS.truthy high && JS.gt value high
  | None => false
  end
  ||
  match CriticalRange.low range with
  | Some low => JS.truthy low && JS.lt value low
  | None => false
  end.

(** Step 2 of [transformObservation]: the table of critical thresholds. *)
Definition criticalRule (labName : string) (value : option JS.number)
  (status : Status) : Status :=
  match findCritical labName, value with
  | Some critical', Some value =>
      let range := snd critical' in
      if outsideCritical range value then critical else status
  | _, _ => status
  end.

Definition transformObservation (obs : FHIRObservation.t) : LabResult.t :=
  let value := option_map Quantity.value (FHIRObservation.valueQuantity obs) in
  let unit := orString (option_map Quantity.unit (FHIRObservation.valueQuantity obs)) "" in
  let refRange := first (FHIRObservation.referenceRange obs) in
  let status := rangeRule value refRange in
  let coding0 := first (CodeableConcept.coding (FHIRObservation.code obs)) in
  let labName :=
    orString (CodeableConcept.text (FHIRObservation.code obs))
      (orString (option_map Coding.display coding0) "Unknown") in
  let status := criticalRule labName value status in
  {| LabResult.id := FHIRObservation.id obs;
     LabResult.code := orString (option_map Coding.code coding0) "";
     LabResult.name := labName;
     LabResult.value :=
       match value with Some v => VNum v | None => VStr "N/A" end;
     LabResult.unit := unit;
     LabResult.referenceRange :=
       match refRange with
       | Some r =>
           Some {| ReferenceRange.low := option_map Quantity.value (FHIRRange.low r);
                   ReferenceRange.high := option_map Quantity.value (FHIRRange.high r);
                   ReferenceRange.text := FHIRRange.text r |}
       | None => None
       end;
     LabResult.status := status;
     LabResult.effectiveDateTime := FHIRObservation.effectiveDateTime obs;
     LabResult.category := "laboratory";
     LabResult.interpretation :=
       match first (FHIRObservation.interpretation obs) with
       | Some i => option_map Coding.display (first (CodeableConcept.coding i))
       | None => None
       end |}.

(** [getLabResults].  [response] is what [await response.json()] yields:
    the bundle, or the exception of a rejected [fetch] or of a body that
    is not JSON, which the [catch] turns into an empty array. *)
Definition getLabResults (response : JS.Completion FHIRBundle.t)
  : list LabResult.t :=
  match response with
  | JS.Normal bundle =>
      match FHIRBundle.entry bundle with
      | None => []
      | Some entry =>
          map (fun entry => transformObservation (BundleEntry.resource entry)) entry
      end
  | JS.Throw _ => []
  end.

(** [process.env.NEXT_PUBLIC_DEFAULT_PATIENT_ID || '28dc...']; [env] is the
    value of the environment variable. *)
Definition DEFAULT_PATIENT_ID (env : option string) : string :=
  orString env "28dcf33b-0c52-587f-83ad-2a3270976719".

(** A string operand of [+] that may be undefined. *)
Definition toStringOperand (x : option string) : string :=
  match x with
  | Some s => s
  | None => "undefined"
  end.

(** [a || b] where both sides may be undefined. *)
Definition orOption (a b : option string) : option string :=
  match a with
  | Some s => if JS.truthy_string s then a else b
  | None => b
  end.

(** [id.type?.coding?.[0]?.code === 'MR']. *)
Definition isMR (id : Identifier.t) : bool :=
  match Identifier.type id with
  | Some type =>
      match first (IdentifierType.coding type) with
      | Some coding0 =>
          match CodeOnly.code coding0 with
          | Some code => String.eqb code "MR"
          | None => false
          end
      | None => false
      end
  | None => false
  end.

(** [getPatient]; the operator [+] binds tighter than [||]. *)
Definition getPatient (env : option string)
  (response : JS.Completion PatientResource.t) : Patient.t :=
  match response with
  | JS.Normal data =>
      let name0 := first (PatientResource.name data) in
      let given0 :=
        match name0 with
        | Some n => first (HumanName.given n)
        | None => None
        end in
      let family :=
        match name0 with
        | Some n => HumanName.family n
        | None => None
        end in
      let mr :=
        match PatientResource.identifier data with
        | Some identifier =>
            match find isMR identifier with
            | Some id => Identifier.value id
            | None => None
            end
        | None => None
        end in
      {| Patient.id := PatientResource.id data;
         Patient.name :=
           orString (Some (toStringOperand given0 ++ " " ++ toStringOperand family)%string)
                    "Unknown Patient";
         Patient.birthDate := PatientResource.birthDate data;
         Patient.gender := PatientResource.gender data;
         Patient.mrn := orString mr "Unknown" |}
  | JS.Throw _ =>
      {| Patient.id := Some (DEFAULT_PATIENT_ID env);
         Patient.name := "Patient 10007795";
         Patient.birthDate := Some "2083-04-10";
         Patient.gender := Some "female";
         Patient.mrn := "10007795" |}
  end.

(** [getDiagnosticReports], with [response] as for [getLabResults]. *)
Definition getDiagnosticReports (response : JS.Completion ReportBundle.t)
  : list DiagnosticReport.t :=
  match response with
  | JS.Normal bundle =>
      match ReportBundle.entry bundle with
      | None => []
      | Some entry =>
          map (fun entry =>
                 let resource := ReportEntry.resource entry in
                 let code := ReportResource.code resource in
                 {| DiagnosticReport.id := ReportResource.id resource;
                    DiagnosticReport.status := ReportResource.status resource;
                    DiagnosticReport.code :=
                      orString
                        (match code with
                         | Some code =>
                             match first (ReportCode.coding code) with
                             | Some coding0 => CodeOnly.code coding0
                             | None => None
                             end
                         | None => None
                         end) "";
                    DiagnosticReport.name :=
                      orString
                        (match code with
                         | Some code => ReportCode.text code
                         | None => None
                         end) "Unknown Report";
                    DiagnosticReport.effectiveDateTime :=
                      orOption
                        (match ReportResource.effectivePeriod resource with
                         | Some period => Period.start period
                         | None => None
                         end)
                        (ReportResource.effectiveDateTime resource);
                    DiagnosticReport.conclusion := ReportResource.conclusion resource;
                    DiagnosticReport.presentedForm :=
                      ReportResource.presentedForm resource |})
              entry
      end
  | JS.Throw _ => []
  end.

End WithBuiltins.
End FHIRClient.

(** ** Lab processor ([LabProcessor]): trends and narratives *)

Module LabProcessor.
Section WithBuiltins.
Context `{Builtins} `{Formatting}.

(** One iteration of the loop of [groupLabsByType].  When [grouped[key]]
    is read through the prototype it is truthy and has no [push], and the
    call throws. *)
Definition groupStep (grouped : JS.Obj (list LabResult.t)) (result : LabResult.t)
  : JS.Completion (JS.Obj (list LabResult.t)) :=
  let key := LabResult.name result in
  match JS.own grouped key with
  | Some results => JS.Normal (JS.update grouped key (results ++ [result]))
  | None =>
      if JS.inherited key
      then JS.Throw "TypeError: grouped[key].push is not a function"
      else JS.Normal (grouped ++ [(key, [result])])
  end.

Fixpoint groupLoop (labResults : list LabResult.t)
  (grouped : JS.Obj (list LabResult.t))
  : JS.Completion (JS.Obj (list LabResult.t)) :=
  match labResults with
  | [] => JS.Normal grouped
  | result :: rest =>
      match groupStep grouped result with
      | JS.Normal grouped' => groupLoop rest grouped'
      | JS.Throw e => JS.Throw e
      end
  end.

Definition groupLabsByType (labResults : list LabResult.t)
  : JS.Completion (JS.Obj (list LabResult.t)) :=
  groupLoop labResults [].

Definition isNumeric (r : LabResult.t) : bool :=
  match LabResult.value r with
  | VNum _ => true
  | VStr _ => false
  end.

(** [r.value as number], for a result that passed the [typeof] filter. *)
Definition numberOf (r : LabResult.t) : JS.number :=
  match LabResult.value r with
  | VNum x => x
  | VStr _ => PrimFloat.nan
  end.

(** The classification inside [if (previousValue !== undefined)]. *)
Definition classifyTrend (delta deltaPercent : JS.number) : TrendDirection :=
  if JS.lt (JS.Math_abs deltaPercent) 5%float then stable
  else if JS.gt delta 0%float then rising
  else falling.

(** The body of the loop of [processLabTrends] for one entry of the
    grouping: [None] is the [continue].  [sort] works in place, so after it
    [results] and [sortedResults] are the same array. *)
Definition trendOfGroup (labName : string) (results : list LabResult.t)
  : option LabTrend.t :=
  let sortedResults :=
    JS.sort (fun a b =>
               (Date_getTime (LabResult.effectiveDateTime b)
                - Date_getTime (LabResult.effectiveDateTime a))%float)
            results in
  let results := sortedResults in
  let numericResults := filter isNumeric sortedResults in
  match numericResults with
  | [] => None
  | current :: older =>
      let currentValue := numberOf current in
      let previousValue := option_map numberOf (hd_error older) in
      let '(delta, deltaPercent, trend) :=
        match previousValue with
        | Some previousValue =>
            let delta := (currentValue - previousValue)%float in
            let deltaPercent := ((delta / previousValue) * 100)%float in
            (Some delta, Some deltaPercent, classifyTrend delta deltaPercent)
        | None => (None, None, stable)
        end in
      Some {| LabTrend.labName := labName;
              LabTrend.code :=
                match results with r :: _ => LabResult.code r | [] => "" end;
              LabTrend.unit :=
                match results with r :: _ => LabResult.unit r | [] => "" end;
              LabTrend.data :=
                rev (map (fun r => {| TrendPoint.date := LabResult.effectiveDateTime r;
                                      TrendPoint.value := numberOf r;
                                      TrendPoint.status := LabResult.status r |})
                         (firstn 10 numericResults));
              LabTrend.currentValue := currentValue;
              LabTrend.previousValue := previousValue;
              LabTrend.delta := delta;
              LabTrend.deltaPercent := deltaPercent;
              LabTrend.trend := trend |}
  end.

(** The loop over [Object.entries(groupedLabs)]: [trends] grows by
    [push]. *)
Definition trendsOfGroups (entries : list (string * list LabResult.t))
  : list LabTrend.t :=
  fold_left
    (fun trends entry =>
       match trendOfGroup (fst entry) (snd entry) with
       | Some t => trends ++ [t]
       | None => trends
       end)
    entries [].

Definition processLabTrends (labResults : list LabResult.t)
  : JS.Completion (list LabTrend.t) :=
  match groupLabsByType labResults with
  | JS.Normal groupedLabs => JS.Normal (trendsOfGroups (JS.Object_entries groupedLabs))
  | JS.Throw e => JS.Throw e
  end.



(** [!x] for an optional number: undefined, zero and NaN are falsy. *)
Definition falsy (x : option JS.number) : bool :=
  match x with
  | Some x => negb (JS.truthy x)
  | None => true
  end.

Definition getTrendNarrative (trend : LabTrend.t) : string :=
  if falsy (LabTrend.delta trend) || falsy (LabTrend.deltaPercent trend) then ""
  else
    let direction :=
      match LabTrend.trend trend with
      | rising => "increased"
      | falling => "decreased"
      | stable => "remained stable"
      end in
    let amount :=
      match LabTrend.deltaPercent trend with
      | Some deltaPercent => Number_toFixed1 (JS.Math_abs deltaPercent)
      | None => ""
      end in
    match LabTrend.trend trend with
    | stable => "The value has remained relatively stable."
    | _ => "The value has " ++ direction ++ " by " ++ amount
           ++ "% since the last test."
    end.

Definition getStatusNarrative (lab : LabResult.t) : string :=
  match LabResult.status lab with
  | critical => "This is a CRITICAL value requiring immediate attention."
  | abnormal => "This value is outside the normal range."
  | normal => "This value is within normal limits."
  end.

Definition contexts : JS.Obj string :=
  [ ("Potassium", "Important for heart and muscle function.");
    ("Creatinine", "Indicates kidney function.");
    ("Hemoglobin", "Carries oxygen in red blood cells.");
    ("Glucose", "Blood sugar level.");
    ("Sodium", "Maintains fluid balance.");
    ("Platelet", "Essential for blood clotting.") ].

Definition getContextNarrative (lab : LabResult.t) : string :=
  let context :=
    find (fun entry =>
            JS.includes (toLowerCase (LabResult.name lab)) (toLowerCase (fst entry)))
         (JS.Object_entries contexts) in
  match context with
  | Some context' => snd context'
  | None => ""
  end.

(** A [number | string] value inside a template literal. *)
Definition valueToString (v : Value) : string :=
  match v with
  | VNum x => Number_toString x
  | VStr s => s
  end.

Definition getLabNarrative (lab : LabResult.t) (trend : option LabTrend.t)
  : string :=
  let trendText :=
    match trend with
    | Some trend => getTrendNarrative trend
    | None => ""
    end in
  let statusText := getStatusNarrative lab in
  let contextText := getContextNarrative lab in
  String_trim
    (LabResult.name lab ++ ": " ++ valueToString (LabResult.value lab) ++ " "
     ++ LabResult.unit lab ++ ". " ++ statusText ++ " " ++ trendText ++ " "
     ++ contextText).

(** [getRecentLabsSummary]; [now] is the time value of the [new Date()]
    the call creates. *)
Definition getRecentLabsSummary (now : JS.number) (labResults : list LabResult.t)
  : string :=
  let recentDate := Date_minus7days now in
  let recentLabs :=
    filter (fun lab => JS.gt (Date_getTime (LabResult.effectiveDateTime lab)) recentDate)
           labResults in
  let critical' := JS.length (filter (fun lab => Status_eqb (LabResult.status lab) critical) recentLabs) in
  let abnormal' := JS.length (filter (fun lab => Status_eqb (LabResult.status lab) abnormal) recentLabs) in
  if critical' >? 0 then
    "⚠️ " ++ JS.string_of_count critical' ++ " critical lab value"
    ++ (if critical' >? 1 then "s" else "")
    ++ " in the past week requiring immediate attention."
  else if abnormal' >? 0 then
    JS.string_of_count abnormal' ++ " abnormal lab value"
    ++ (if abnormal' >? 1 then "s" else "")
    ++ " in the past week requiring review."
  else if JS.length recentLabs >? 0 then
    "✓ All " ++ JS.string_of_count (JS.length recentLabs)
    ++ " recent lab values are within normal limits."
  else "No recent lab results in the past week.".

End WithBuiltins.
End LabProcessor.

Module RiskScoreCalculator.
Section WithBuiltins.
Context `{Builtins}.

(** [l.code.toLowerCase().includes(key)]. *)
Definition codeHas (key : string) (l : LabResult.t) : bool :=
  JS.includes (toLowerCase (LabResult.code l)) key.

Definition isStatus (s : Status) (l : LabResult.t) : bool :=
  Status_eqb (LabResult.status l) s.

Definition assessRenalRisk (labs : list LabResult.t) : OrganSystemRisk.t :=
  let abnormalCount := JS.length (filter (fun l => negb (isStatus normal l)) labs) in
  let criticalCount := JS.length (filter (isStatus critical) labs) in
  let score := Z.min (abnormalCount * 10 + criticalCount * 20) 100 in
  {| OrganSystemRisk.system := "Renal";
     OrganSystemRisk.score := score;
     OrganSystemRisk.trend :=
       if criticalCount >? 0 then worsening
       else if abnormalCount >? 0 then organ_stable else improving;
     OrganSystemRisk.markers := map LabResult.name labs |}.

Definition assessCardiacRisk (labs : list LabResult.t) : OrganSystemRisk.t :=
  let abnormalCount := JS.length (filter (fun l => negb (isStatus normal l)) labs) in
  let criticalCount := JS.length (filter (isStatus critical) labs) in
  let score := Z.min (abnormalCount * 15 + criticalCount * 25) 100 in
  {| OrganSystemRisk.system := "Cardiac";
     OrganSystemRisk.score := score;
     OrganSystemRisk.trend :=
       if criticalCount >? 0 then worsening
       else if abnormalCount >? 0 then organ_stable else improving;
     OrganSystemRisk.markers := map LabResult.name labs |}.

Definition assessHepaticRisk (labs : list LabResult.t) : OrganSystemRisk.t :=
  let abnormalCount := JS.length (filter (fun l => negb (isStatus normal l)) labs) in
  let criticalCount := JS.length (filter (isStatus critical) labs) in
  let score := Z.min (abnormalCount * 8 + criticalCount * 18) 100 in
  {| OrganSystemRisk.system := "Hepatic";
     OrganSystemRisk.score := score;
     OrganSystemRisk.trend :=
       if criticalCount >? 0 then worsening
       else if abnormalCount >? 0 then organ_stable else improving;
     OrganSystemRisk.markers := map LabResult.name labs |}.

Definition isRenalLab (l : LabResult.t) : bool :=
  codeHas "creatinine" l || codeHas "bun" l || codeHas "egfr" l.

Definition isCardiacLab (l : LabResult.t) : bool :=
  codeHas "troponin" l || codeHas "bnp" l || codeHas "ck" l.

Definition isHepaticLab (l : LabResult.t) : bool :=
  codeHas "alt" l || codeHas "ast" l || codeHas "bilirubin" l || codeHas "albumin" l.

(** The array [systems] grows by [push]; each block appends at most one
    entry. *)
Definition calculateOrganSystemRisks (labs : list LabResult.t)
  : list OrganSystemRisk.t :=
  let systems : list OrganSystemRisk.t := [] in
  let renalLabs := filter isRenalLab labs in
  let systems :=
    if JS.length renalLabs >? 0 then systems ++ [assessRenalRisk renalLabs]
    else systems in
  let cardiacLabs := filter isCardiacLab labs in
  let systems :=
    if JS.length cardiacLabs >? 0 then systems ++ [assessCardiacRisk cardiacLabs]
    else systems in
  let hepaticLabs := filter isHepaticLab labs in
  let systems :=
    if JS.length hepaticLabs >? 0 then systems ++ [assessHepaticRisk hepaticLabs]
    else systems in
  systems.


(** [push] of a marker together with [score += n]. *)
Definition flag (marker : string) (n : Z) (acc : HighRiskMarkers.t)
  : HighRiskMarkers.t :=
  {| HighRiskMarkers.score := HighRiskMarkers.score acc + n;
     HighRiskMarkers.markers := HighRiskMarkers.markers acc ++ [marker] |}.

(** [x && p(x)] for the possibly undefined result of [find]. *)
Definition andThen {A} (o : option A) (p : A -> bool) : bool :=
  match o with
  | Some x => p x
  | None => false
  end.

Definition checkHighRiskMarkers (labs : list LabResult.t) : HighRiskMarkers.t :=
  let acc := {| HighRiskMarkers.score := 0; HighRiskMarkers.markers := [] |} in
  (* AKI markers *)
  let creatinine := find (codeHas "creatinine") labs in
  let acc :=
    match creatinine with
    | Some creatinine' =>
        if negb (isStatus normal creatinine') then
          let value := parseFloat (LabResult.value creatinine') in
          if negb (JS.isNaN value) && JS.gt value 2.0%float
          then flag "AKI Risk" 15 acc else acc
        else acc
    | None => acc
    end in
  (* sepsis markers *)
  let wbc := find (fun l => codeHas "wbc" l || codeHas "white" l) labs in
  let lactate := find (codeHas "lactate") labs in
  let acc :=
    if andThen wbc (isStatus critical)
       || andThen lactate (fun l => JS.gt (parseFloat (LabResult.value l)) 2%float)
    then flag "Sepsis Risk" 20 acc else acc in
  (* liver dysfunction *)
  let bilirubin := find (codeHas "bilirubin") labs in
  let alt := find (fun l => codeHas "alt" l || codeHas "alanine" l) labs in
  let acc :=
    if andThen bilirubin (fun l => negb (isStatus normal l))
       || andThen alt (fun l => negb (isStatus normal l))
    then flag "Hepatic Dysfunction" 10 acc else acc in
  (* coagulopathy *)
  let inr := find (codeHas "inr") labs in
  let plt := find (fun l => codeHas "platelet" l || codeHas "plt" l) labs in
  let acc :=
    if andThen inr (fun l => JS.gt (parseFloat (LabResult.value l)) 2%float)
       || andThen plt (fun l => JS.lt (parseFloat (LabResult.value l)) 50%float)
    then flag "Coagulopathy" 15 acc else acc in
  acc.

(** The recency filter of [calculatePatientRisk]; [now] is the value of
    [Date.now()] read by the call. *)
Definition isRecent (now : JS.number) (lab : LabResult.t) : bool :=
  let labDate := Date_getTime (LabResult.effectiveDateTime lab) in
  let daysSince := ((now - labDate) / (1000 * 60 * 60 * 24))%float in
  JS.le daysSince 2%float.

(** [factors] and [totalScore] are the two mutable locals; each block
    either leaves them or pushes one factor and adds its contribution. *)
Definition calculatePatientRisk (now : JS.number) (labs : list LabResult.t)
  : RiskScore.t :=
  let factors : list RiskFactor.t := [] in
  let totalScore := 0 in
  let recentLabs := filter (isRecent now) labs in
  (* critical value scoring *)
  let criticalCount := JS.length (filter (isStatus critical) recentLabs) in
  let '(factors, totalScore) :=
    if criticalCount >? 0 then
      let criticalScore := Z.min (criticalCount * 15) 45 in
      (factors ++ [ {| RiskFactor.name := "Critical Values";
                       RiskFactor.weight := 0.35%float;
                       RiskFactor.value := JS.string_of_count criticalCount ++ " critical";
                       RiskFactor.contribution := criticalScore |} ],
       totalScore + criticalScore)
    else (factors, totalScore) in
  (* abnormal value scoring *)
  let abnormalCount := JS.length (filter (isStatus abnormal) recentLabs) in
  let '(factors, totalScore) :=
    if abnormalCount >? 0 then
      let abnormalScore := Z.min (abnormalCount * 3) 30 in
      (factors ++ [ {| RiskFactor.name := "Abnormal Values";
                       RiskFactor.weight := 0.25%float;
                       RiskFactor.value := JS.string_of_count abnormalCount ++ " abnormal";
                       RiskFactor.contribution := abnormalScore |} ],
       totalScore + abnormalScore)
    else (factors, totalScore) in
  (* specific high-risk markers *)
  let highRiskMarkers := checkHighRiskMarkers recentLabs in
  let '(factors, totalScore) :=
    if HighRiskMarkers.score highRiskMarkers >? 0 then
      (factors ++ [ {| RiskFactor.name := "High-Risk Markers";
                       RiskFactor.weight := 0.40%float;
                       RiskFactor.value :=
                         JS.join ", " (HighRiskMarkers.markers highRiskMarkers);
                       RiskFactor.contribution := HighRiskMarkers.score highRiskMarkers |} ],
       totalScore + HighRiskMarkers.score highRiskMarkers)
    else (factors, totalScore) in
  (* risk level *)
  let level :=
    if totalScore >=? 80 then level_critical
    else if totalScore >=? 60 then level_high
    else if totalScore >=? 40 then level_moderate
    else level_low in
  {| RiskScore.score := Z.min totalScore 100;
     RiskScore.level := level;
     RiskScore.factors := factors |}.

(** [calculateMELD]: [None] is the [null] result. *)
Definition calculateMELD (labs : list LabResult.t) : option JS.number :=
  let bilirubin := find (codeHas "bilirubin") labs in
  let inr := find (codeHas "inr") labs in
  let creatinine := find (codeHas "creatinine") labs in
  match bilirubin, inr, creatinine with
  | Some bilirubin', Some inr', Some creatinine' =>
      let bilirubinValue := parseFloat (LabResult.value bilirubin') in
      let inrValue := parseFloat (LabResult.value inr') in
      let creatinineValue := parseFloat (LabResult.value creatinine') in
      if JS.isNaN bilirubinValue || JS.isNaN inrValue || JS.isNaN creatinineValue
      then None
      else
        let meld :=
          (3.78 * Math_log (JS.Math_max bilirubinValue 1) +
           11.2 * Math_log (JS.Math_max inrValue 1) +
           9.57 * Math_log (JS.Math_max creatinineValue 1) +
           6.43)%float in
        Some (JS.Math_round (JS.Math_min (JS.Math_max meld 6%float) 40%float))
  | _, _, _ => None
  end.

(** The body of the [forEach] callback of [detectDeterioration]: the new
    value of the captured counter [worseningCount]. *)
Definition deteriorationStep (previousLabs : list LabResult.t)
  (worseningCount : Z) (currentLab : LabResult.t) : Z :=
  match find (fun p => String.eqb (LabResult.code p) (LabResult.code currentLab))
             previousLabs with
  | None => worseningCount
  | Some previousLab =>
      (* status worsened *)
      let worseningCount :=
        if isStatus critical currentLab && negb (isStatus critical previousLab)
        then worseningCount + 1
        else if isStatus abnormal currentLab && isStatus normal previousLab
        then worseningCount + 1
        else worseningCount in
      (* numeric trends for key markers *)
      let currentValue := parseFloat (LabResult.value currentLab) in
      let previousValue := parseFloat (LabResult.value previousLab) in
      if negb (JS.isNaN currentValue) && negb (JS.isNaN previousValue) then
        let percentChange :=
          (((currentValue - previousValue) / previousValue) * 100)%float in
        let worseningCount :=
          if codeHas "creatinine" currentLab && JS.gt percentChange 25%float
          then worseningCount + 1 else worseningCount in
        let worseningCount :=
          if codeHas "lactate" currentLab && JS.gt percentChange 20%float
          then worseningCount + 1 else worseningCount in
        worseningCount
      else worseningCount
  end.

Definition detectDeterioration (currentLabs previousLabs : list LabResult.t)
  : bool :=
  if JS.length previousLabs =? 0 then false
  else
    let worseningCount := fold_left (deteriorationStep previousLabs) currentLabs 0 in
    worseningCount >=? 3.

End WithBuiltins.
End RiskScoreCalculator.

(** ** The alert panel ([CriticalAlerts])

    What the component renders, without the markup: the placeholder while
    loading, the green "All Clear" card, or up to two panels. *)

Module CriticalAlerts.

Inductive View :=
| Placeholder
| AllClear
| Panels (criticalPanel : option (list LabResult.t))
         (abnormalPanel : option string).

Definition render (labs : list LabResult.t) (loading : bool) : View :=
  if loading then Placeholder
  else
    let criticalLabs :=
      filter (fun lab => Status_eqb (LabResult.status lab) critical) labs in
    let abnormalLabs :=
      filter (fun lab => Status_eqb (LabResult.status lab) abnormal) labs in
    if (JS.length criticalLabs =? 0) && (JS.length abnormalLabs =? 0) then AllClear
    else
      Panels
        (if JS.length criticalLabs >? 0 then Some (firstn 3 criticalLabs) else None)
        (if JS.length abnormalLabs >? 0 then
           Some (JS.string_of_count (JS.length abnormalLabs) ++ " lab value"
                 ++ (if negb (JS.length abnormalLabs =? 1)%Z then "s are" else " is")
                 ++ " outside normal range")%string
         else None).

End CriticalAlerts.

(** ** The dashboard ([LabDashboard]): loading the data of a patient

    The component state is the tuple of the [useState] cells that
    [fetchData] writes (the selected patient and the active tab are left
    out); a run of [fetchData] is the composition of the setter calls it
    makes, given the answers of the three requests. *)

Module LabDashboard.

Record State := {
  patient : option Patient.t;
  labResults : list LabResult.t;
  labTrends : list LabTrend.t;
  diagnosticReports : list DiagnosticReport.t;
  loading : bool;
  refreshing : bool
}.

(** The initial values passed to [useState]. *)
Definition initialState : State :=
  {| patient := None; labResults := []; labTrends := [];
     diagnosticReports := []; loading := true; refreshing := false |}.

Definition setPatient (v : option Patient.t) (s : State) : State :=
  {| patient := v; labResults := labResults s; labTrends := labTrends s;
     diagnosticReports := diagnosticReports s; loading := loading s;
     refreshing := refreshing s |}.

Definition setLabResults (v : list LabResult.t) (s : State) : State :=
  {| patient := patient s; labResults := v; labTrends := labTrends s;
     diagnosticReports := diagnosticReports s; loading := loading s;
     refreshing := refreshing s |}.

Definition setLabTrends (v : list LabTrend.t) (s : State) : State :=
  {| patient := patient s; labResults := labResults s; labTrends := v;
     diagnosticReports := diagnosticReports s; loading := loading s;
     refreshing := refreshing s |}.

Definition setDiagnosticReports (v : list DiagnosticReport.t) (s : State) : State :=
  {| patient := patient s; labResults := labResults s; labTrends := labTrends s;
     diagnosticReports := v; loading := loading s;
     refreshing := refreshing s |}.

Definition setLoading (v : bool) (s : State) : State :=
  {| patient := patient s; labResults := labResults s; labTrends := labTrends s;
     diagnosticReports := diagnosticReports s; loading := v;
     refreshing := refreshing s |}.

Definition setRefreshing (v : bool) (s : State) : State :=
  {| patient := patient s; labResults := labResults s; labTrends := labTrends s;
     diagnosticReports := diagnosticReports s; loading := loading s;
     refreshing := v |}.

(** The answers of the server to the three requests of a run. *)
Record Responses := {
  patientResponse : JS.Completion PatientResource.t;
  observationResponse : JS.Completion FHIRBundle.t;
  reportResponse : JS.Completion ReportBundle.t
}.

Section WithBuiltins.
Context `{Builtins}.

(** [fetchData]: the state after the run.  The three client methods catch
    their own exceptions; inside the [try] only [processLabTrends] can
    throw, and then the statements after it are skipped. *)
Definition fetchData (env : option string) (responses : Responses)
  (isRefresh : bool) (s : State) : State :=
  let s := if isRefresh then setRefreshing true s else setLoading true s in
  let patientData := FHIRClient.getPatient env (patientResponse responses) in
  let s := setPatient (Some patientData) s in
  let labs := FHIRClient.getLabResults (observationResponse responses) in
  let s := setLabResults labs s in
  let s :=
    match LabProcessor.processLabTrends labs with
    | JS.Normal trends =>
        let s := setLabTrends trends s in
        let reports := FHIRClient.getDiagnosticReports (reportResponse responses) in
        setDiagnosticReports reports s
    | JS.Throw _ => s
    end in
  setRefreshing false (setLoading false s).

(** [labResults.slice(0, 12)], the cards of the tab of recent results. *)
Definition recentLabs (s : State) : list LabResult.t :=
  firstn 12 (labResults s).

(** The summary line above the tabs; [now] is the clock at rendering. *)
Definition summary (now : JS.number) (s : State) : string :=
  LabProcessor.getRecentLabsSummary now (labResults s).

End WithBuiltins.
End LabDashboard.

(** ** The patient menu ([PatientSelector]) *)

Module PatientSelector.

(** The array [selectPatient] writes to the [recentPatients] entry of the
    local storage; [stored] is the array found there, [None] when the
    entry does not exist. *)
Definition selectPatient (patientId : string) (stored : option (list string))
  : list string :=
  let recent := match stored with Some recent => recent | None => [] end in
  let updated :=
    firstn 5 (patientId
              :: filter (fun id => negb (String.eqb id patientId)) recent) in
  updated.

End PatientSelector.

(** ** A reference host

    A concrete instance of [Builtins], used to run the embedding on
    examples.  Each function agrees with the host function on the inputs
    described; the properties below are proved for every instance. *)

Module Host.

(** [toLowerCase] on ASCII text. *)
Definition lowerAscii (c : ascii) : ascii :=
  let n := N_of_ascii c in
  if ((65 <=? n) && (n <=? 90))%N then ascii_of_N (n + 32) else c.

Fixpoint lowerCaseAscii (s : string) : string :=
  match s with
  | EmptyString => EmptyString
  | String c s' => String (lowerAscii c) (lowerCaseAscii s')
  end.

(** A run of decimal digits as an integer. *)
Definition number_of_digits (s : string) : option Z :=
  match s with
  | EmptyString => None
  | _ => option_map Z.of_N (JS.digits s 0)
  end.

Definition isLeap (y : Z) : bool :=
  ((y mod 4 =? 0) && negb (y mod 100 =? 0)) || (y mod 400 =? 0).

Definition daysInMonth (y m : Z) : Z :=
  if m =? 2 then (if isLeap y then 29 else 28)
  else if (m =? 4) || (m =? 6) || (m =? 9) || (m =? 11) then 30
  else 31.

(** Days from 1970-01-01 to a date of the proleptic Gregorian calendar. *)
Definition daysFromCivil (y m d : Z) : Z :=
  let y' := if m <=? 2 then y - 1 else y in
  let era := y' / 400 in
  let yoe := y' - era * 400 in
  let doy := (153 * (if m >? 2 then m - 3 else m + 9) + 2) / 5 + d - 1 in
  let doe := yoe * 365 + yoe / 4 - yoe / 100 + doy in
  era * 146097 + doe - 719468.

(** [new Date(s).getTime()] for date-times written
    [YYYY-MM-DDTHH:mm:ssZ]; NaN for any other text. *)
Definition getTimeISO (s : string) : JS.number :=
  let field i n := number_of_digits (String.substring i n s) in
  let sep i c := String.eqb (String.substring i 1 s) c in
  if (String.length s =? 20)%nat && sep 4%nat "-" && sep 7%nat "-"
     && sep 10%nat "T" && sep 13%nat ":" && sep 16%nat ":" && sep 19%nat "Z"
  then
    match field 0%nat 4%nat, field 5%nat 2%nat, field 8%nat 2%nat,
          field 11%nat 2%nat, field 14%nat 2%nat, field 17%nat 2%nat with
    | Some y, Some m, Some d, Some hh, Some mm, Some ss =>
        if (1 <=? m) && (m <=? 12) && (1 <=? d) && (d <=? daysInMonth y m)
           && (hh <=? 23) && (mm <=? 59) && (ss <=? 59)
        then JS.of_Z ((((daysFromCivil y m d * 24 + hh) * 60 + mm) * 60 + ss) * 1000)
        else PrimFloat.nan
    | _, _, _, _, _, _ => PrimFloat.nan
    end
  else PrimFloat.nan.

(** [parseFloat] on a string: leading blanks are skipped, then an optional
    sign and either [Infinity] or a decimal numeral (digits, an optional
    fraction, an optional exponent) are read; NaN when no numeral starts
    there.  The value is a product or quotient of two integers, which is
    the nearest number for numerals of at most 15 significant digits and
    powers of ten up to 22. *)
Fixpoint takeDigits (s : string) : string * string :=
  match s with
  | String c s' =>
      match JS.digit c with
      | Some _ => let '(ds, rest) := takeDigits s' in (String c ds, rest)
      | None => (EmptyString, s)
      end
  | EmptyString => (EmptyString, EmptyString)
  end.

Definition isBlank (c : ascii) : bool :=
  let n := N_of_ascii c in
  (((9 <=? n) && (n <=? 13)) || (n =? 32))%N.

Fixpoint skipBlanks (s : string) : string :=
  match s with
  | String c s' => if isBlank c then skipBlanks s' else s
  | EmptyString => EmptyString
  end.

Definition exponentOf (s : string) : Z :=
  let signed (neg : bool) (ds : string) : Z :=
    match JS.digits ds 0 with
    | Some n => if (String.length ds =? 0)%nat then 0
                else if neg then - Z.of_N n else Z.of_N n
    | None => 0
    end in
  let afterE (s' : string) : Z :=
    match s' with
    | String "-" r => signed true (fst (takeDigits r))
    | String "+" r => signed false (fst (takeDigits r))
    | _ => signed false (fst (takeDigits s'))
    end in
  match s with
  | String "e" s' => afterE s'
  | String "E" s' => afterE s'
  | _ => 0
  end.

Definition parseUnsigned (s : string) : option JS.number :=
  if String.prefix "Infinity" s then Some PrimFloat.infinity
  else
    let '(ip, rest) := takeDigits s in
    let '(fp, rest) :=
      match rest with
      | String "." rest' => takeDigits rest'
      | _ => (EmptyString, rest)
      end in
    match JS.digits (ip ++ fp) 0 with
    | Some n =>
        if ((String.length ip =? 0) && (String.length fp =? 0))%nat then None
        else
          let k := exponentOf rest - Z.of_nat (String.length fp) in
          if k <? 0
          then Some (JS.of_Z (Z.of_N n) / JS.of_Z (10 ^ (- k)))%float
          else Some (JS.of_Z (Z.of_N n) * JS.of_Z (10 ^ k))%float
    | None => None
    end.

Definition parseDecimal (s : string) : JS.number :=
  match skipBlanks s with
  | String "-" s' =>
      match parseUnsigned s' with
      | Some x => PrimFloat.opp x
      | None => PrimFloat.nan
      end
  | String "+" s' =>
      match parseUnsigned s' with
      | Some x => x
      | None => PrimFloat.nan
      end
  | s' =>
      match parseUnsigned s' with
      | Some x => x
      | None => PrimFloat.nan
      end
  end.

(** A natural logarithm: the argument is scaled into [[sqrt(1/2), sqrt 2)]
    and the series of [2 atanh((m-1)/(m+1))] is summed. *)
Fixpoint atanhSeries (n : nat) (f2 term : JS.number) (k : JS.number)
  : JS.number :=
  match n with
  | O => 0%float
  | S n' => (term / k + atanhSeries n' f2 (term * f2) (k + 2))%float
  end.

Definition logSeries (x : JS.number) : JS.number :=
  if PrimFloat.is_nan x || PrimFloat.ltb x 0%float then PrimFloat.nan
  else if PrimFloat.is_zero x then PrimFloat.neg_infinity
  else if PrimFloat.is_infinity x then x
  else
    let '(m, e) := Z.frexp x in
    let '(m, e) :=
      if PrimFloat.ltb m 0.70710678118654757%float
      then ((m * 2)%float, e - 1) else (m, e) in
    let f := ((m - 1) / (m + 1))%float in
    (JS.of_Z e * 0.69314718055994529 + 2 * atanhSeries 14 (f * f) f 1)%float.

(** Seven days earlier, as in a zone without a clock change in between. *)
Definition minus7daysUTC (t : JS.number) : JS.number :=
  (t - 7 * 24 * 60 * 60 * 1000)%float.

#[export] Instance builtins : Builtins := {|
  Date_getTime := getTimeISO;
  toLowerCase := lowerCaseAscii;
  parseFloat_string := parseDecimal;
  Math_log := logSeries;
  Math_log_1 := eq_refl;
  Date_minus7days := minus7daysUTC
|}.

(** The text of numbers.  A finite number is [m * 2^e] exactly, so the
    digits are computed on integers. *)
Fixpoint zeros (k : nat) : string :=
  match k with
  | O => EmptyString
  | S k' => String "0" (zeros k')
  end.

(** The decimal numeral of [n / 10^k], with [k] digits after the point. *)
Definition fixedPoint (n : Z) (k : nat) : string :=
  let ds := JS.string_of_count n in
  let ds := (zeros (S k - String.length ds) ++ ds)%string in
  let len := String.length ds in
  if (k =? 0)%nat then ds
  else (String.substring 0 (len - k) ds ++ "."
        ++ String.substring (len - k) k ds)%string.

(** The integer nearest to [m * 2^e * 10^k], the larger one on a tie. *)
Definition scaledNearest (m : positive) (e : Z) (k : nat) : Z :=
  let num := Z.pos m * 10 ^ Z.of_nat k in
  if 0 <=? e then num * 2 ^ e
  else (2 * num + 2 ^ (- e)) / 2 ^ (1 - e).

(** The numeral with the least number of decimals, from [k] on, that reads
    back as [x]. *)
Fixpoint shortest (fuel : nat) (x : JS.number) (m : positive) (e : Z) (k : nat)
  : string :=
  let n := scaledNearest m e k in
  match fuel with
  | O => fixedPoint n k
  | S fuel' =>
      if PrimFloat.eqb (JS.of_Z n / JS.of_Z (10 ^ Z.of_nat k))%float x
      then fixedPoint n k
      else shortest fuel' x m e (S k)
  end.

(** [Number.prototype.toString] for the numbers that print without an
    exponent and with at most 15 significant digits (magnitudes from 1e-6
    to below 2^53), for the zeros, the infinities and NaN. *)
Definition toDecimal (x : JS.number) : string :=
  match Prim2SF x with
  | S754_nan => "NaN"
  | S754_zero _ => "0"
  | S754_infinity s => if s then "-Infinity" else "Infinity"
  | S754_finite s m e =>
      ((if s then "-" else "") ++ shortest 20 (PrimFloat.abs x) m e 0)%string
  end.

(** [x.toFixed(1)]: for a magnitude below 1e21 the nearest multiple of
    1/10, the larger one on a tie; beyond, the text of [toString]. *)
Definition toFixedOne (x : JS.number) : string :=
  match Prim2SF x with
  | S754_nan => "NaN"
  | S754_zero _ => "0.0"
  | S754_infinity s => if s then "-Infinity" else "Infinity"
  | S754_finite s m e =>
      if PrimFloat.leb 1e21%float (PrimFloat.abs x) then toDecimal x
      else ((if s then "-" else "") ++ fixedPoint (scaledNearest m e 1) 1)%string
  end.

(** [trim] on text whose white space is ASCII. *)
Fixpoint dropBlanks (l : list ascii) : list ascii :=
  match l with
  | c :: l' => if isBlank c then dropBlanks l' else l
  | [] => []
  end.

Definition trimBlanks (s : string) : string :=
  string_of_list_ascii
    (rev (dropBlanks (rev (dropBlanks (list_ascii_of_string s))))).

#[export] Instance formatting : Formatting := {|
  Number_toString := toDecimal;
  Number_toFixed1 := toFixedOne;
  String_trim := trimBlanks
|}.

End Host.

(** ** Vocabulary of the specification

    The notions the properties are stated with, written after the words of
    the specification; the theorems relate them to the embedded code. *)

Module Spec.
Section WithBuiltins.
Context `{Builtins} `{Formatting}.

Definition hasStatus (s : Status) (l : LabResult.t) : bool :=
  Status_eqb (LabResult.status l) s.

(** The number of results of a collection satisfying [p]. *)
Definition count (p : LabResult.t -> bool) (labs : list LabResult.t) : Z :=
  Z.of_nat (List.length (filter p labs)).

(** Case-insensitive occurrence of one of the [keys] in the analyte code. *)
Definition coded (keys : list string) (l : LabResult.t) : bool :=
  existsb (fun key => JS.includes (toLowerCase (LabResult.code l)) key) keys.

(** [x] is the first element of [l] satisfying [p]. *)
Definition FirstMatch {A} (p : A -> bool) (l : list A) (x : A) : Prop :=
  exists before after,
    l = before ++ x :: after /\ p x = true /\
    forall y, In y before -> p y = false.

(** The value of a result, read as a number, lies above (below) a
    bound; false when the value is not numeric. *)
Definition numericAbove (bound : JS.number) (l : LabResult.t) : bool :=
  negb (JS.isNaN (parseFloat (LabResult.value l)))
  && JS.gt (parseFloat (LabResult.value l)) bound.

Definition numericBelow (bound : JS.number) (l : LabResult.t) : bool :=
  negb (JS.isNaN (parseFloat (LabResult.value l)))
  && JS.lt (parseFloat (LabResult.value l)) bound.

(** [p] holds for the first result of [labs] coded with one of [keys]. *)
Definition firstCoded (keys : list string) (p : LabResult.t -> bool)
  (labs : list LabResult.t) : bool :=
  match find (coded keys) labs with
  | Some l => p l
  | None => false
  end.

(** The four high-risk marker patterns, each decided on the first result
    of the analytes it names. *)
Definition akiRisk (labs : list LabResult.t) : bool :=
  firstCoded ["creatinine"]
    (fun l => negb (hasStatus normal l) && numericAbove 2%float l) labs.

Definition sepsisRisk (labs : list LabResult.t) : bool :=
  firstCoded ["wbc"; "white"] (hasStatus critical) labs
  || firstCoded ["lactate"] (numericAbove 2%float) labs.

Definition hepaticDysfunction (labs : list LabResult.t) : bool :=
  firstCoded ["bilirubin"] (fun l => negb (hasStatus normal l)) labs
  || firstCoded ["alt"; "alanine"] (fun l => negb (hasStatus normal l)) labs.

Definition coagulopathy (labs : list LabResult.t) : bool :=
  firstCoded ["inr"] (numericAbove 2%float) labs
  || firstCoded ["platelet"; "plt"] (numericBelow 50%float) labs.

(** Points and marker name contributed by a pattern that may or may not
    be triggered. *)
Definition points (triggered : bool) (n : Z) : Z :=
  if triggered then n else 0.

Definition marker (triggered : bool) (name : string) : list string :=
  if triggered then [name] else [].

(** *** Deterioration *)

(** The previous result a current result is matched with: the first one
    of the same analyte code. *)
Definition previousOf (previousLabs : list LabResult.t) (c : LabResult.t)
  : option LabResult.t :=
  find (fun p => String.eqb (LabResult.code p) (LabResult.code c)) previousLabs.

(** The status moved to critical from non-critical, or to abnormal from
    normal. *)
Definition escalated (c p : LabResult.t) : bool :=
  (hasStatus critical c && negb (hasStatus critical p))
  || (hasStatus abnormal c && hasStatus normal p).

(** The percent change from the previous to the current value, when both
    are numeric. *)
Definition percentChange (c p : LabResult.t) : option JS.number :=
  let cv := parseFloat (LabResult.value c) in
  let pv := parseFloat (LabResult.value p) in
  if JS.isNaN cv || JS.isNaN pv then None
  else Some (((cv - pv) / pv) * 100)%float.

Definition increaseAbove (bound : JS.number) (c p : LabResult.t) : bool :=
  match percentChange c p with
  | Some change => JS.gt change bound
  | None => false
  end.

(** The worsening count of one current result. *)
Definition worsening (previousLabs : list LabResult.t) (c : LabResult.t) : Z :=
  match previousOf previousLabs c with
  | None => 0
  | Some p =>
      points (escalated c p) 1
      + points (coded ["creatinine"] c && increaseAbove 25%float c p) 1
      + points (coded ["lactate"] c && increaseAbove 20%float c p) 1
  end.

Definition worseningTotal (currentLabs previousLabs : list LabResult.t) : Z :=
  fold_right Z.add 0 (map (worsening previousLabs) currentLabs).

(** *** MELD *)

Definition meldFormula (bilirubin inr creatinine : JS.number) : JS.number :=
  (3.78 * Math_log (JS.Math_max bilirubin 1)
   + 11.2 * Math_log (JS.Math_max inr 1)
   + 9.57 * Math_log (JS.Math_max creatinine 1)
   + 6.43)%float.

Definition numeric (l : LabResult.t) : bool :=
  negb (JS.isNaN (parseFloat (LabResult.value l))).

(** *** Status classifier *)

(** The reference range with its high bound removed. *)
Definition withoutHigh (r : FHIRRange.t) : FHIRRange.t :=
  {| FHIRRange.low := FHIRRange.low r;
     FHIRRange.high := None;
     FHIRRange.text := FHIRRange.text r |}.

(** The value falls outside a bound that the table entry defines. *)
Definition outsideDefinedBound (range : CriticalRange.t) (value : JS.number)
  : Prop :=
  (exists high, CriticalRange.high range = Some high /\ JS.gt value high = true)
  \/ (exists low, CriticalRange.low range = Some low /\ JS.lt value low = true).

(** *** Trends *)

(** What the specification says of one emitted trend: it is stable
    exactly when there is no previous value or the percent change is below
    5 in magnitude; otherwise it is rising for a positive delta and
    falling for a delta that is zero or negative; delta and percent change
    are computed from the current and the previous value, and a previous
    value of zero never gives a stable trend. *)
Definition TrendAsSpecified (t : LabTrend.t) : Prop :=
  (LabTrend.trend t = stable <->
     LabTrend.previousValue t = None
     \/ exists deltaPercent,
          LabTrend.deltaPercent t = Some deltaPercent /\
          JS.lt (JS.Math_abs deltaPercent) 5%float = true)
  /\ (LabTrend.trend t <> stable ->
      exists delta,
        LabTrend.delta t = Some delta /\
        (JS.gt delta 0%float = true -> LabTrend.trend t = rising) /\
        (JS.le delta 0%float = true -> LabTrend.trend t = falling))
  /\ (forall previous,
        LabTrend.previousValue t = Some previous ->
        LabTrend.delta t = Some (LabTrend.currentValue t - previous)%float /\
        LabTrend.deltaPercent t
        = Some (((LabTrend.currentValue t - previous) / previous) * 100)%float /\
        (PrimFloat.is_zero previous = true -> LabTrend.trend t <> stable)).

(** *** Calls and the wall clock *)

(** The state outside its arguments that a call can read: the wall
    clock. *)
Record World := {
  clock : JS.number
}.

(** A call is pure when its result does not depend on the world it runs
    in. *)
Definition Pure {A} (call : World -> A) : Prop :=
  forall w1 w2, call w1 = call w2.

(** The calls of the derivation functions.  Only [calculatePatientRisk]
    (through [Date.now()]) and [getRecentLabsSummary] (through
    [new Date()]) read the clock. *)
Definition call_calculatePatientRisk (labs : list LabResult.t)
  : World -> RiskScore.t :=
  fun w => RiskScoreCalculator.calculatePatientRisk (clock w) labs.

Definition call_getRecentLabsSummary (labs : list LabResult.t)
  : World -> string :=
  fun w => LabProcessor.getRecentLabsSummary (clock w) labs.

Definition call_processLabTrends (labs : list LabResult.t)
  : World -> JS.Completion (list LabTrend.t) :=
  fun _ => LabProcessor.processLabTrends labs.

Definition call_calculateOrganSystemRisks (labs : list LabResult.t)
  : World -> list OrganSystemRisk.t :=
  fun _ => RiskScoreCalculator.calculateOrganSystemRisks labs.

Definition call_calculateMELD (labs : list LabResult.t)
  : World -> option JS.number :=
  fun _ => RiskScoreCalculator.calculateMELD labs.

Definition call_detectDeterioration (currentLabs previousLabs : list LabResult.t)
  : World -> bool :=
  fun _ => RiskScoreCalculator.detectDeterioration currentLabs previousLabs.

Definition call_getLabNarrative (lab : LabResult.t) (trend : option LabTrend.t)
  : World -> string :=
  fun _ => LabProcessor.getLabNarrative lab trend.

(** The sum of the contributions of a list of risk factors. *)
Definition sumContributions (fs : list RiskFactor.t) : Z :=
  fold_right Z.add 0 (map RiskFactor.contribution fs).

(** An organ system: its name, the analyte keywords that select its
    results, and its weights (wA, wC). *)
Record OrganSystem := {
  systemName : string;
  keywords : list string;
  wA : Z;
  wC : Z
}.

Definition Renal : OrganSystem :=
  {| systemName := "Renal"; keywords := ["creatinine"; "bun"; "egfr"];
     wA := 10; wC := 20 |}.
Definition Cardiac : OrganSystem :=
  {| systemName := "Cardiac"; keywords := ["troponin"; "bnp"; "ck"];
     wA := 15; wC := 25 |}.
Definition Hepatic : OrganSystem :=
  {| systemName := "Hepatic"; keywords := ["alt"; "ast"; "bilirubin"; "albumin"];
     wA := 8; wC := 18 |}.

Definition organSystems : list OrganSystem := [Renal; Cardiac; Hepatic].

(** The results of a collection that belong to an organ system. *)
Definition matching (sys : OrganSystem) (labs : list LabResult.t)
  : list LabResult.t :=
  filter (coded (keywords sys)) labs.

End WithBuiltins.
End Spec.

(** ** Further notions

    Notions used to state properties of the code that the specification
    does not mention. *)

Module Notions.

(** The result carries the analyte name [key]. *)
Definition named (key : string) (l : LabResult.t) : bool :=
  String.eqb (LabResult.name l) key.

Definition nonEmpty {A} (l : list A) : option (list A) :=
  match l with [] => None | _ => Some l end.

(** [g] groups the results [labs] by name: its keys are distinct, and the
    group of a key holds the results of that name in the order of the
    input; a name no result carries is not a key. *)
Definition Grouping (labs : list LabResult.t) (g : JS.Obj (list LabResult.t))
  : Prop :=
  NoDup (map fst g)
  /\ forall key, JS.own g key = nonEmpty (filter (named key) labs).

(** The group holds a numeric result. *)
Definition hasNumeric (entry : string * list LabResult.t) : bool :=
  existsb LabProcessor.isNumeric (snd entry).

(** The numeric results of an analyte, in the order of the input. *)
Definition numericResultsOf (labName : string) (labs : list LabResult.t)
  : list LabResult.t :=
  filter (fun l => String.eqb (LabResult.name l) labName
                   && LabProcessor.isNumeric l) labs.

(** The distinct elements of a list in the order of their first
    occurrence. *)
Definition firstOccurrences (l : list string) : list string :=
  fold_left (fun seen k => if existsb (String.eqb k) seen then seen else seen ++ [k])
            l [].

(** [l] is [l'] with some elements left out. *)
Fixpoint subsequence (l l' : list string) : bool :=
  match l, l' with
  | [], _ => true
  | _ :: _, [] => false
  | x :: r, y :: r' =>
      if String.eqb x y then subsequence r r' else subsequence l r'
  end.

(** The current results that have a previous result of the same code. *)
Definition matched (currentLabs previousLabs : list LabResult.t)
  : list LabResult.t :=
  filter (fun c =>
            existsb (fun p => String.eqb (LabResult.code p) (LabResult.code c))
                    previousLabs)
         currentLabs.

(** The points [checkHighRiskMarkers] adds together with each marker. *)
Definition markerPoints (marker : string) : Z :=
  if String.eqb marker "AKI Risk" then 15
  else if String.eqb marker "Sepsis Risk" then 20
  else if String.eqb marker "Hepatic Dysfunction" then 10
  else if String.eqb marker "Coagulopathy" then 15
  else 0.


(** The value of a finite binary number with sign [s], mantissa [m] and
    exponent [e], as an integer multiple of 2^[ez]. *)
Definition aligned (s : bool) (m : positive) (e ez : Z) : Z :=
  cond_Zopp s (Z.pos (fst (shl_align m e ez))).

Section WithBuiltins.
Context `{Builtins}.


(** The analytes [calculateMELD] looks for. *)
Definition isMeldLab (l : LabResult.t) : bool :=
  RiskScoreCalculator.codeHas "bilirubin" l
  || RiskScoreCalculator.codeHas "inr" l
  || RiskScoreCalculator.codeHas "creatinine" l.

(** The date of a result parses. *)
Definition validDate (l : LabResult.t) : bool :=
  negb (JS.isNaN (Date_getTime (LabResult.effectiveDateTime l))).

End WithBuiltins.
End Notions.

(** ** Sample inputs *)

Module Sample.

Definition lab (code name : string) (value : Value) (status : Status)
  (effectiveDateTime : string) : LabResult.t :=
  {| LabResult.id := code ++ "@" ++ effectiveDateTime;
     LabResult.code := code;
     LabResult.name := name;
     LabResult.value := value;
     LabResult.unit := "mmol/L";
     LabResult.referenceRange := None;
     LabResult.status := status;
     LabResult.effectiveDateTime := effectiveDateTime;
     LabResult.category := "laboratory";
     LabResult.interpretation := None |}.

(** 2024-01-01T00:00:00Z. *)
Definition now : JS.number := 1704067200000%float.

(** Two critical results and an abnormal one, all within the last day and
    none of them a marker analyte. *)
Definition twoCriticalOneAbnormal : list LabResult.t :=
  [ lab "potassium" "Potassium" (VNum 6.9%float) critical "2023-12-31T08:00:00Z";
    lab "sodium" "Sodium" (VNum 118%float) critical "2023-12-31T08:00:00Z";
    lab "chloride" "Chloride" (VNum 110%float) abnormal "2023-12-31T08:00:00Z";
    lab "calcium" "Calcium" (VNum 2.3%float) normal "2023-12-31T08:00:00Z" ].

(** Two creatinine results of the last day: the one that comes first is
    normal, the other is critical with a value above 2.0. *)
Definition normalThenCriticalCreatinine : list LabResult.t :=
  [ lab "creatinine" "Creatinine" (VNum 1.0%float) normal "2023-12-31T20:00:00Z";
    lab "creatinine" "Creatinine" (VNum 3.4%float) critical "2023-12-31T08:00:00Z" ].

(** A single critical creatinine result. *)
Definition criticalCreatinineResult : LabResult.t :=
  lab "creatinine" "Creatinine" (VNum 4.2%float) critical "2023-12-31T08:00:00Z".

Definition criticalCreatinine : list LabResult.t := [criticalCreatinineResult].

(** Two windows of results of one patient: sodium turns abnormal,
    creatinine rises by 30 percent and lactate by 25 percent. *)
Definition previousWindow : list LabResult.t :=
  [ lab "sodium" "Sodium" (VNum 140%float) normal "2023-12-30T08:00:00Z";
    lab "creatinine" "Creatinine" (VNum 1.0%float) abnormal "2023-12-30T08:00:00Z";
    lab "lactate" "Lactate" (VNum 2.0%float) abnormal "2023-12-30T08:00:00Z" ].

Definition currentWindow : list LabResult.t :=
  [ lab "sodium" "Sodium" (VNum 150%float) abnormal "2023-12-31T08:00:00Z";
    lab "creatinine" "Creatinine" (VNum 1.3%float) abnormal "2023-12-31T08:00:00Z";
    lab "lactate" "Lactate" (VNum 2.5%float) abnormal "2023-12-31T08:00:00Z" ].

(** Bilirubin, INR and creatinine, all at 1.0; the second bilirubin
    result is not used. *)
Definition liverPanelBilirubin : LabResult.t :=
  lab "bilirubin" "Bilirubin, Total" (VNum 1.0%float) normal "2023-12-31T08:00:00Z".
Definition liverPanelINR : LabResult.t :=
  lab "inr" "INR(PT)" (VStr "1.0") normal "2023-12-31T08:00:00Z".
Definition liverPanelCreatinine : LabResult.t :=
  lab "creatinine" "Creatinine" (VNum 1.0%float) normal "2023-12-31T08:00:00Z".

Definition liverPanel : list LabResult.t :=
  [ liverPanelBilirubin; liverPanelINR; liverPanelCreatinine;
    lab "bilirubin" "Bilirubin, Direct" (VStr "N/A") normal "2023-12-31T08:00:00Z" ].

(** The reference range of the base excess. *)
Definition baseExcessLow : Quantity.t :=
  {| Quantity.value := (-2)%float; Quantity.unit := "mEq/L" |}.
Definition baseExcessHigh : Quantity.t :=
  {| Quantity.value := 3%float; Quantity.unit := "mEq/L" |}.
Definition baseExcessRange : FHIRRange.t :=
  {| FHIRRange.low := Some baseExcessLow;
     FHIRRange.high := Some baseExcessHigh;
     FHIRRange.text := None |}.

Definition observation (name : string) (value : JS.number)
  (range : option FHIRRange.t) : FHIRObservation.t :=
  {| FHIRObservation.id := "obs-1";
     FHIRObservation.status := "final";
     FHIRObservation.code :=
       {| CodeableConcept.coding :=
            Some [ {| Coding.system := "http://loinc.org";
                      Coding.code := "0000-0";
                      Coding.display := name |} ];
          CodeableConcept.text := None |};
     FHIRObservation.effectiveDateTime := "2023-12-31T08:00:00Z";
     FHIRObservation.valueQuantity :=
       Some {| Quantity.value := value; Quantity.unit := "mmol/L" |};
     FHIRObservation.referenceRange :=
       match range with Some r => Some [r] | None => None end;
     FHIRObservation.interpretation := None |}.

(** An analyte whose name contains two keys of the critical table. *)
Definition sodiumPotassiumRatio : FHIRObservation.t :=
  observation "Sodium/Potassium Ratio" 5%float None.

Definition highPotassium : FHIRObservation.t :=
  observation "Potassium, Whole Blood" 7.1%float None.

(** Series of two results of one analyte. *)
Definition seriesOlder : LabResult.t :=
  lab "magnesium" "Magnesium" (VNum 10.0%float) normal "2023-12-30T08:00:00Z".
Definition seriesPlus3 : LabResult.t :=
  lab "magnesium" "Magnesium" (VNum 10.3%float) normal "2023-12-31T08:00:00Z".
Definition seriesPlus6 : LabResult.t :=
  lab "magnesium" "Magnesium" (VNum 10.6%float) normal "2023-12-31T08:00:00Z".
Definition seriesFromZero : list LabResult.t :=
  [ lab "crp" "CRP" (VNum 0%float) normal "2023-12-30T08:00:00Z";
    lab "crp" "CRP" (VNum 4%float) normal "2023-12-31T08:00:00Z" ].
Definition seriesZeroZero : list LabResult.t :=
  [ lab "crp" "CRP" (VNum 0%float) normal "2023-12-30T08:00:00Z";
    lab "crp" "CRP" (VNum 0%float) normal "2023-12-31T08:00:00Z" ].

(** An observation that carries no quantity. *)
Definition withoutValue : FHIRObservation.t :=
  {| FHIRObservation.id := "obs-2";
     FHIRObservation.status := "final";
     FHIRObservation.code :=
       {| CodeableConcept.coding := None;
          CodeableConcept.text := Some "Potassium" |};
     FHIRObservation.effectiveDateTime := "2023-12-31T08:00:00Z";
     FHIRObservation.valueQuantity := None;
     FHIRObservation.referenceRange := Some [baseExcessRange];
     FHIRObservation.interpretation := None |}.

(** A result whose analyte name is a property name of
    [Object.prototype]. *)
Definition namedConstructor : LabResult.t :=
  lab "x" "constructor" (VNum 1%float) normal "2023-12-31T08:00:00Z".

(** Three clock readings. *)
Definition atSampleTime : Spec.World := {| Spec.clock := now |}.
Definition anHourLater : Spec.World :=
  {| Spec.clock := (now + 60 * 60 * 1000)%float |}.
Definition threeDaysLater : Spec.World :=
  {| Spec.clock := (now + 3 * 24 * 60 * 60 * 1000)%float |}.

(** Three critical results that trigger the AKI, sepsis and coagulopathy
    patterns. *)
Definition threeMarkers : list LabResult.t :=
  [ criticalCreatinineResult;
    lab "wbc" "WBC" (VNum 25%float) critical "2023-12-31T08:00:00Z";
    lab "platelet" "Platelet Count" (VNum 30%float) critical "2023-12-31T08:00:00Z" ].

(** A result of another analyte. *)
Definition normalCalcium : LabResult.t :=
  lab "calcium" "Calcium" (VNum 2.3%float) normal "2023-12-31T08:00:00Z".

(** A lactate of 3.1 that carries the status normal, beside another
    normal result. *)
Definition normalLactate : list LabResult.t :=
  [ lab "lactate" "Lactate" (VNum 3.1%float) normal "2023-12-31T08:00:00Z";
    normalCalcium ].

(** A result whose date does not parse. *)
Definition undatedCritical : LabResult.t :=
  lab "potassium" "Potassium" (VNum 7.2%float) critical "yesterday".

(** A bundle with one observation whose analyte is named like a property
    of [Object.prototype], and the answers of a run that returns it. *)
Definition constructorBundle : FHIRBundle.t :=
  {| FHIRBundle.type := "searchset";
     FHIRBundle.total := None;
     FHIRBundle.entry :=
       Some [ {| BundleEntry.fullUrl := "urn:uuid:obs-1";
                 BundleEntry.resource := observation "constructor" 1%float None |} ] |}.

Definition oneReport : ReportBundle.t :=
  {| ReportBundle.entry :=
       Some [ {| ReportEntry.resource :=
                   {| ReportResource.id := "report-1";
                      ReportResource.status := "final";
                      ReportResource.code := None;
                      ReportResource.effectivePeriod := None;
                      ReportResource.effectiveDateTime := Some "2023-12-31T08:00:00Z";
                      ReportResource.conclusion := None;
                      ReportResource.presentedForm := None |} |} ] |}.

(** A patient resource without a name. *)
Definition namelessPatient : PatientResource.t :=
  {| PatientResource.id := Some "p-1";
     PatientResource.name := None;
     PatientResource.birthDate := Some "1980-01-01";
     PatientResource.gender := Some "female";
     PatientResource.identifier := None |}.

Definition constructorResponses : LabDashboard.Responses :=
  {| LabDashboard.patientResponse := JS.Normal namelessPatient;
     LabDashboard.observationResponse := JS.Normal constructorBundle;
     LabDashboard.reportResponse := JS.Normal oneReport |}.

End Sample.

(** * Properties *)

(** ** Lists and counts *)

Lemma length_pos {A} (l : list A) :
  (JS.length l >? 0) = match l with [] => false | _ => true end.
Proof.
  destruct l as [|x l]; [reflexivity|].
  unfold JS.length. cbn [List.length]. apply Z.gtb_lt. lia.
Qed.

Lemma status_split (labs : list LabResult.t) :
  Spec.count (fun l => negb (Spec.hasStatus normal l)) labs
  = Spec.count (Spec.hasStatus abnormal) labs
    + Spec.count (Spec.hasStatus critical) labs.
Proof.
  unfold Spec.count, Spec.hasStatus.
  induction labs as [|l labs IH]; [reflexivity|].
  cbn [filter]. destruct (LabResult.status l); cbn [Status_eqb negb List.length]; lia.
Qed.

(** ** Comparison of numbers *)

Lemma SFcompare_refl (x : spec_float) :
  x <> S754_nan -> SFcompare x x = Some Eq.
Proof.
  destruct x as [s|s| |s m e]; cbn; intros Hx; try congruence.
  - now destruct s.
  - rewrite Z.compare_refl, Pos.compare_cont_refl. now destruct s.
Qed.

Lemma SFcompare_antisym (x y : spec_float) (c : comparison) :
  SFcompare x y = Some c -> SFcompare y x = Some (CompOpp c).
Proof.
  destruct x as [sx|sx| |sx mx ex], y as [sy|sy| |sy my ey]; cbn;
    intros E; try discriminate; injection E as <-;
    try (destruct sx; reflexivity); try (destruct sy; reflexivity);
    try (destruct sx, sy; reflexivity).
  destruct sx, sy; cbn; try reflexivity;
    rewrite (Z.compare_antisym ex ey);
    destruct (ex ?= ey); cbn; try reflexivity;
    rewrite (Pos.compare_cont_antisym mx my Eq); reflexivity.
Qed.

Lemma isNaN_spec (x : JS.number) :
  JS.isNaN x = true <-> Prim2SF x = S754_nan.
Proof.
  unfold JS.isNaN, is_nan. rewrite FloatAxioms.eqb_spec. unfold SFeqb. split.
  - intros E. destruct (Prim2SF x) eqn:Ex; try reflexivity;
      rewrite SFcompare_refl in E by discriminate; discriminate.
  - intros ->. reflexivity.
Qed.

(** A comparison with NaN is false. *)
Lemma gt_nan (x b : JS.number) : JS.isNaN x = true -> JS.gt x b = false.
Proof.
  rewrite isNaN_spec. unfold JS.gt. rewrite ltb_spec. unfold SFltb.
  intros ->. now destruct (Prim2SF b).
Qed.

Lemma lt_nan (x b : JS.number) : JS.isNaN x = true -> JS.lt x b = false.
Proof.
  rewrite isNaN_spec. unfold JS.lt. rewrite ltb_spec. unfold SFltb.
  intros ->. reflexivity.
Qed.

(** [x <= y] excludes [x > y]. *)
Lemma le_not_gt (x y : JS.number) : JS.le x y = true -> JS.gt x y = false.
Proof.
  unfold JS.le, JS.gt. rewrite leb_spec, ltb_spec. unfold SFleb, SFltb.
  destruct (SFcompare (Prim2SF x) (Prim2SF y)) as [c|] eqn:E; [|discriminate].
  rewrite (SFcompare_antisym _ _ _ E). now destruct c.
Qed.

(** ** Organ systems *)

Section OrganSystems.
Context `{Builtins}.

Import RiskScoreCalculator.

Lemma isRenalLab_coded (l : LabResult.t) :
  isRenalLab l = Spec.coded (Spec.keywords Spec.Renal) l.
Proof.
  unfold isRenalLab, codeHas, Spec.coded. cbn [Spec.keywords Spec.Renal existsb].
  now rewrite orb_false_r, orb_assoc.
Qed.

Lemma isCardiacLab_coded (l : LabResult.t) :
  isCardiacLab l = Spec.coded (Spec.keywords Spec.Cardiac) l.
Proof.
  unfold isCardiacLab, codeHas, Spec.coded. cbn [Spec.keywords Spec.Cardiac existsb].
  now rewrite orb_false_r, orb_assoc.
Qed.

Lemma isHepaticLab_coded (l : LabResult.t) :
  isHepaticLab l = Spec.coded (Spec.keywords Spec.Hepatic) l.
Proof.
  unfold isHepaticLab, codeHas, Spec.coded. cbn [Spec.keywords Spec.Hepatic existsb].
  now rewrite orb_false_r, !orb_assoc.
Qed.

Lemma organ_risks_unfold (labs : list LabResult.t) :
  calculateOrganSystemRisks labs
  = (match Spec.matching Spec.Renal labs with
     | [] => []
     | _ :: _ => [assessRenalRisk (Spec.matching Spec.Renal labs)]
     end)
    ++ (match Spec.matching Spec.Cardiac labs with
        | [] => []
        | _ :: _ => [assessCardiacRisk (Spec.matching Spec.Cardiac labs)]
        end)
    ++ (match Spec.matching Spec.Hepatic labs with
        | [] => []
        | _ :: _ => [assessHepaticRisk (Spec.matching Spec.Hepatic labs)]
        end).
Proof.
  unfold calculateOrganSystemRisks, Spec.matching.
  rewrite (filter_ext _ _ isRenalLab_coded labs),
          (filter_ext _ _ isCardiacLab_coded labs),
          (filter_ext _ _ isHepaticLab_coded labs).
  rewrite !length_pos.
  destruct (filter (Spec.coded (Spec.keywords Spec.Renal)) labs);
  destruct (filter (Spec.coded (Spec.keywords Spec.Cardiac)) labs);
  destruct (filter (Spec.coded (Spec.keywords Spec.Hepatic)) labs);
  reflexivity.
Qed.


Lemma matching_nonempty (sys : Spec.OrganSystem) (labs : list LabResult.t) :
  Spec.matching sys labs <> [] <->
  exists l, In l labs /\ Spec.coded (Spec.keywords sys) l = true.
Proof.
  unfold Spec.matching. split.
  - destruct (filter _ labs) as [|l m] eqn:E; [congruence|]. intros _.
    exists l. apply filter_In. rewrite E. now left.
  - intros (l & Hin & Hl) E.
    assert (Hf : In l (filter (Spec.coded (Spec.keywords sys)) labs))
      by now apply filter_In.
    rewrite E in Hf. exact Hf.
Qed.

Lemma emitted_iff (m : list LabResult.t) (f : list LabResult.t -> OrganSystemRisk.t)
  (r : OrganSystemRisk.t) :
  In r (match m with [] => [] | _ => [f m] end) <-> m <> [] /\ r = f m.
Proof.
  destruct m as [|l m]; cbn.
  - split; [intros []|intros [E _]; now apply E].
  - split.
    + intros [E|[]]. split; [discriminate|now symmetry].
    + intros [_ E]. now left.
Qed.

Lemma organ_risk_eta (r : OrganSystemRisk.t) (n : string) (s : Z)
  (t : OrganTrend) (ms : list string) :
  r = {| OrganSystemRisk.system := n; OrganSystemRisk.score := s;
         OrganSystemRisk.trend := t; OrganSystemRisk.markers := ms |}
  <-> OrganSystemRisk.system r = n /\ OrganSystemRisk.score r = s /\
      OrganSystemRisk.trend r = t /\ OrganSystemRisk.markers r = ms.
Proof.
  destruct r; cbn. split.
  - intros E. injection E as -> -> -> ->. auto.
  - intros (-> & -> & -> & ->). reflexivity.
Qed.

(** C8.  [calculateOrganSystemRisks] emits an entry for an organ system
    exactly when some result of the input matches one of the system's
    analyte keywords; the entry carries the system's name, the score
    min(abnormalCount * wA + criticalCount * wC, 100) with the weights
    (10, 20) for Renal, (15, 25) for Cardiac and (8, 18) for Hepatic, the
    trend worsening / stable / improving decided by criticalCount > 0 and
    abnormalCount > 0 in that order, and the names of the matched results.
    Here abnormalCount is the number of matched results whose status is
    not normal and criticalCount the number whose status is critical. *)
Theorem organ_system_risks_emitted (labs : list LabResult.t)
  (r : OrganSystemRisk.t) :
  In r (calculateOrganSystemRisks labs) <->
  exists sys, In sys Spec.organSystems /\
    (exists l, In l labs /\ Spec.coded (Spec.keywords sys) l = true) /\
    let m := Spec.matching sys labs in
    let abnormalCount := Spec.count (fun l => negb (Spec.hasStatus normal l)) m in
    let criticalCount := Spec.count (Spec.hasStatus critical) m in
    OrganSystemRisk.system r = Spec.systemName sys /\
    OrganSystemRisk.score r
    = Z.min (abnormalCount * Spec.wA sys + criticalCount * Spec.wC sys) 100 /\
    OrganSystemRisk.trend r
    = (if criticalCount >? 0 then worsening
       else if abnormalCount >? 0 then organ_stable else improving) /\
    OrganSystemRisk.markers r = map LabResult.name m.
Proof.
  rewrite organ_risks_unfold, !in_app_iff.
  rewrite (emitted_iff _ assessRenalRisk), (emitted_iff _ assessCardiacRisk),
          (emitted_iff _ assessHepaticRisk).
  unfold assessRenalRisk, assessCardiacRisk, assessHepaticRisk.
  rewrite !organ_risk_eta, !matching_nonempty.
  split.
  - intros [Hr|[Hc|Hh]];
      [exists Spec.Renal|exists Spec.Cardiac|exists Spec.Hepatic];
      (split; [cbn; tauto|]); assumption.
  - intros (sys & Hsys & Hm).
    destruct Hsys as [<-|[<-|[<-|[]]]]; [left|right; left|right; right]; exact Hm.
Qed.

End OrganSystems.

(** A single critical creatinine result: the renal system alone is
    emitted. *)
Lemma organ_system_risks_emitted_example :
  In {| OrganSystemRisk.system := "Renal";
        OrganSystemRisk.score := 30;
        OrganSystemRisk.trend := worsening;
        OrganSystemRisk.markers := ["Creatinine"] |}
     (RiskScoreCalculator.calculateOrganSystemRisks (H := Host.builtins)
        Sample.criticalCreatinine)
  /\ forall r,
       In r (RiskScoreCalculator.calculateOrganSystemRisks (H := Host.builtins)
               Sample.criticalCreatinine) ->
       OrganSystemRisk.system r = "Renal".
Proof.
  split.
  - apply (organ_system_risks_emitted (H := Host.builtins)).
    exists Spec.Renal. split; [now left|]. split.
    + exists Sample.criticalCreatinineResult. split; [now left|reflexivity].
    + repeat split.
  - intros r Hr.
    apply (organ_system_risks_emitted (H := Host.builtins)) in Hr.
    destruct Hr as (sys & Hsys & (l & Hl & Hcoded) & Hname & _).
    destruct Hl as [<-|[]].
    destruct Hsys as [<-|[<-|[<-|[]]]]; [exact Hname|discriminate Hcoded..].
Defined.

(** ** High-risk markers *)

Section Markers.
Context `{Builtins}.

Import RiskScoreCalculator.

Lemma coded_one (key : string) (l : LabResult.t) :
  Spec.coded [key] l = codeHas key l.
Proof. unfold Spec.coded, codeHas. cbn. apply orb_false_r. Qed.

Lemma coded_two (key1 key2 : string) (l : LabResult.t) :
  Spec.coded [key1; key2] l = codeHas key1 l || codeHas key2 l.
Proof. unfold Spec.coded, codeHas. cbn. now rewrite orb_false_r. Qed.

Lemma find_coded_one (key : string) (labs : list LabResult.t) :
  find (Spec.coded [key]) labs = find (codeHas key) labs.
Proof.
  induction labs as [|l labs IH]; cbn [find]; [reflexivity|].
  now rewrite coded_one, IH.
Qed.

Lemma find_coded_two (key1 key2 : string) (labs : list LabResult.t) :
  find (Spec.coded [key1; key2]) labs
  = find (fun l => codeHas key1 l || codeHas key2 l) labs.
Proof.
  induction labs as [|l labs IH]; cbn [find]; [reflexivity|].
  now rewrite coded_two, IH.
Qed.

Lemma gt_numeric (x b : JS.number) :
  negb (JS.isNaN x) && JS.gt x b = JS.gt x b.
Proof.
  destruct (JS.isNaN x) eqn:E; cbn [negb andb]; [|reflexivity].
  symmetry. now apply gt_nan.
Qed.

Lemma lt_numeric (x b : JS.number) :
  negb (JS.isNaN x) && JS.lt x b = JS.lt x b.
Proof.
  destruct (JS.isNaN x) eqn:E; cbn [negb andb]; [|reflexivity].
  symmetry. now apply lt_nan.
Qed.

(** The four blocks of [checkHighRiskMarkers] are independent: each adds
    its points and its marker exactly when its pattern is triggered. *)
Lemma checkHighRiskMarkers_patterns (labs : list LabResult.t) :
  checkHighRiskMarkers labs
  = {| HighRiskMarkers.score :=
         Spec.points (Spec.akiRisk labs) 15
         + Spec.points (Spec.sepsisRisk labs) 20
         + Spec.points (Spec.hepaticDysfunction labs) 10
         + Spec.points (Spec.coagulopathy labs) 15;
       HighRiskMarkers.markers :=
         Spec.marker (Spec.akiRisk labs) "AKI Risk"
         ++ Spec.marker (Spec.sepsisRisk labs) "Sepsis Risk"
         ++ Spec.marker (Spec.hepaticDysfunction labs) "Hepatic Dysfunction"
         ++ Spec.marker (Spec.coagulopathy labs) "Coagulopathy" |}.
Proof.
  unfold checkHighRiskMarkers, Spec.akiRisk, Spec.sepsisRisk,
    Spec.hepaticDysfunction, Spec.coagulopathy, Spec.firstCoded.
  rewrite !find_coded_one, !find_coded_two.
  destruct (find (codeHas "creatinine") labs) as [c|];
  destruct (find (fun l => codeHas "wbc" l || codeHas "white" l) labs) as [w|];
  destruct (find (codeHas "lactate") labs) as [la|];
  destruct (find (codeHas "bilirubin") labs) as [b|];
  destruct (find (fun l => codeHas "alt" l || codeHas "alanine" l) labs) as [a|];
  destruct (find (codeHas "inr") labs) as [i|];
  destruct (find (fun l => codeHas "platelet" l || codeHas "plt" l) labs) as [p|];
  cbn [andThen];
  unfold Spec.numericAbove, Spec.numericBelow, Spec.hasStatus, isStatus;
  rewrite ?gt_numeric, ?lt_numeric;
  repeat match goal with
  | |- context [if ?b then _ else _] => destruct b eqn:?
  end; reflexivity.
Qed.
End Markers.

(** ** Patient risk score *)

Section PatientRisk.
Context `{Builtins}.

Import RiskScoreCalculator.

Lemma markers_score_bounds (labs : list LabResult.t) :
  0 <= HighRiskMarkers.score (checkHighRiskMarkers labs) <= 60.
Proof.
  rewrite checkHighRiskMarkers_patterns. cbn [HighRiskMarkers.score].
  destruct (Spec.akiRisk labs), (Spec.sepsisRisk labs),
    (Spec.hepaticDysfunction labs), (Spec.coagulopathy labs); cbn; lia.
Qed.

Lemma markers_none (labs : list LabResult.t) :
  HighRiskMarkers.markers (checkHighRiskMarkers labs) = [] ->
  HighRiskMarkers.score (checkHighRiskMarkers labs) = 0.
Proof.
  rewrite checkHighRiskMarkers_patterns. cbn [HighRiskMarkers.score HighRiskMarkers.markers].
  destruct (Spec.akiRisk labs), (Spec.sepsisRisk labs),
    (Spec.hepaticDysfunction labs), (Spec.coagulopathy labs); cbn;
    congruence.
Qed.

Ltac decide_geb :=
  repeat match goal with
  | |- context [?a >=? ?b] => rewrite (Z.geb_leb a b); destruct (Z.leb_spec b a)
  | |- context [?a >? ?b] => rewrite (Z.gtb_ltb a b); destruct (Z.ltb_spec b a)
  end.

(** C1.  For every clock reading and every collection of lab results,
    the score returned by [calculatePatientRisk] is the minimum of 100 and
    the sum of the contributions of the listed factors, it lies in
    [0, 100], and the level obeys the breakpoints with respect to the
    returned score: critical iff score >= 80, high iff 60 <= score < 80,
    moderate iff 40 <= score < 60, low iff score < 40.  In particular, when
    the recency window holds exactly 2 critical and 1 abnormal results and
    no marker pattern is triggered, the score is 33 and the level low. *)
Theorem patient_risk_score_and_level (now : JS.number) (labs : list LabResult.t) :
  let r := calculatePatientRisk now labs in
  let window := filter (isRecent now) labs in
  RiskScore.score r = Z.min (Spec.sumContributions (RiskScore.factors r)) 100
  /\ 0 <= RiskScore.score r <= 100
  /\ (RiskScore.level r = level_critical <-> 80 <= RiskScore.score r)
  /\ (RiskScore.level r = level_high <-> 60 <= RiskScore.score r < 80)
  /\ (RiskScore.level r = level_moderate <-> 40 <= RiskScore.score r < 60)
  /\ (RiskScore.level r = level_low <-> RiskScore.score r < 40)
  /\ (Spec.count (Spec.hasStatus critical) window = 2 ->
      Spec.count (Spec.hasStatus abnormal) window = 1 ->
      HighRiskMarkers.markers (checkHighRiskMarkers window) = [] ->
      RiskScore.score r = 33 /\ RiskScore.level r = level_low).
Proof.
  intros r window. subst r. unfold calculatePatientRisk. fold window.
  change (JS.length (filter (isStatus critical) window))
    with (Spec.count (Spec.hasStatus critical) window).
  change (JS.length (filter (isStatus abnormal) window))
    with (Spec.count (Spec.hasStatus abnormal) window).
  pose proof (markers_score_bounds window) as Hm.
  pose proof (markers_none window) as Hnone.
  assert (Hc : 0 <= Spec.count (Spec.hasStatus critical) window)
    by (unfold Spec.count; lia).
  assert (Ha : 0 <= Spec.count (Spec.hasStatus abnormal) window)
    by (unfold Spec.count; lia).
  generalize dependent (HighRiskMarkers.score (checkHighRiskMarkers window)).
  generalize dependent (Spec.count (Spec.hasStatus critical) window).
  generalize dependent (Spec.count (Spec.hasStatus abnormal) window).
  intros a Ha c Hc m Hm Hnone.
  unfold Spec.sumContributions.
  destruct (Z.ltb_spec 0 c) as [Hc'|Hc']; rewrite (Z.gtb_ltb c 0);
    [replace (0 <? c) with true by (symmetry; now apply Z.ltb_lt)
    |replace (0 <? c) with false by (symmetry; now apply Z.ltb_ge)];
  (destruct (Z.ltb_spec 0 a) as [Ha'|Ha']; rewrite (Z.gtb_ltb a 0);
    [replace (0 <? a) with true by (symmetry; now apply Z.ltb_lt)
    |replace (0 <? a) with false by (symmetry; now apply Z.ltb_ge)]);
  (destruct (Z.ltb_spec 0 m) as [Hm'|Hm']; rewrite (Z.gtb_ltb m 0);
    [replace (0 <? m) with true by (symmetry; now apply Z.ltb_lt)
    |replace (0 <? m) with false by (symmetry; now apply Z.ltb_ge)]);
  cbn [app map fold_right RiskFactor.contribution RiskScore.score
       RiskScore.level RiskScore.factors];
  decide_geb;
  repeat split; intros; try discriminate; try lia;
  try (specialize (Hnone ltac:(assumption)); lia).
Qed.

End PatientRisk.

(** The example of the specification, run on the reference host: two
    critical results and one abnormal result of the last day. *)
Lemma patient_risk_score_and_level_example :
  let r := RiskScoreCalculator.calculatePatientRisk (H := Host.builtins)
             Sample.now Sample.twoCriticalOneAbnormal in
  RiskScore.score r = 33 /\ RiskScore.level r = level_low.
Proof.
  pose proof (patient_risk_score_and_level (H := Host.builtins)
                Sample.now Sample.twoCriticalOneAbnormal) as T.
  cbv zeta in T. destruct T as (_ & _ & _ & _ & _ & _ & T).
  apply T; vm_compute; reflexivity.
Defined.

(** ** Critical results in the organ scores *)

Section CriticalCounted.
Context `{Builtins}.
Import RiskScoreCalculator.

(** C10.  In every entry emitted by [calculateOrganSystemRisks] the
    abnormalCount of the code counts every matched result whose status is
    not normal, so it is the number of abnormal results plus the number of
    critical ones; a critical result is counted in abnormalCount and in
    criticalCount and contributes wA + wC points to the score before the
    clamp at 100: a system matched by a single critical result and no
    abnormal one scores wA + wC. *)
Theorem critical_counts_as_abnormal (labs : list LabResult.t)
  (r : OrganSystemRisk.t) :
  In r (calculateOrganSystemRisks labs) ->
  exists sys, In sys Spec.organSystems /\
    OrganSystemRisk.system r = Spec.systemName sys /\
    let m := Spec.matching sys labs in
    let onlyAbnormal := Spec.count (Spec.hasStatus abnormal) m in
    let criticalCount := Spec.count (Spec.hasStatus critical) m in
    let abnormalCount := Spec.count (fun l => negb (Spec.hasStatus normal l)) m in
    abnormalCount = onlyAbnormal + criticalCount /\
    OrganSystemRisk.score r
    = Z.min (abnormalCount * Spec.wA sys + criticalCount * Spec.wC sys) 100 /\
    OrganSystemRisk.score r
    = Z.min (onlyAbnormal * Spec.wA sys
             + criticalCount * (Spec.wA sys + Spec.wC sys)) 100 /\
    (onlyAbnormal = 0 -> criticalCount = 1 ->
     OrganSystemRisk.score r = Spec.wA sys + Spec.wC sys).
Proof.
  rewrite organ_risks_unfold, !in_app_iff.
  rewrite (emitted_iff _ assessRenalRisk), (emitted_iff _ assessCardiacRisk),
          (emitted_iff _ assessHepaticRisk).
  intros [[_ ->]|[[_ ->]|[_ ->]]];
    [exists Spec.Renal|exists Spec.Cardiac|exists Spec.Hepatic];
    (split; [cbn; tauto|]); (split; [reflexivity|]);
    cbv zeta; rewrite status_split;
    cbn [assessRenalRisk assessCardiacRisk assessHepaticRisk
         OrganSystemRisk.score Spec.wA Spec.wC Spec.Renal Spec.Cardiac
         Spec.Hepatic];
    unfold assessRenalRisk, assessCardiacRisk, assessHepaticRisk;
    cbn [OrganSystemRisk.score];
    change (JS.length (filter (isStatus critical) ?m))
      with (Spec.count (Spec.hasStatus critical) m);
    change (JS.length (filter (fun l => negb (isStatus normal l)) ?m))
      with (Spec.count (fun l => negb (Spec.hasStatus normal l)) m);
    rewrite status_split;
    (split; [reflexivity|]); (split; [reflexivity|]);
    (split; [f_equal; lia|]); intros -> ->; reflexivity.
Qed.

End CriticalCounted.

(** A single critical creatinine result gives the renal system
    10 + 20 points. *)
Lemma critical_counts_as_abnormal_example :
  let labs := Sample.criticalCreatinine in
  let r := RiskScoreCalculator.assessRenalRisk labs in
  In r (RiskScoreCalculator.calculateOrganSystemRisks (H := Host.builtins) labs)
  /\ OrganSystemRisk.score r = 30
  /\ exists sys, In sys Spec.organSystems /\
       OrganSystemRisk.system r = Spec.systemName sys /\
       OrganSystemRisk.score r = Spec.wA sys + Spec.wC sys.
Proof.
  cbv zeta.
  assert (Hin : In (RiskScoreCalculator.assessRenalRisk Sample.criticalCreatinine)
                   (RiskScoreCalculator.calculateOrganSystemRisks
                      (H := Host.builtins) Sample.criticalCreatinine))
    by (vm_compute; left; reflexivity).
  split; [exact Hin|]. split; [reflexivity|].
  destruct (critical_counts_as_abnormal (H := Host.builtins) _ _ Hin)
    as (sys & Hsys & Hname & _ & _ & _ & Hsingle).
  exists sys. split; [exact Hsys|]. split; [exact Hname|].
  destruct Hsys as [<-|[<-|[<-|[]]]]; try discriminate Hname.
  apply Hsingle; vm_compute; reflexivity.
Defined.

(** ** First matches *)

Lemma find_first_match {A} (p : A -> bool) (l : list A) (x : A) :
  find p l = Some x <-> Spec.FirstMatch p l x.
Proof.
  unfold Spec.FirstMatch. split.
  - induction l as [|a l IH]; cbn [find]; [discriminate|].
    destruct (p a) eqn:Ea.
    + intros [= ->]. exists [], l. cbn. now repeat split.
    + intros Hf. destruct (IH Hf) as (before & after & -> & Hx & Hb).
      exists (a :: before), after. repeat split; [assumption|].
      intros y [<-|Hy]; [assumption|now apply Hb].
  - intros (before & after & -> & Hx & Hb).
    induction before as [|a before IH]; cbn [app find].
    + now rewrite Hx.
    + rewrite (Hb a (or_introl eq_refl)). apply IH.
      intros y Hy. apply Hb. now right.
Qed.

Lemma find_none_iff {A} (p : A -> bool) (l : list A) :
  find p l = None <-> forall x, In x l -> p x = false.
Proof.
  split; [apply find_none|].
  induction l as [|a l IH]; cbn [find]; [reflexivity|].
  intros Hall. rewrite (Hall a (or_introl eq_refl)).
  apply IH. intros x Hx. apply Hall. now right.
Qed.

(** ** The AKI marker *)

Section AkiRisk.
Context `{Builtins}.
Import RiskScoreCalculator.

(** C5, amended.  For every clock reading and input collection: when the
    first creatinine-coded result of the 48-hour recency window is
    non-normal and has a numeric value above 2.0, [calculatePatientRisk]
    lists the High-Risk Markers factor, the factor names AKI Risk, and its
    contribution is the 15 points of AKI Risk plus the points of the other
    three patterns, each of which is decided on its own. *)
Theorem aki_risk_of_first_creatinine (now : JS.number)
  (labs : list LabResult.t) (c : LabResult.t) :
  let window := filter (isRecent now) labs in
  Spec.FirstMatch (Spec.coded ["creatinine"]) window c ->
  Spec.hasStatus normal c = false ->
  Spec.numericAbove 2%float c = true ->
  exists f, In f (RiskScore.factors (calculatePatientRisk now labs)) /\
    RiskFactor.name f = "High-Risk Markers" /\
    RiskFactor.value f
    = JS.join ", " ("AKI Risk"
                    :: Spec.marker (Spec.sepsisRisk window) "Sepsis Risk"
                    ++ Spec.marker (Spec.hepaticDysfunction window) "Hepatic Dysfunction"
                    ++ Spec.marker (Spec.coagulopathy window) "Coagulopathy") /\
    RiskFactor.contribution f
    = 15 + Spec.points (Spec.sepsisRisk window) 20
      + Spec.points (Spec.hepaticDysfunction window) 10
      + Spec.points (Spec.coagulopathy window) 15.
Proof.
  intros window Hfirst Hstatus Hvalue.
  apply find_first_match in Hfirst.
  assert (Haki : Spec.akiRisk window = true).
  { unfold Spec.akiRisk, Spec.firstCoded. rewrite Hfirst, Hstatus, Hvalue.
    reflexivity. }
  unfold calculatePatientRisk. fold window.
  rewrite checkHighRiskMarkers_patterns, Haki.
  cbn [HighRiskMarkers.score HighRiskMarkers.markers Spec.points Spec.marker app].
  set (s := Spec.points (Spec.sepsisRisk window) 20).
  set (h := Spec.points (Spec.hepaticDysfunction window) 10).
  set (g := Spec.points (Spec.coagulopathy window) 15).
  assert (Hpos : (15 + s + h + g >? 0) = true).
  { apply Z.gtb_lt. subst s h g.
    destruct (Spec.sepsisRisk window), (Spec.hepaticDysfunction window),
      (Spec.coagulopathy window); cbn; lia. }
  rewrite Hpos.
  eexists. split.
  - destruct (JS.length (filter (isStatus critical) window) >? 0),
      (JS.length (filter (isStatus abnormal) window) >? 0);
      cbn [RiskScore.factors]; apply in_or_app; right; left; reflexivity.
  - cbn [RiskFactor.name RiskFactor.value RiskFactor.contribution].
    repeat split.
Qed.

End AkiRisk.

(** The claim as stated fails when a later creatinine result carries the
    pattern and the first one does not. *)
Lemma aki_risk_any_creatinine_counterexample :
  let window := filter (RiskScoreCalculator.isRecent (H := Host.builtins) Sample.now)
                       Sample.normalThenCriticalCreatinine in
  (exists l, In l window /\
     Spec.coded (H := Host.builtins) ["creatinine"] l = true /\
     Spec.hasStatus normal l = false /\
     Spec.numericAbove (H := Host.builtins) 2%float l = true)
  /\ ~ In "AKI Risk"
        (HighRiskMarkers.markers
           (RiskScoreCalculator.checkHighRiskMarkers (H := Host.builtins) window))
  /\ forall f,
       In f (RiskScore.factors
               (RiskScoreCalculator.calculatePatientRisk (H := Host.builtins)
                  Sample.now Sample.normalThenCriticalCreatinine)) ->
       RiskFactor.name f <> "High-Risk Markers".
Proof.
  cbv zeta. split; [|split].
  - eexists. split; [right; left; reflexivity|]. vm_compute. auto.
  - vm_compute. intros [].
  - vm_compute. intros f [<-|[]]. cbn. discriminate.
Qed.

Lemma aki_risk_of_first_creatinine_witness :
  exists f,
    In f (RiskScore.factors
            (RiskScoreCalculator.calculatePatientRisk (H := Host.builtins)
               Sample.now Sample.criticalCreatinine)) /\
    RiskFactor.name f = "High-Risk Markers" /\
    RiskFactor.value f = "AKI Risk" /\
    RiskFactor.contribution f = 15.
Proof.
  destruct (aki_risk_of_first_creatinine (H := Host.builtins) Sample.now
              Sample.criticalCreatinine
              Sample.criticalCreatinineResult)
    as (f & Hin & Hname & Hvalue & Hpoints).
  - apply find_first_match. vm_compute. reflexivity.
  - reflexivity.
  - vm_compute. reflexivity.
  - exists f. repeat split; assumption.
Defined.

(** ** Deterioration *)

Section Deterioration.
Context `{Builtins}.
Import RiskScoreCalculator.

(** One run of the callback adds the worsening count of its result. *)
Lemma deteriorationStep_worsening (previousLabs : list LabResult.t)
  (n : Z) (c : LabResult.t) :
  deteriorationStep previousLabs n c = n + Spec.worsening previousLabs c.
Proof.
  unfold deteriorationStep, Spec.worsening, Spec.previousOf.
  destruct (find _ previousLabs) as [p|]; [|lia].
  unfold Spec.escalated, Spec.increaseAbove, Spec.percentChange,
    Spec.hasStatus, isStatus.
  rewrite coded_one, (coded_one "lactate").
  destruct (Status_eqb (LabResult.status c) critical
            && negb (Status_eqb (LabResult.status p) critical)) eqn:E1;
  destruct (Status_eqb (LabResult.status c) abnormal
            && Status_eqb (LabResult.status p) normal) eqn:E2;
  destruct (JS.isNaN (parseFloat (LabResult.value c)));
  destruct (JS.isNaN (parseFloat (LabResult.value p)));
  cbn [negb andb orb Spec.points];
  rewrite ?andb_false_r; cbn [Spec.points];
  repeat match goal with
  | |- context [if ?b then _ else _] => destruct b
  end; cbn [Spec.points]; lia.
Qed.

Lemma forEach_worsening (previousLabs currentLabs : list LabResult.t) (n : Z) :
  fold_left (deteriorationStep previousLabs) currentLabs n
  = n + Spec.worseningTotal currentLabs previousLabs.
Proof.
  unfold Spec.worseningTotal.
  revert n. induction currentLabs as [|c currentLabs IH]; intros n;
    cbn [fold_left map fold_right]; [lia|].
  rewrite IH, deteriorationStep_worsening. lia.
Qed.

(** C7.  [detectDeterioration] returns false when the previous
    collection is empty; otherwise it returns true exactly when the total
    worsening count of the current results is at least 3, where a current
    result matched by analyte code to a previous result counts 1 for a
    status escalation (to critical from non-critical, or to abnormal from
    normal), 1 more when it is creatinine-coded and its percent change
    exceeds 25, and 1 more when it is lactate-coded and its percent change
    exceeds 20; a current result without a previous result of the same
    code counts 0. *)
Theorem deterioration_counts_worsening
  (currentLabs previousLabs : list LabResult.t) :
  (previousLabs = [] -> detectDeterioration currentLabs previousLabs = false)
  /\ (previousLabs <> [] ->
      (detectDeterioration currentLabs previousLabs = true
       <-> 3 <= Spec.worseningTotal currentLabs previousLabs))
  /\ (forall c,
        (forall p, In p previousLabs -> LabResult.code p <> LabResult.code c) ->
        Spec.worsening previousLabs c = 0).
Proof.
  unfold detectDeterioration. repeat split.
  - intros ->. reflexivity.
  - destruct previousLabs as [|p previousLabs]; [congruence|].
    replace (JS.length (p :: previousLabs) =? 0) with false
      by (symmetry; apply Z.eqb_neq; unfold JS.length; cbn [List.length]; lia).
    rewrite forEach_worsening, Z.geb_leb, Z.leb_le. lia.
  - destruct previousLabs as [|p previousLabs]; [congruence|].
    replace (JS.length (p :: previousLabs) =? 0) with false
      by (symmetry; apply Z.eqb_neq; unfold JS.length; cbn [List.length]; lia).
    rewrite forEach_worsening, Z.geb_leb, Z.leb_le. lia.
  - intros c Hnone. unfold Spec.worsening, Spec.previousOf.
    replace (find _ previousLabs) with (@None LabResult.t); [reflexivity|].
    symmetry. apply find_none_iff. intros p Hp. apply String.eqb_neq.
    now apply Hnone.
Qed.

End Deterioration.

(** The examples of the specification on the reference host: three
    matched escalations deteriorate, two do not, and nothing matches an
    empty current collection. *)
Lemma deterioration_counts_worsening_example :
  RiskScoreCalculator.detectDeterioration (H := Host.builtins)
    Sample.currentWindow Sample.previousWindow = true
  /\ RiskScoreCalculator.detectDeterioration (H := Host.builtins)
       (firstn 2 Sample.currentWindow) Sample.previousWindow = false
  /\ RiskScoreCalculator.detectDeterioration (H := Host.builtins)
       [] [Sample.lab "K" "Potassium" (VNum 6.9%float) critical "2023-12-30T08:00:00Z"]
     = false.
Proof.
  split; [|split].
  - destruct (deterioration_counts_worsening (H := Host.builtins)
                Sample.currentWindow Sample.previousWindow) as (_ & Hiff & _).
    apply Hiff; [discriminate|]. vm_compute. discriminate.
  - destruct (deterioration_counts_worsening (H := Host.builtins)
                (firstn 2 Sample.currentWindow) Sample.previousWindow)
      as (_ & Hiff & _).
    specialize (Hiff ltac:(discriminate)).
    destruct (RiskScoreCalculator.detectDeterioration _ _); [|reflexivity].
    pose proof (proj1 Hiff eq_refl) as E. vm_compute in E. now contradiction E.
  - reflexivity.
Defined.


(** ** Rounding a clamped number *)

(** Two numbers that are not NaN are comparable. *)
Lemma SFcompare_total (x y : spec_float) :
  x <> S754_nan -> y <> S754_nan -> exists c, SFcompare x y = Some c.
Proof.
  destruct x as [sx|sx| |sx mx ex], y as [sy|sy| |sy my ey]; cbn;
    intros Hx Hy; try congruence; eexists; reflexivity.
Qed.

Lemma not_nan_spec (x : JS.number) :
  JS.isNaN x = false <-> Prim2SF x <> S754_nan.
Proof.
  rewrite <- isNaN_spec. destruct (JS.isNaN x); split; congruence.
Qed.

Lemma not_lt_le (x y : JS.number) :
  JS.isNaN x = false -> JS.isNaN y = false ->
  JS.lt x y = false -> JS.le y x = true.
Proof.
  rewrite !not_nan_spec. unfold JS.lt, JS.le. rewrite ltb_spec, leb_spec.
  unfold SFltb, SFleb. intros Hx Hy.
  destruct (SFcompare_total _ _ Hx Hy) as [c Hc].
  rewrite Hc, (SFcompare_antisym _ _ _ Hc). now destruct c.
Qed.

Lemma lt_le (x y : JS.number) : JS.lt x y = true -> JS.le x y = true.
Proof.
  unfold JS.lt, JS.le. rewrite ltb_spec, leb_spec. unfold SFltb, SFleb.
  now destruct (SFcompare _ _) as [[]|].
Qed.

Lemma le_refl (x : JS.number) : JS.isNaN x = false -> JS.le x x = true.
Proof.
  rewrite not_nan_spec. unfold JS.le. rewrite leb_spec. unfold SFleb.
  intros Hx. now rewrite SFcompare_refl.
Qed.

(** [Math.max] and [Math.min] return one of their arguments, on the right
    side of the other one. *)
Lemma Math_max_ge (x b : JS.number) :
  JS.isNaN x = false -> JS.isNaN b = false ->
  JS.isNaN (JS.Math_max x b) = false /\ JS.le b (JS.Math_max x b) = true.
Proof.
  intros Hx Hb. unfold JS.Math_max.
  change (is_nan x) with (JS.isNaN x). change (is_nan b) with (JS.isNaN b).
  rewrite Hx, Hb. cbn [orb].
  destruct (PrimFloat.ltb x b) eqn:E1.
  - repeat split; auto using le_refl.
  - assert (Hbx : JS.le b x = true) by now apply not_lt_le.
    destruct (PrimFloat.ltb b x); [now repeat split|].
    destruct (get_sign x); repeat split; auto using le_refl.
Qed.

Lemma Math_min_le (x b : JS.number) :
  JS.isNaN x = false -> JS.isNaN b = false ->
  JS.isNaN (JS.Math_min x b) = false /\ JS.le (JS.Math_min x b) b = true
  /\ (forall a, JS.le a x = true -> JS.le a b = true ->
                JS.le a (JS.Math_min x b) = true).
Proof.
  intros Hx Hb. unfold JS.Math_min.
  change (is_nan x) with (JS.isNaN x). change (is_nan b) with (JS.isNaN b).
  rewrite Hx, Hb. cbn [orb].
  destruct (PrimFloat.ltb x b) eqn:E1.
  - repeat split; auto using lt_le.
  - destruct (PrimFloat.ltb b x) eqn:E2; [repeat split; auto using le_refl|].
    assert (Hxb : JS.le x b = true) by now apply not_lt_le.
    destruct (get_sign x); repeat split; auto using le_refl.
Qed.

Lemma digits2_size (m : positive) : digits2_pos m = Pos.size m.
Proof. induction m as [m IH|m IH|]; cbn; now rewrite ?IH. Qed.

Lemma size_53 (m : positive) :
  Pos.size m = 53%positive -> 2 ^ 52 <= Z.pos m < 2 ^ 53.
Proof.
  intros Hsize.
  pose proof (Pos.size_gt m) as Hgt. pose proof (Pos.size_le m) as Hle.
  rewrite Hsize in Hgt, Hle.
  assert (Hgt' : Z.pos m < Z.pos (2 ^ 53)) by exact Hgt.
  assert (Hle' : Z.pos (2 ^ 53) <= Z.pos m~0) by exact Hle.
  rewrite Pos2Z.inj_xO in Hle'.
  change (Z.pos (2 ^ 53)) with 9007199254740992 in Hgt', Hle'.
  change (2 ^ 52) with 4503599627370496. change (2 ^ 53) with 9007199254740992.
  clear Hgt Hle Hsize. generalize dependent (Z.pos m). intros z Hgt Hle.
  lia.
Qed.

(** A number between 6 and 40 is m x 2^e with a 53-bit mantissa and
    e in [-50, -47]. *)
Lemma between_6_and_40 (y : JS.number) :
  JS.le 6%float y = true -> JS.le y 40%float = true ->
  exists m e,
    Prim2SF y = S754_finite false m e /\ -50 <= e <= -47 /\
    6 * 2 ^ 50 <= Z.pos m * 2 ^ (e + 50) <= 40 * 2 ^ 50 /\
    2 ^ 52 <= Z.pos m < 2 ^ 53.
Proof.
  unfold JS.le. rewrite !leb_spec. unfold SFleb.
  pose proof (Prim2SF_valid y) as Hvalid.
  change (Prim2SF 6%float) with (S754_finite false 6755399441055744 (-50)).
  change (Prim2SF 40%float) with (S754_finite false 5629499534213120 (-47)).
  destruct (Prim2SF y) as [s|s| |s m e]; cbn [SFcompare];
    try (destruct s; discriminate); try discriminate.
  destruct s; [discriminate|].
  intros Hlow Hhigh. exists m, e. split; [reflexivity|].
  assert (He : -50 <= e <= -47).
  { destruct (Z.compare_spec (-50) e), (Z.compare_spec e (-47));
      try discriminate; lia. }
  split; [exact He|].
  assert (Hm : 2 ^ 52 <= Z.pos m < 2 ^ 53).
  { apply size_53.
    cbn [SpecFloat.valid_binary] in Hvalid. unfold bounded in Hvalid.
    apply andb_prop in Hvalid. destruct Hvalid as [Hcanon _].
    unfold canonical_mantissa, fexp in Hcanon. apply Z.eqb_eq in Hcanon.
    rewrite digits2_size in Hcanon.
    change (SpecFloat.emin prec emax) with (-1074) in Hcanon.
    change prec with 53 in Hcanon.
    assert (Hsize : Z.pos (Pos.size m) = 53) by (clear - Hcanon He; lia).
    now injection Hsize. }
  split; [|exact Hm].
  assert (Hlow' : e = -50 -> 6755399441055744 <= Z.pos m).
  { intros ->. rewrite Z.compare_refl in Hlow. apply Z.leb_le. exact Hlow. }
  assert (Hhigh' : e = -47 -> Z.pos m <= 5629499534213120).
  { intros ->. rewrite Z.compare_refl in Hhigh. apply Z.leb_le. exact Hhigh. }
  change (2 ^ 52) with 4503599627370496 in Hm.
  change (2 ^ 53) with 9007199254740992 in Hm.
  change (2 ^ 50) with 1125899906842624.
  clear Hlow Hhigh Hvalid.
  generalize dependent (Z.pos m). intros z Hm Hlow Hhigh.
  assert (Hcases : e = -50 \/ e = -49 \/ e = -48 \/ e = -47) by lia.
  destruct Hcases as [He' | [He' | [He' | He']]]; subst e.
  - change (2 ^ (-50 + 50)) with 1. specialize (Hlow eq_refl). lia.
  - change (2 ^ (-49 + 50)) with 2. lia.
  - change (2 ^ (-48 + 50)) with 4. lia.
  - change (2 ^ (-47 + 50)) with 8. specialize (Hhigh eq_refl). lia.
Qed.

(** [Math.round] of a number between 6 and 40 is an integer between 6
    and 40. *)
Lemma round_between_6_and_40 (y : JS.number) :
  JS.le 6%float y = true -> JS.le y 40%float = true ->
  exists n, 6 <= n <= 40 /\ JS.Math_round y = JS.of_Z n.
Proof.
  intros Hlow Hhigh.
  destruct (between_6_and_40 y Hlow Hhigh) as (m & e & Hy & He & Hval & Hm).
  unfold JS.Math_round. rewrite Hy.
  replace (0 <=? e) with false by (symmetry; apply Z.leb_gt; lia).
  set (n := Z.shiftr (Z.pos m + Z.shiftl 1 (- e - 1)) (- e)).
  assert (Hn : 6 <= n <= 40).
  { subst n.
    change (2 ^ 52) with 4503599627370496 in Hm.
    change (2 ^ 53) with 9007199254740992 in Hm.
    change (2 ^ 50) with 1125899906842624 in Hval.
    clear Hy Hlow Hhigh. generalize dependent (Z.pos m). intros z Hval Hm.
    assert (Hcases : e = -50 \/ e = -49 \/ e = -48 \/ e = -47) by lia.
    destruct Hcases as [He' | [He' | [He' | He']]]; subst e;
      rewrite Z.shiftr_div_pow2 by lia.
    - change (Z.shiftl 1 (- -50 - 1)) with 562949953421312.
      change (2 ^ (- -50)) with 1125899906842624.
      change (2 ^ (-50 + 50)) with 1 in Hval.
      split; [apply Z.div_le_lower_bound|apply Z.lt_succ_r, Z.div_lt_upper_bound]; lia.
    - change (Z.shiftl 1 (- -49 - 1)) with 281474976710656.
      change (2 ^ (- -49)) with 562949953421312.
      change (2 ^ (-49 + 50)) with 2 in Hval.
      split; [apply Z.div_le_lower_bound|apply Z.lt_succ_r, Z.div_lt_upper_bound]; lia.
    - change (Z.shiftl 1 (- -48 - 1)) with 140737488355328.
      change (2 ^ (- -48)) with 281474976710656.
      change (2 ^ (-48 + 50)) with 4 in Hval.
      split; [apply Z.div_le_lower_bound|apply Z.lt_succ_r, Z.div_lt_upper_bound]; lia.
    - change (Z.shiftl 1 (- -47 - 1)) with 70368744177664.
      change (2 ^ (- -47)) with 140737488355328.
      change (2 ^ (-47 + 50)) with 8 in Hval.
      split; [apply Z.div_le_lower_bound|apply Z.lt_succ_r, Z.div_lt_upper_bound]; lia. }
  exists n. split; [exact Hn|].
  replace (n =? 0) with false by (symmetry; apply Z.eqb_neq; lia).
  reflexivity.
Qed.

(** Clamping to [6, 40] and rounding gives an integer of that range. *)
Lemma round_clamped (x : JS.number) :
  JS.isNaN x = false ->
  exists n, 6 <= n <= 40 /\
    JS.Math_round (JS.Math_min (JS.Math_max x 6%float) 40%float) = JS.of_Z n.
Proof.
  intros Hx.
  destruct (Math_max_ge x 6%float Hx eq_refl) as (Hnan & Hge).
  destruct (Math_min_le (JS.Math_max x 6%float) 40%float Hnan eq_refl)
    as (_ & Hle & Hmin).
  apply round_between_6_and_40; [|exact Hle].
  apply Hmin; [exact Hge|reflexivity].
Qed.

(** ** MELD *)

Section Meld.
Context `{Builtins}.
Import RiskScoreCalculator.

Lemma calculateMELD_found (labs : list LabResult.t) (b i c : LabResult.t) :
  Spec.FirstMatch (Spec.coded ["bilirubin"]) labs b ->
  Spec.FirstMatch (Spec.coded ["inr"]) labs i ->
  Spec.FirstMatch (Spec.coded ["creatinine"]) labs c ->
  calculateMELD labs
  = if Spec.numeric b && Spec.numeric i && Spec.numeric c
    then Some (JS.Math_round
                 (JS.Math_min
                    (JS.Math_max
                       (Spec.meldFormula (parseFloat (LabResult.value b))
                          (parseFloat (LabResult.value i))
                          (parseFloat (LabResult.value c))) 6%float)
                    40%float))
    else None.
Proof.
  intros Hb Hi Hc. apply find_first_match in Hb, Hi, Hc.
  rewrite find_coded_one in Hb, Hi, Hc.
  unfold calculateMELD. rewrite Hb, Hi, Hc.
  unfold Spec.numeric, Spec.meldFormula.
  destruct (JS.isNaN (parseFloat (LabResult.value b))),
    (JS.isNaN (parseFloat (LabResult.value i))),
    (JS.isNaN (parseFloat (LabResult.value c))); reflexivity.
Qed.

(** C6.  [calculateMELD] returns null exactly when no bilirubin-coded,
    no INR-coded or no creatinine-coded result is present, or the value of
    one of the three results it uses (the first of each analyte) is not
    numeric.  Otherwise it returns
    3.78 ln(max(bilirubin,1)) + 11.2 ln(max(inr,1)) + 9.57 ln(max(creatinine,1)) + 6.43
    clamped to [6, 40] and rounded to the nearest integer, computed on
    binary64 numbers with the logarithm of the host; whenever the formula
    does not evaluate to NaN the result is an integer between 6 and 40.
    In particular it returns 6 when the three values are 1.0. *)
Theorem meld_null_or_formula (labs : list LabResult.t) :
  (calculateMELD labs = None <->
     (forall l, In l labs -> Spec.coded ["bilirubin"] l = false)
     \/ (forall l, In l labs -> Spec.coded ["inr"] l = false)
     \/ (forall l, In l labs -> Spec.coded ["creatinine"] l = false)
     \/ (exists b i c,
           Spec.FirstMatch (Spec.coded ["bilirubin"]) labs b /\
           Spec.FirstMatch (Spec.coded ["inr"]) labs i /\
           Spec.FirstMatch (Spec.coded ["creatinine"]) labs c /\
           (Spec.numeric b = false \/ Spec.numeric i = false
            \/ Spec.numeric c = false)))
  /\ (forall b i c,
        Spec.FirstMatch (Spec.coded ["bilirubin"]) labs b ->
        Spec.FirstMatch (Spec.coded ["inr"]) labs i ->
        Spec.FirstMatch (Spec.coded ["creatinine"]) labs c ->
        Spec.numeric b = true -> Spec.numeric i = true ->
        Spec.numeric c = true ->
        calculateMELD labs
        = Some (JS.Math_round
                  (JS.Math_min
                     (JS.Math_max
                        (Spec.meldFormula (parseFloat (LabResult.value b))
                           (parseFloat (LabResult.value i))
                           (parseFloat (LabResult.value c))) 6%float)
                     40%float)))
  /\ (forall b i c,
        Spec.FirstMatch (Spec.coded ["bilirubin"]) labs b ->
        Spec.FirstMatch (Spec.coded ["inr"]) labs i ->
        Spec.FirstMatch (Spec.coded ["creatinine"]) labs c ->
        Spec.numeric b = true -> Spec.numeric i = true ->
        Spec.numeric c = true ->
        JS.isNaN (Spec.meldFormula (parseFloat (LabResult.value b))
                    (parseFloat (LabResult.value i))
                    (parseFloat (LabResult.value c))) = false ->
        exists n, 6 <= n <= 40 /\ calculateMELD labs = Some (JS.of_Z n))
  /\ (forall b i c,
        Spec.FirstMatch (Spec.coded ["bilirubin"]) labs b ->
        Spec.FirstMatch (Spec.coded ["inr"]) labs i ->
        Spec.FirstMatch (Spec.coded ["creatinine"]) labs c ->
        parseFloat (LabResult.value b) = 1%float ->
        parseFloat (LabResult.value i) = 1%float ->
        parseFloat (LabResult.value c) = 1%float ->
        calculateMELD labs = Some 6%float).
Proof.
  split; [|split; [|split]].
  - destruct (find (Spec.coded ["bilirubin"]) labs) as [b|] eqn:Eb;
      [|split; [intros _; left; now apply find_none_iff|];
        intros _; unfold calculateMELD; rewrite <- find_coded_one, Eb;
        reflexivity].
    destruct (find (Spec.coded ["inr"]) labs) as [i|] eqn:Ei;
      [|split; [intros _; right; left; now apply find_none_iff|];
        intros _; unfold calculateMELD;
        rewrite <- !find_coded_one, Ei; now destruct (find _ labs)].
    destruct (find (Spec.coded ["creatinine"]) labs) as [c|] eqn:Ec;
      [|split; [intros _; right; right; left; now apply find_none_iff|];
        intros _; unfold calculateMELD;
        rewrite <- !find_coded_one, Ec; now do 2 destruct (find _ labs)].
    pose proof Eb as Fb. pose proof Ei as Fi. pose proof Ec as Fc.
    apply find_first_match in Fb, Fi, Fc.
    rewrite (calculateMELD_found labs b i c Fb Fi Fc).
    split.
    + intros E. right; right; right. exists b, i, c. repeat split; try assumption.
      destruct (Spec.numeric b), (Spec.numeric i), (Spec.numeric c);
        cbn in E; try discriminate; auto.
    + intros [Hn|[Hn|[Hn|(b' & i' & c' & Hb & Hi & Hc & Hn)]]].
      * apply find_none_iff in Hn. congruence.
      * apply find_none_iff in Hn. congruence.
      * apply find_none_iff in Hn. congruence.
      * apply find_first_match in Hb, Hi, Hc.
        assert (b' = b) by congruence. assert (i' = i) by congruence.
        assert (c' = c) by congruence. subst.
        destruct Hn as [Hn | [Hn | Hn]]; rewrite Hn, ?andb_false_r; reflexivity.
  - intros b i c Hb Hi Hc Nb Ni Nc.
    rewrite (calculateMELD_found labs b i c Hb Hi Hc), Nb, Ni, Nc. reflexivity.
  - intros b i c Hb Hi Hc Nb Ni Nc Hmeld.
    rewrite (calculateMELD_found labs b i c Hb Hi Hc), Nb, Ni, Nc.
    destruct (round_clamped _ Hmeld) as (n & Hn & ->).
    exists n. split; [exact Hn|reflexivity].
  - intros b i c Hb Hi Hc Vb Vi Vc.
    rewrite (calculateMELD_found labs b i c Hb Hi Hc).
    unfold Spec.numeric, Spec.meldFormula. rewrite Vb, Vi, Vc.
    replace (JS.Math_max 1%float 1%float) with 1%float by (vm_compute; reflexivity).
    rewrite Math_log_1. vm_compute. reflexivity.
Qed.

End Meld.


(** The panel with all three values at 1.0, run on the reference host. *)
Lemma meld_null_or_formula_example :
  RiskScoreCalculator.calculateMELD (H := Host.builtins) Sample.liverPanel
  = Some 6%float.
Proof.
  destruct (meld_null_or_formula (H := Host.builtins) Sample.liverPanel)
    as (_ & _ & _ & Hone).
  apply (Hone Sample.liverPanelBilirubin Sample.liverPanelINR
              Sample.liverPanelCreatinine);
    try (apply find_first_match); vm_compute; reflexivity.
Defined.

(** ** Trends *)

(** Dividing by zero gives an infinity or NaN, never a small number. *)
Lemma is_zero_spec (p : JS.number) :
  PrimFloat.is_zero p = true -> exists s, Prim2SF p = S754_zero s.
Proof.
  unfold is_zero. rewrite FloatAxioms.eqb_spec. unfold SFeqb.
  change (Prim2SF PrimFloat.zero) with (S754_zero false).
  destruct (Prim2SF p) as [s|s| |s m e]; cbn; try discriminate.
  - intros _. now exists s.
  - now destruct s.
  - now destruct s.
Qed.

Lemma percent_of_zero_not_small (delta p : JS.number) :
  PrimFloat.is_zero p = true ->
  JS.lt (JS.Math_abs ((delta / p) * 100)%float) 5%float = false.
Proof.
  intros Hp. destruct (is_zero_spec p Hp) as [s Hs].
  unfold JS.lt, JS.Math_abs.
  rewrite ltb_spec, abs_spec, mul_spec, div_spec, Hs.
  change (Prim2SF 100%float) with (S754_finite false 7036874417766400 (-46)).
  change (Prim2SF 5%float) with (S754_finite false 5629499534213120 (-50)).
  destruct (Prim2SF delta) as [sd|sd| |sd md ed]; destruct s; try destruct sd; reflexivity.
Qed.

Section Trends.
Context `{Builtins}.
Import LabProcessor.

Lemma trendOfGroup_as_specified (labName : string)
  (results : list LabResult.t) (t : LabTrend.t) :
  trendOfGroup labName results = Some t -> Spec.TrendAsSpecified t.
Proof.
  unfold trendOfGroup, Spec.TrendAsSpecified.
  destruct (filter isNumeric _) as [|current older]; [discriminate|].
  destruct (hd_error older) as [previous|]; cbn [option_map].
  - intros [= <-]. cbn [LabTrend.trend LabTrend.previousValue LabTrend.delta
                        LabTrend.deltaPercent LabTrend.currentValue].
    unfold classifyTrend.
    set (current' := numberOf current). set (previous' := numberOf previous).
    split; [|split].
    + destruct (JS.lt _ 5%float) eqn:Esmall.
      * split; [|reflexivity]. intros _. right. eexists. split; [reflexivity|assumption].
      * split.
        -- now destruct (JS.gt _ _).
        -- intros [E|(dp & [= <-] & Hdp)]; congruence.
    + intros Hns. eexists. split; [reflexivity|].
      destruct (JS.lt _ 5%float); [congruence|].
      destruct (JS.gt (current' - previous')%float 0%float) eqn:Egt.
      * split; [reflexivity|]. intros Hle. apply le_not_gt in Hle. congruence.
      * split; [discriminate|reflexivity].
    + intros p [= <-]. repeat split.
      intros Hz. rewrite (percent_of_zero_not_small _ _ Hz).
      now destruct (JS.gt _ _).
  - intros [= <-]. cbn. split; [|split].
    + split; auto.
    + congruence.
    + discriminate.
Qed.

Lemma trendsOfGroups_from (entries : list (string * list LabResult.t))
  (t : LabTrend.t) :
  In t (trendsOfGroups entries) ->
  exists entry, In entry entries /\ trendOfGroup (fst entry) (snd entry) = Some t.
Proof.
  unfold trendsOfGroups.
  assert (Hgen : forall acc,
            In t (fold_left
                    (fun trends entry =>
                       match trendOfGroup (fst entry) (snd entry) with
                       | Some t => trends ++ [t]
                       | None => trends
                       end) entries acc) ->
            In t acc \/
            exists entry, In entry entries /\
              trendOfGroup (fst entry) (snd entry) = Some t).
  { induction entries as [|entry entries IH]; intros acc; cbn [fold_left].
    - now left.
    - intros Hin. destruct (IH _ Hin) as [Hacc|(e & He & Ht)].
      + destruct (trendOfGroup (fst entry) (snd entry)) as [t'|] eqn:E.
        * apply in_app_iff in Hacc. destruct Hacc as [Hacc|[<-|[]]].
          -- now left.
          -- right. exists entry. split; [now left|assumption].
        * now left.
      + right. exists e. split; [now right|assumption]. }
  intros Hin. destruct (Hgen [] Hin) as [[]|Hex]. exact Hex.
Qed.

(** The grouping throws only on a name that is read through the
    prototype. *)
Lemma groupLoop_returns (labResults : list LabResult.t)
  (grouped : JS.Obj (list LabResult.t)) :
  (forall l, In l labResults -> JS.inherited (LabResult.name l) = false) ->
  exists grouped', groupLoop labResults grouped = JS.Normal grouped'.
Proof.
  revert grouped. induction labResults as [|l labResults IH]; intros grouped Hall;
    cbn [groupLoop].
  - now exists grouped.
  - unfold groupStep. rewrite (Hall l (or_introl eq_refl)).
    destruct (JS.own grouped (LabResult.name l)); apply IH;
      intros l' Hl'; apply Hall; now right.
Qed.


(** A series of two results of one analyte, the second one newer. *)
Lemma two_point_series (older newer : LabResult.t) (v1 v2 : JS.number) :
  LabResult.name newer = LabResult.name older ->
  JS.inherited (LabResult.name older) = false ->
  LabResult.value older = VNum v1 ->
  LabResult.value newer = VNum v2 ->
  JS.gt (Date_getTime (LabResult.effectiveDateTime newer)
         - Date_getTime (LabResult.effectiveDateTime older))%float 0%float = true ->
  exists t,
    processLabTrends [older; newer] = JS.Normal [t] /\
    LabTrend.currentValue t = v2 /\
    LabTrend.previousValue t = Some v1 /\
    LabTrend.trend t = classifyTrend (v2 - v1)%float (((v2 - v1) / v1) * 100)%float.
Proof.
  intros Hname Hinh Hv1 Hv2 Hnewer.
  unfold processLabTrends, groupLabsByType.
  cbn [groupLoop]. unfold groupStep at 1. cbn [JS.own]. rewrite Hinh.
  unfold groupStep. cbn [JS.own app]. rewrite Hname, String.eqb_refl.
  cbn [JS.update]. rewrite String.eqb_refl. cbn [app].
  assert (Hentries : JS.Object_entries [(LabResult.name older, [older; newer])]
                     = [(LabResult.name older, [older; newer])]).
  { unfold JS.Object_entries. cbn [filter].
    destruct (JS.isIndexKey _); reflexivity. }
  rewrite Hentries. unfold trendsOfGroups. cbn [fold_left fst snd].
  unfold trendOfGroup, JS.sort, JS.stableSort.
  cbn [fold_left JS.insertSorted]. rewrite Hnewer.
  cbn [filter]. unfold isNumeric, numberOf. rewrite Hv1, Hv2.
  cbn [hd_error option_map app]. rewrite Hv1, Hv2.
  eexists. split; [reflexivity|]. cbn. auto.
Qed.

(** C2.  Every trend emitted by [processLabTrends] is stable exactly when
    its previous value is absent or the magnitude of its percent change is
    below 5, and otherwise rising when delta > 0 and falling when
    delta <= 0.  The call returns for every input whose analyte names are
    not names of [Object.prototype]; in particular a previous value of 0
    does not make it throw, and then the trend is not stable.  A two-point
    series from 10.0 to 10.3 is stable, and one from 10.0 to 10.6 is
    rising. *)
Theorem trends_classified :
  (forall labs trends t,
     processLabTrends labs = JS.Normal trends -> In t trends ->
     Spec.TrendAsSpecified t)
  /\ (forall labs,
        (forall l, In l labs -> JS.inherited (LabResult.name l) = false) ->
        exists trends, processLabTrends labs = JS.Normal trends)
  /\ (forall older newer,
        LabResult.name newer = LabResult.name older ->
        JS.inherited (LabResult.name older) = false ->
        JS.gt (Date_getTime (LabResult.effectiveDateTime newer)
               - Date_getTime (LabResult.effectiveDateTime older))%float
              0%float = true ->
        LabResult.value older = VNum 10.0%float ->
        (LabResult.value newer = VNum 10.3%float ->
         exists t, processLabTrends [older; newer] = JS.Normal [t] /\
                   LabTrend.trend t = stable)
        /\ (LabResult.value newer = VNum 10.6%float ->
            exists t, processLabTrends [older; newer] = JS.Normal [t] /\
                      LabTrend.trend t = rising)).
Proof.
  split; [|split].
  - intros labs trends t. unfold processLabTrends.
    destruct (groupLabsByType labs) as [groupedLabs|e]; [|discriminate].
    intros [= <-] Hin.
    destruct (trendsOfGroups_from _ _ Hin) as (entry & _ & Ht).
    exact (trendOfGroup_as_specified _ _ _ Ht).
  - intros labs Hnames. unfold processLabTrends, groupLabsByType.
    destruct (groupLoop_returns labs [] Hnames) as [groupedLabs ->].
    eexists. reflexivity.
  - intros older newer Hname Hinh Hnewer Holder. split; intros Hvalue;
      destruct (two_point_series older newer _ _ Hname Hinh Holder Hvalue Hnewer)
        as (t & Hrun & _ & _ & Htrend);
      exists t; (split; [exact Hrun|]); rewrite Htrend; vm_compute; reflexivity.
Qed.

End Trends.

(** The examples on the reference host: the two series of the
    specification, and two series whose previous value is 0. *)
Lemma trends_classified_example :
  (exists t, LabProcessor.processLabTrends (H := Host.builtins)
               [Sample.seriesOlder; Sample.seriesPlus3] = JS.Normal [t]
             /\ LabTrend.trend t = stable)
  /\ (exists t, LabProcessor.processLabTrends (H := Host.builtins)
                  [Sample.seriesOlder; Sample.seriesPlus6] = JS.Normal [t]
                /\ LabTrend.trend t = rising)
  /\ map (fun t => (LabTrend.previousValue t, LabTrend.trend t))
         (match LabProcessor.processLabTrends (H := Host.builtins)
                  Sample.seriesFromZero with
          | JS.Normal trends => trends
          | JS.Throw _ => []
          end) = [(Some 0%float, rising)]
  /\ map (fun t => (LabTrend.previousValue t, LabTrend.trend t))
         (match LabProcessor.processLabTrends (H := Host.builtins)
                  Sample.seriesZeroZero with
          | JS.Normal trends => trends
          | JS.Throw _ => []
          end) = [(Some 0%float, falling)].
Proof.
  destruct (trends_classified (H := Host.builtins)) as (_ & _ & Hseries).
  split; [|split; [|split]].
  - apply (Hseries Sample.seriesOlder Sample.seriesPlus3);
      vm_compute; reflexivity.
  - apply (Hseries Sample.seriesOlder Sample.seriesPlus6);
      vm_compute; reflexivity.
  - vm_compute. reflexivity.
  - vm_compute. reflexivity.
Defined.

(** ** Status classifier *)

(** C3, amended.  For every observation with a numeric value v and a
    reference range.  High bound: if v > high and v > high x 1.5 the range
    rule yields critical; if high < v <= high x 1.5 it yields abnormal; if
    v <= high the high bound does not escalate the status (the rule
    decides as if the range had no high bound).  Low bound, when the high
    bound has not been exceeded: if v < low and v < low x 0.5 the rule
    yields critical; if low > v >= low x 0.5 it yields abnormal; if
    v >= low it yields normal. *)
Theorem range_rule_guarded (v : JS.number) (r : FHIRRange.t) :
  (forall high, FHIRRange.high r = Some high ->
     let h := Quantity.value high in
     (JS.gt v h = true -> JS.gt v (h * 1.5)%float = true ->
      FHIRClient.rangeRule (Some v) (Some r) = critical)
     /\ (JS.gt v h = true -> JS.le v (h * 1.5)%float = true ->
         FHIRClient.rangeRule (Some v) (Some r) = abnormal)
     /\ (JS.le v h = true ->
         FHIRClient.rangeRule (Some v) (Some r)
         = FHIRClient.rangeRule (Some v) (Some (Spec.withoutHigh r))))
  /\ (forall low, FHIRRange.low r = Some low ->
        let l := Quantity.value low in
        (forall high, FHIRRange.high r = Some high ->
                      JS.gt v (Quantity.value high) = false) ->
        (JS.lt v l = true -> JS.lt v (l * 0.5)%float = true ->
         FHIRClient.rangeRule (Some v) (Some r) = critical)
        /\ (JS.lt v l = true -> JS.ge v (l * 0.5)%float = true ->
            FHIRClient.rangeRule (Some v) (Some r) = abnormal)
        /\ (JS.ge v l = true ->
            FHIRClient.rangeRule (Some v) (Some r) = normal)).
Proof.
  unfold FHIRClient.rangeRule, Spec.withoutHigh. split.
  - intros high ->. cbn [FHIRRange.high FHIRRange.low]. repeat split.
    + intros -> ->. reflexivity.
    + intros -> Hle. apply le_not_gt in Hle. now rewrite Hle.
    + intros Hle. apply le_not_gt in Hle. now rewrite Hle.
  - intros low -> Hhigh.
    assert (Hge : forall x y, JS.ge x y = true -> JS.lt x y = false)
      by (intros x y Hxy; exact (le_not_gt y x Hxy)).
    destruct (FHIRRange.high r) as [high|];
      [rewrite (Hhigh high eq_refl)|]; repeat split.
    + intros -> ->. reflexivity.
    + intros -> Hhalf. now rewrite (Hge _ _ Hhalf).
    + intros Hl. now rewrite (Hge _ _ Hl).
    + intros -> ->. reflexivity.
    + intros -> Hhalf. now rewrite (Hge _ _ Hhalf).
    + intros Hl. now rewrite (Hge _ _ Hl).
Qed.

(** A base excess of -1.5 lies inside its range [-2, 3]; it is below
    low x 0.5 = -1 and yet classified normal. *)
Lemma range_rule_negative_low_counterexample :
  JS.lt (-1.5)%float (Quantity.value Sample.baseExcessLow * 0.5)%float = true
  /\ FHIRClient.rangeRule (Some (-1.5)%float) (Some Sample.baseExcessRange) = normal.
Proof. split; vm_compute; reflexivity. Qed.

Lemma range_rule_guarded_witness :
  FHIRClient.rangeRule (Some 5%float) (Some Sample.baseExcessRange) = critical
  /\ FHIRClient.rangeRule (Some 4%float) (Some Sample.baseExcessRange) = abnormal
  /\ FHIRClient.rangeRule (Some (-3)%float) (Some Sample.baseExcessRange) = critical.
Proof.
  split; [|split].
  - destruct (range_rule_guarded 5%float Sample.baseExcessRange) as [Hhigh _].
    apply (Hhigh _ eq_refl); vm_compute; reflexivity.
  - destruct (range_rule_guarded 4%float Sample.baseExcessRange) as [Hhigh _].
    apply (Hhigh _ eq_refl); vm_compute; reflexivity.
  - destruct (range_rule_guarded (-3)%float Sample.baseExcessRange) as [_ Hlow].
    apply (Hlow _ eq_refl).
    + intros high [= <-]. vm_compute. reflexivity.
    + vm_compute. reflexivity.
    + vm_compute. reflexivity.
Defined.

(** ** The table of critical thresholds *)

Section CriticalTable.
Context `{Builtins}.
Import FHIRClient.

Lemma critical_bounds_truthy (key : string) (range : CriticalRange.t) :
  In (key, range) criticalRanges ->
  (forall high, CriticalRange.high range = Some high -> JS.truthy high = true)
  /\ (forall low, CriticalRange.low range = Some low -> JS.truthy low = true).
Proof.
  unfold criticalRanges. cbn [In].
  intros [E|[E|[E|[E|[E|[E|[]]]]]]]; injection E as <- <-;
    cbn [CriticalRange.high CriticalRange.low]; split;
    intros b [= <-]; reflexivity.
Qed.

Lemma criticalRanges_entries :
  JS.Object_entries criticalRanges = criticalRanges.
Proof. reflexivity. Qed.

Lemma outside_defined_bound (key : string) (range : CriticalRange.t)
  (value : JS.number) :
  In (key, range) criticalRanges ->
  Spec.outsideDefinedBound range value -> outsideCritical range value = true.
Proof.
  intros Hin Hout. destruct (critical_bounds_truthy key range Hin) as [Hh Hl].
  unfold outsideCritical.
  destruct Hout as [(high & Eh & Hgt)|(low & El & Hlt)].
  - rewrite Eh, (Hh high Eh), Hgt. reflexivity.
  - rewrite El, (Hl low El), Hlt. apply orb_true_r.
Qed.

(** C4, amended.  For every observation with a numeric value: when the
    entry of the critical-range table selected for the analyte name is the
    first one, in table order (Potassium, Sodium, Glucose, Hemoglobin,
    Platelet, Creatinine), whose key occurs in the name without regard to
    case, and the value falls outside a bound that this entry defines, the
    final status is critical; and a status set to critical by the range
    rule stays critical after the table check. *)
Theorem critical_table_first_key (obs : FHIRObservation.t) (q : Quantity.t) :
  FHIRObservation.valueQuantity obs = Some q ->
  let value := Quantity.value q in
  let labName := LabResult.name (transformObservation obs) in
  (forall key range,
     Spec.FirstMatch
       (fun entry => JS.includes (toLowerCase labName) (toLowerCase (fst entry)))
       criticalRanges (key, range) ->
     Spec.outsideDefinedBound range value ->
     LabResult.status (transformObservation obs) = critical)
  /\ (rangeRule (Some value) (first (FHIRObservation.referenceRange obs)) = critical ->
      LabResult.status (transformObservation obs) = critical).
Proof.
  intros Hq value labName. subst value labName.
  unfold transformObservation. cbn [LabResult.name LabResult.status].
  rewrite Hq. cbn [option_map].
  set (labName := orString _ _).
  set (status := rangeRule _ _).
  unfold criticalRule, findCritical. rewrite criticalRanges_entries. split.
  - intros key range Hfirst Hout.
    pose proof Hfirst as Hfind. apply find_first_match in Hfind.
    rewrite Hfind. cbn [snd].
    assert (Hin : In (key, range) criticalRanges).
    { destruct Hfirst as (before & after & -> & _). apply in_or_app. right. now left. }
    now rewrite (outside_defined_bound key range _ Hin Hout).
  - intros ->. destruct (find _ criticalRanges) as [entry|]; [|reflexivity].
    now destruct (outsideCritical _ _).
Qed.

End CriticalTable.

(** The name contains Sodium and Potassium; 5 lies below the Sodium bound
    120, but only Potassium, the first key of the table found in the name,
    is consulted. *)
Lemma critical_table_any_key_counterexample :
  let labName := LabResult.name
                   (FHIRClient.transformObservation (H := Host.builtins)
                      Sample.sodiumPotassiumRatio) in
  exists key range,
    In (key, range) FHIRClient.criticalRanges /\
    JS.includes (Host.lowerCaseAscii labName) (Host.lowerCaseAscii key) = true /\
    Spec.outsideDefinedBound range 5%float /\
    LabResult.status
      (FHIRClient.transformObservation (H := Host.builtins) Sample.sodiumPotassiumRatio)
    = normal.
Proof.
  exists "Sodium", {| CriticalRange.low := Some 120%float;
                      CriticalRange.high := Some 160%float |}.
  repeat split.
  - right. left. reflexivity.
  - right. eexists. split; [reflexivity|]. vm_compute. reflexivity.
Qed.

Lemma critical_table_first_key_witness :
  LabResult.status
    (FHIRClient.transformObservation (H := Host.builtins) Sample.highPotassium)
  = critical.
Proof.
  destruct (critical_table_first_key (H := Host.builtins) Sample.highPotassium _ eq_refl)
    as [Hfirst _].
  apply (Hfirst "Potassium" {| CriticalRange.low := Some 2.5%float;
                               CriticalRange.high := Some 6.5%float |}).
  - apply find_first_match. vm_compute. reflexivity.
  - left. eexists. split; [reflexivity|]. vm_compute. reflexivity.
Defined.

(** ** Purity *)

Section Purity.
Context `{Builtins}.

(** C9, amended.  Trend analysis, organ-system assessment, MELD,
    deterioration detection and narrative generation are pure functions of
    their input: two calls on the same input return equal results whatever
    the clock shows.  Patient risk scoring reads the wall clock to form
    its 48-hour recency window (as the recent-labs summary does for its
    week): two calls on the same input return equal results whenever
    their clock readings put the same results in the window. *)
Theorem derivations_pure_up_to_clock :
  (forall labs, Spec.Pure (Spec.call_processLabTrends labs))
  /\ (forall labs, Spec.Pure (Spec.call_calculateOrganSystemRisks labs))
  /\ (forall labs, Spec.Pure (Spec.call_calculateMELD labs))
  /\ (forall currentLabs previousLabs,
        Spec.Pure (Spec.call_detectDeterioration currentLabs previousLabs))
  /\ (forall (F : Formatting) lab trend, Spec.Pure (Spec.call_getLabNarrative lab trend))
  /\ (forall labs w1 w2,
        (forall l, In l labs ->
           RiskScoreCalculator.isRecent (Spec.clock w1) l
           = RiskScoreCalculator.isRecent (Spec.clock w2) l) ->
        Spec.call_calculatePatientRisk labs w1 = Spec.call_calculatePatientRisk labs w2)
  /\ (forall labs w1 w2,
        (forall l, In l labs ->
           JS.gt (Date_getTime (LabResult.effectiveDateTime l))
                 (Date_minus7days (Spec.clock w1))
           = JS.gt (Date_getTime (LabResult.effectiveDateTime l))
                   (Date_minus7days (Spec.clock w2))) ->
        Spec.call_getRecentLabsSummary labs w1 = Spec.call_getRecentLabsSummary labs w2).
Proof.
  repeat split; try (intros; intros w1 w2; reflexivity).
  - intros labs w1 w2 Hwindow.
    unfold Spec.call_calculatePatientRisk, RiskScoreCalculator.calculatePatientRisk.
    now rewrite (filter_ext_in _ _ labs Hwindow).
  - intros labs w1 w2 Hweek.
    unfold Spec.call_getRecentLabsSummary, LabProcessor.getRecentLabsSummary.
    now rewrite (filter_ext_in _ _ labs Hweek).
Qed.

End Purity.

(** The same collection scored at two times: within a day of the results
    the score is 33, three days later the window is empty and it is 0. *)
Lemma patient_risk_reads_clock_counterexample :
  ~ Spec.Pure (Spec.call_calculatePatientRisk (H := Host.builtins)
            Sample.twoCriticalOneAbnormal).
Proof.
  intros Hpure. specialize (Hpure Sample.atSampleTime Sample.threeDaysLater).
  apply (f_equal RiskScore.score) in Hpure. vm_compute in Hpure. discriminate.
Qed.

Lemma derivations_pure_up_to_clock_witness :
  Spec.call_calculatePatientRisk (H := Host.builtins) Sample.twoCriticalOneAbnormal
    Sample.atSampleTime
  = Spec.call_calculatePatientRisk (H := Host.builtins) Sample.twoCriticalOneAbnormal
      Sample.anHourLater.
Proof.
  destruct (derivations_pure_up_to_clock (H := Host.builtins))
    as (_ & _ & _ & _ & _ & Hrisk & _).
  apply Hrisk. intros l Hl.
  repeat (destruct Hl as [<-|Hl]; [vm_compute; reflexivity|]).
  destruct Hl.
Defined.

(** ** When the grouping throws *)

Lemma own_update_none {V} (o : JS.Obj V) (k key : string) (v : V) :
  JS.own o key = None -> JS.own (JS.update o k v) key = None.
Proof.
  induction o as [|[k' w] o IH]; cbn [JS.own JS.update]; [reflexivity|].
  destruct (String.eqb k' key) eqn:Ekey; [discriminate|].
  intros Hown. destruct (String.eqb k' k); cbn [JS.own]; rewrite Ekey; auto.
Qed.

Lemma own_append_none {V} (o : JS.Obj V) (k key : string) (v : V) :
  JS.own o key = None -> String.eqb k key = false ->
  JS.own (o ++ [(k, v)]) key = None.
Proof.
  induction o as [|[k' w] o IH]; cbn [JS.own app]; intros Hown Hk.
  - now rewrite Hk.
  - destruct (String.eqb k' key); [discriminate|]. now apply IH.
Qed.

Section GroupingThrows.
Context `{Builtins}.
Import LabProcessor.

(** No name of [Object.prototype] ever becomes an own key of the
    grouping, so the first result carrying such a name makes the loop
    throw. *)
Lemma groupLoop_throws (labResults : list LabResult.t)
  (grouped : JS.Obj (list LabResult.t)) :
  (forall key, JS.inherited key = true -> JS.own grouped key = None) ->
  (exists l, In l labResults /\ JS.inherited (LabResult.name l) = true) ->
  exists e, groupLoop labResults grouped = JS.Throw e.
Proof.
  revert grouped.
  induction labResults as [|l labResults IH]; intros grouped Hinv (l' & Hin & Hl').
  - destruct Hin.
  - cbn [groupLoop]. unfold groupStep.
    destruct (JS.inherited (LabResult.name l)) eqn:El.
    + rewrite (Hinv _ El). eexists. reflexivity.
    + assert (Hrest : exists l0, In l0 labResults /\
                                 JS.inherited (LabResult.name l0) = true).
      { destruct Hin as [<-|Hin]; [congruence|]. now exists l'. }
      destruct (JS.own grouped (LabResult.name l)) as [results|] eqn:Eown.
      * apply IH; [|exact Hrest]. intros key Hkey.
        apply own_update_none. now apply Hinv.
      * apply IH; [|exact Hrest]. intros key Hkey.
        apply own_append_none; [now apply Hinv|].
        apply String.eqb_neq. intros <-. congruence.
Qed.

(** X1.  [processLabTrends] throws exactly when the name of some result
    is a property name of [Object.prototype] (constructor, toString,
    valueOf, __proto__, ...): the grouping object is a plain object, so
    such a name reads as a truthy inherited value that has no [push]. *)
Theorem trends_throw_on_prototype_names (labs : list LabResult.t) :
  (exists e, processLabTrends labs = JS.Throw e) <->
  (exists l, In l labs /\ JS.inherited (LabResult.name l) = true).
Proof.
  unfold processLabTrends, groupLabsByType. split.
  - intros [e He].
    destruct (existsb (fun l => JS.inherited (LabResult.name l)) labs) eqn:Ex.
    + apply existsb_exists in Ex. exact Ex.
    + assert (Hall : forall l, In l labs -> JS.inherited (LabResult.name l) = false).
      { intros l Hl. destruct (JS.inherited (LabResult.name l)) eqn:El; [|reflexivity].
        assert (Hex : existsb (fun l => JS.inherited (LabResult.name l)) labs = true)
          by (apply existsb_exists; now exists l).
        congruence. }
      destruct (groupLoop_returns labs [] Hall) as [grouped Hg].
      rewrite Hg in He. discriminate.
  - intros Hex.
    destruct (groupLoop_throws labs [] (fun _ _ => eq_refl) Hex) as [e He].
    rewrite He. now exists e.
Qed.

End GroupingThrows.

(** An analyte named [constructor] on the reference host. *)
Lemma trends_throw_on_prototype_names_example :
  exists e,
    LabProcessor.processLabTrends (H := Host.builtins)
      [Sample.namedConstructor]
    = JS.Throw e.
Proof.
  apply (trends_throw_on_prototype_names (H := Host.builtins)).
  eexists. split; [left; reflexivity|reflexivity].
Defined.

(** ** The score in closed form *)

Section ScoreFormula.
Context `{Builtins}.
Import RiskScoreCalculator.

(** The score in closed form. *)
Lemma patient_risk_score_formula (now : JS.number) (labs : list LabResult.t) :
  let window := filter (isRecent now) labs in
  RiskScore.score (calculatePatientRisk now labs)
  = Z.min (Z.min (Spec.count (Spec.hasStatus critical) window * 15) 45
           + Z.min (Spec.count (Spec.hasStatus abnormal) window * 3) 30
           + HighRiskMarkers.score (checkHighRiskMarkers window)) 100.
Proof.
  intros window. unfold calculatePatientRisk. fold window.
  change (JS.length (filter (isStatus critical) window))
    with (Spec.count (Spec.hasStatus critical) window).
  change (JS.length (filter (isStatus abnormal) window))
    with (Spec.count (Spec.hasStatus abnormal) window).
  pose proof (markers_score_bounds window) as Hm.
  assert (Hc : 0 <= Spec.count (Spec.hasStatus critical) window)
    by (unfold Spec.count; lia).
  assert (Ha : 0 <= Spec.count (Spec.hasStatus abnormal) window)
    by (unfold Spec.count; lia).
  generalize dependent (HighRiskMarkers.score (checkHighRiskMarkers window)).
  generalize dependent (Spec.count (Spec.hasStatus critical) window).
  generalize dependent (Spec.count (Spec.hasStatus abnormal) window).
  intros a Ha c Hc m Hm.
  rewrite (Z.gtb_ltb c 0), (Z.gtb_ltb a 0), (Z.gtb_ltb m 0).
  destruct (Z.ltb_spec 0 c), (Z.ltb_spec 0 a), (Z.ltb_spec 0 m);
    cbn [RiskScore.score]; lia.
Qed.

(** X2.  The score of [calculatePatientRisk] is non-decreasing in the
    number of critical results and in the number of abnormal results of
    the recency window, the contribution of the marker patterns being
    equal. *)
Theorem patient_risk_score_monotone (now1 now2 : JS.number)
  (labs1 labs2 : list LabResult.t) :
  let window1 := filter (isRecent now1) labs1 in
  let window2 := filter (isRecent now2) labs2 in
  Spec.count (Spec.hasStatus critical) window1
  <= Spec.count (Spec.hasStatus critical) window2 ->
  Spec.count (Spec.hasStatus abnormal) window1
  <= Spec.count (Spec.hasStatus abnormal) window2 ->
  HighRiskMarkers.score (checkHighRiskMarkers window1)
  = HighRiskMarkers.score (checkHighRiskMarkers window2) ->
  RiskScore.score (calculatePatientRisk now1 labs1)
  <= RiskScore.score (calculatePatientRisk now2 labs2).
Proof.
  intros window1 window2 Hc Ha Hm.
  rewrite !patient_risk_score_formula. fold window1 window2. lia.
Qed.

End ScoreFormula.

Lemma patient_risk_score_monotone_example :
  RiskScore.score
    (RiskScoreCalculator.calculatePatientRisk (H := Host.builtins)
       Sample.now (firstn 1 Sample.twoCriticalOneAbnormal))
  <= RiskScore.score
       (RiskScoreCalculator.calculatePatientRisk (H := Host.builtins)
          Sample.now Sample.twoCriticalOneAbnormal).
Proof.
  apply (patient_risk_score_monotone (H := Host.builtins));
    vm_compute; congruence.
Defined.

(** ** Observations without a value *)

Section NonNumeric.
Context `{Builtins}.
Import FHIRClient.

(** X3.  An observation without a numeric value is classified normal, and
    its value is the text N/A. *)
Theorem observation_without_value_is_normal (obs : FHIRObservation.t) :
  FHIRObservation.valueQuantity obs = None ->
  LabResult.status (transformObservation obs) = normal
  /\ LabResult.value (transformObservation obs) = VStr "N/A".
Proof.
  intros Hq. unfold transformObservation. rewrite Hq.
  cbn [option_map LabResult.status LabResult.value rangeRule].
  unfold criticalRule. now destruct (findCritical _).
Qed.

End NonNumeric.

Lemma observation_without_value_is_normal_example :
  LabResult.status
    (FHIRClient.transformObservation (H := Host.builtins) Sample.withoutValue)
  = normal
  /\ LabResult.value
       (FHIRClient.transformObservation (H := Host.builtins) Sample.withoutValue)
     = VStr "N/A".
Proof.
  apply (observation_without_value_is_normal (H := Host.builtins)). reflexivity.
Defined.

(** ** Data points of a trend *)

Section DataPoints.
Context `{Builtins}.
Import LabProcessor.

Lemma trendOfGroup_data (labName : string) (results : list LabResult.t)
  (t : LabTrend.t) :
  trendOfGroup labName results = Some t ->
  (1 <= List.length (LabTrend.data t) <= 10)%nat
  /\ option_map TrendPoint.value (hd_error (rev (LabTrend.data t)))
     = Some (LabTrend.currentValue t).
Proof.
  unfold trendOfGroup.
  destruct (filter isNumeric _) as [|current older]; [discriminate|].
  assert (Hpoints : exists rest,
            firstn 10 (current :: older) = current :: rest
            /\ (List.length rest <= 9)%nat).
  { exists (firstn 9 older). split; [reflexivity|]. apply firstn_le_length. }
  destruct Hpoints as (rest & -> & Hrest).
  destruct (match option_map numberOf (hd_error older) with
            | Some previousValue => _
            | None => _
            end) as [[delta deltaPercent] trend].
  intros [= <-]. cbn [LabTrend.data LabTrend.currentValue].
  rewrite rev_app_distr, rev_involutive, length_app, length_rev, length_map.
  split; [cbn [List.length]; lia|reflexivity].
Qed.

(** X4.  Every trend emitted by [processLabTrends] carries between 1 and
    10 data points, and the last of them is the current value: the points
    are listed oldest first. *)
Theorem trend_data_capped (labs : list LabResult.t)
  (trends : list LabTrend.t) (t : LabTrend.t) :
  processLabTrends labs = JS.Normal trends -> In t trends ->
  (1 <= List.length (LabTrend.data t) <= 10)%nat
  /\ option_map TrendPoint.value (hd_error (rev (LabTrend.data t)))
     = Some (LabTrend.currentValue t).
Proof.
  unfold processLabTrends.
  destruct (groupLabsByType labs) as [groupedLabs|e]; [|discriminate].
  intros [= <-] Hin.
  destruct (trendsOfGroups_from _ _ Hin) as (entry & _ & Ht).
  exact (trendOfGroup_data _ _ _ Ht).
Qed.

End DataPoints.

Lemma trend_data_capped_example :
  Forall (fun t => (1 <= List.length (LabTrend.data t) <= 10)%nat)
         (match LabProcessor.processLabTrends (H := Host.builtins)
                  [Sample.seriesOlder; Sample.seriesPlus3] with
          | JS.Normal trends => trends
          | JS.Throw _ => []
          end).
Proof.
  apply Forall_forall. intros t Ht.
  destruct (LabProcessor.processLabTrends (H := Host.builtins)
              [Sample.seriesOlder; Sample.seriesPlus3]) as [trends|e] eqn:E;
    [|destruct Ht].
  exact (proj1 (trend_data_capped (H := Host.builtins) _ _ _ E Ht)).
Defined.

(** * Further properties of the code *)

(** ** Plain objects and sorting *)

Lemma own_none_iff {V} (o : JS.Obj V) (key : string) :
  JS.own o key = None <-> ~ In key (map fst o).
Proof.
  induction o as [|[k v] o IH]; cbn [JS.own map fst In]; [tauto|].
  destruct (String.eqb_spec k key) as [->|Hne].
  - split; [discriminate|]. intros Hn. exfalso. apply Hn. now left.
  - rewrite IH. tauto.
Qed.

Lemma own_in {V} (o : JS.Obj V) (key : string) (v : V) :
  NoDup (map fst o) -> (JS.own o key = Some v <-> In (key, v) o).
Proof.
  induction o as [|[k w] o IH]; cbn [JS.own map fst In]; intros Hnd.
  - split; [discriminate|tauto].
  - inversion Hnd as [|? ? Hk Hnd']; subst.
    destruct (String.eqb_spec k key) as [->|Hne].
    + split.
      * intros [= ->]. now left.
      * intros [[= ->]|Hin]; [reflexivity|].
        exfalso. apply Hk. apply (in_map fst) in Hin. exact Hin.
    + rewrite (IH Hnd'). split; [auto|].
      intros [[= -> _]|Hin]; [congruence|exact Hin].
Qed.

Lemma keys_update {V} (o : JS.Obj V) (k : string) (v : V) :
  map fst (JS.update o k v) = map fst o.
Proof.
  induction o as [|[k' w] o IH]; cbn [JS.update map fst]; [reflexivity|].
  destruct (String.eqb k' k); cbn [map fst]; [reflexivity|]. now rewrite IH.
Qed.

Lemma own_update_same {V} (o : JS.Obj V) (k : string) (v w : V) :
  JS.own o k = Some w -> JS.own (JS.update o k v) k = Some v.
Proof.
  induction o as [|[k' u] o IH]; cbn [JS.own JS.update]; [discriminate|].
  destruct (String.eqb k' k) eqn:E; cbn [JS.own]; rewrite E; [reflexivity|exact IH].
Qed.

Lemma own_update_other {V} (o : JS.Obj V) (k key : string) (v : V) :
  k <> key -> JS.own (JS.update o k v) key = JS.own o key.
Proof.
  intros Hne.
  induction o as [|[k' u] o IH]; cbn [JS.own JS.update]; [reflexivity|].
  destruct (String.eqb_spec k' k) as [->|Hk]; cbn [JS.own].
  - destruct (String.eqb_spec k key); [contradiction|reflexivity].
  - now rewrite IH.
Qed.

Lemma own_append {V} (o : JS.Obj V) (k key : string) (v : V) :
  JS.own (o ++ [(k, v)]) key
  = match JS.own o key with
    | Some w => Some w
    | None => if String.eqb k key then Some v else None
    end.
Proof.
  induction o as [|[k' u] o IH]; cbn [JS.own app]; [reflexivity|].
  now destruct (String.eqb k' key).
Qed.

(** Sorting permutes. *)
Lemma insertSorted_perm {A} (after : A -> A -> bool) (x : A) (l : list A) :
  Permutation (JS.insertSorted after x l) (x :: l).
Proof.
  induction l as [|y l IH]; cbn [JS.insertSorted]; [reflexivity|].
  destruct (after y x); [reflexivity|].
  rewrite IH. apply perm_swap.
Qed.

Lemma stableSort_perm {A} (after : A -> A -> bool) (l : list A) :
  Permutation (JS.stableSort after l) l.
Proof.
  unfold JS.stableSort.
  assert (Hgen : forall acc,
            Permutation (fold_left (fun acc x => JS.insertSorted after x acc) l acc)
                        (l ++ acc)).
  { induction l as [|x l IH]; intros acc; cbn [fold_left app]; [reflexivity|].
    rewrite IH, insertSorted_perm. symmetry. apply Permutation_middle. }
  rewrite Hgen. now rewrite app_nil_r.
Qed.

Lemma sort_perm {A} (comparefn : A -> A -> JS.number) (l : list A) :
  Permutation (JS.sort comparefn l) l.
Proof. apply stableSort_perm. Qed.

(** Elements that the comparator does not order keep their places. *)
Lemma insertSorted_last {A} (after : A -> A -> bool) (x : A) (l : list A) :
  (forall y, In y l -> after y x = false) ->
  JS.insertSorted after x l = l ++ [x].
Proof.
  induction l as [|y l IH]; cbn [JS.insertSorted app]; intros Hall; [reflexivity|].
  rewrite (Hall y (or_introl eq_refl)). f_equal. apply IH.
  intros z Hz. apply Hall. now right.
Qed.

Lemma stableSort_unordered {A} (after : A -> A -> bool) (l : list A) :
  (forall x y, In x l -> In y l -> after y x = false) ->
  JS.stableSort after l = l.
Proof.
  intros Hall. unfold JS.stableSort.
  assert (Hgen : forall done rest, l = done ++ rest ->
            fold_left (fun acc x => JS.insertSorted after x acc) rest done = l).
  { intros done rest. revert done. induction rest as [|x rest IH]; intros done Hl;
      cbn [fold_left].
    - now rewrite app_nil_r in Hl.
    - rewrite insertSorted_last.
      + apply IH. now rewrite <- app_assoc.
      + intros y Hy. apply Hall; rewrite Hl; apply in_or_app;
          [right; now left|now left]. }
  now apply (Hgen [] l).
Qed.

(** ** Filters *)

Lemma filter_partition_perm {A} (p : A -> bool) (l : list A) :
  Permutation (filter p l ++ filter (fun x => negb (p x)) l) l.
Proof.
  induction l as [|x l IH]; cbn [filter]; [reflexivity|].
  destruct (p x); cbn [negb app].
  - now rewrite IH.
  - rewrite <- Permutation_middle. now rewrite IH.
Qed.

Lemma filter_perm {A} (p : A -> bool) (l l' : list A) :
  Permutation l l' -> Permutation (filter p l) (filter p l').
Proof.
  induction 1 as [|x l l' _ IH|x y l|l l' l'' _ IH1 _ IH2]; cbn [filter].
  - constructor.
  - destruct (p x); [now constructor|exact IH].
  - destruct (p x), (p y); try reflexivity. apply perm_swap.
  - now transitivity (filter p l').
Qed.

Lemma filter_twice {A} (p q : A -> bool) (l : list A) :
  filter p (filter q l) = filter (fun x => q x && p x) l.
Proof.
  induction l as [|x l IH]; cbn [filter]; [reflexivity|].
  destruct (q x); cbn [filter andb]; [|exact IH].
  destruct (p x); now rewrite IH.
Qed.

Lemma filter_within {A} (p q : A -> bool) (l : list A) :
  (forall x, p x = true -> q x = true) -> filter p (filter q l) = filter p l.
Proof.
  intros Hsub. induction l as [|x l IH]; cbn [filter]; [reflexivity|].
  destruct (q x) eqn:Eq; cbn [filter]; [now rewrite IH|].
  destruct (p x) eqn:Ep; [|exact IH]. rewrite (Hsub x Ep) in Eq. discriminate.
Qed.

Lemma filter_all {A} (p : A -> bool) (l : list A) :
  (forall x, In x l -> p x = true) -> filter p l = l.
Proof.
  induction l as [|x l IH]; cbn [filter]; intros Hall; [reflexivity|].
  rewrite (Hall x (or_introl eq_refl)). f_equal. apply IH.
  intros y Hy. apply Hall. now right.
Qed.

Lemma filter_none {A} (p : A -> bool) (l : list A) :
  (forall x, In x l -> p x = false) -> filter p l = [].
Proof.
  induction l as [|x l IH]; cbn [filter]; intros Hall; [reflexivity|].
  rewrite (Hall x (or_introl eq_refl)). apply IH.
  intros y Hy. apply Hall. now right.
Qed.

Lemma filter_nil_iff {A} (p : A -> bool) (l : list A) :
  filter p l = [] <-> existsb p l = false.
Proof.
  induction l as [|x l IH]; cbn [filter existsb]; [tauto|].
  destruct (p x); cbn [orb]; [split; discriminate|exact IH].
Qed.



Lemma filter_firstn_all {A} (p : A -> bool) (n : nat) (l : list A) :
  filter p (firstn n (filter p l)) = firstn n (filter p l).
Proof.
  revert n. induction l as [|x l IH]; intros n; cbn [filter].
  - now destruct n.
  - destruct (p x) eqn:E; [|apply IH].
    destruct n as [|n]; cbn [firstn filter]; [reflexivity|].
    now rewrite E, IH.
Qed.

Lemma existsb_perm {A} (p : A -> bool) (l l' : list A) :
  Permutation l l' -> existsb p l = existsb p l'.
Proof.
  intros Hp. destruct (existsb p l') eqn:E.
  - apply existsb_exists in E. destruct E as (x & Hin & Hx).
    apply existsb_exists. exists x. split; [|exact Hx].
    now apply (Permutation_in _ (Permutation_sym Hp)).
  - destruct (existsb p l) eqn:E'; [|reflexivity].
    apply existsb_exists in E'. destruct E' as (x & Hin & Hx).
    assert (existsb p l' = true).
    { apply existsb_exists. exists x. split; [|exact Hx].
      now apply (Permutation_in _ Hp). }
    congruence.
Qed.

Lemma existsb_eqb_in (k : string) (l : list string) :
  existsb (String.eqb k) l = true <-> In k l.
Proof.
  rewrite existsb_exists. split.
  - intros (x & Hx & E). apply String.eqb_eq in E. now subst.
  - intros Hin. exists k. split; [exact Hin|apply String.eqb_refl].
Qed.

Lemma find_append {A} (p : A -> bool) (l l' : list A) :
  find p (l ++ l') = match find p l with Some x => Some x | None => find p l' end.
Proof.
  induction l as [|a l IH]; cbn [find app]; [reflexivity|].
  now destruct (p a).
Qed.

Lemma find_in_filter {A} (p keep : A -> bool) (l : list A) :
  (forall x, p x = true -> keep x = true) ->
  find p (filter keep l) = find p l.
Proof.
  intros Hkeep. induction l as [|a l IH]; cbn [find filter]; [reflexivity|].
  destruct (keep a) eqn:Ek; cbn [find].
  - now rewrite IH.
  - destruct (p a) eqn:Ep; [|exact IH]. rewrite (Hkeep a Ep) in Ek. discriminate.
Qed.

Lemma In_firstn {A} (n : nat) (l : list A) (x : A) :
  In x (firstn n l) -> In x l.
Proof.
  intros Hin. rewrite <- (firstn_skipn n l). apply in_or_app. now left.
Qed.

Lemma NoDup_firstn {A} (n : nat) (l : list A) :
  NoDup l -> NoDup (firstn n l).
Proof.
  intros Hnd. revert n. induction Hnd as [|x l Hx Hnd IH]; intros [|n];
    cbn [firstn]; try constructor; [|apply IH].
  intros Hin. apply Hx. now apply In_firstn in Hin.
Qed.

Lemma Object_entries_perm {V} (o : JS.Obj V) :
  Permutation (JS.Object_entries o) o.
Proof.
  unfold JS.Object_entries. rewrite stableSort_perm. apply filter_partition_perm.
Qed.

(** Without array-index keys the entries come in creation order. *)
Lemma Object_entries_plain {V} (o : JS.Obj V) :
  (forall kv, In kv o -> JS.arrayIndex (fst kv) = None) ->
  JS.Object_entries o = o.
Proof.
  intros Hplain. unfold JS.Object_entries.
  rewrite (filter_none JS.isIndexKey), (filter_all (fun kv => negb (JS.isIndexKey kv))).
  - reflexivity.
  - intros kv Hkv. unfold JS.isIndexKey. now rewrite (Hplain kv Hkv).
  - intros kv Hkv. unfold JS.isIndexKey. now rewrite (Hplain kv Hkv).
Qed.

(** ** The grouping of the results by analyte *)

Section GroupingByName.
Import LabProcessor Notions.

Lemma groupStep_grouping (done : list LabResult.t) (l : LabResult.t)
  (g g' : JS.Obj (list LabResult.t)) :
  Grouping done g -> groupStep g l = JS.Normal g' ->
  Grouping (done ++ [l]) g'.
Proof.
  intros [Hnd Hown]. unfold groupStep.
  destruct (JS.own g (LabResult.name l)) as [results|] eqn:E.
  - intros [= <-]. split; [now rewrite keys_update|].
    intros key. rewrite filter_app. cbn [filter]. unfold named at 2.
    destruct (String.eqb_spec (LabResult.name l) key) as [<-|Hne].
    + rewrite (own_update_same _ _ _ _ E).
      rewrite Hown in E. destruct (filter _ done) as [|x xs]; [discriminate|].
      injection E as <-. reflexivity.
    + rewrite own_update_other by exact Hne. rewrite app_nil_r. apply Hown.
  - destruct (JS.inherited _); [discriminate|]. intros [= <-]. split.
    + rewrite map_app. cbn [map fst]. apply NoDup_app.
      * exact Hnd.
      * repeat constructor. intros [].
      * intros k Hk [<-|[]]. now apply own_none_iff in E.
    + intros key. rewrite own_append, filter_app. cbn [filter]. unfold named at 2.
      destruct (String.eqb_spec (LabResult.name l) key) as [<-|Hne].
      * rewrite E. rewrite Hown in E.
        destruct (filter _ done) as [|x xs]; [reflexivity|discriminate].
      * rewrite app_nil_r, Hown. now destruct (nonEmpty _).
Qed.

Lemma groupLoop_grouping (rest done : list LabResult.t)
  (g g' : JS.Obj (list LabResult.t)) :
  Grouping done g -> groupLoop rest g = JS.Normal g' ->
  Grouping (done ++ rest) g'.
Proof.
  revert done g. induction rest as [|l rest IH]; intros done g Hg; cbn [groupLoop].
  - intros [= <-]. now rewrite app_nil_r.
  - destruct (groupStep g l) as [g1|e] eqn:E; [|discriminate].
    intros Hloop.
    replace (done ++ l :: rest) with ((done ++ [l]) ++ rest)
      by (now rewrite <- app_assoc).
    apply (IH _ g1); [|exact Hloop]. exact (groupStep_grouping _ _ _ _ Hg E).
Qed.

Lemma groupLabsByType_grouping (labs : list LabResult.t)
  (g : JS.Obj (list LabResult.t)) :
  groupLabsByType labs = JS.Normal g -> Grouping labs g.
Proof.
  intros Hg. apply (groupLoop_grouping labs [] [] g); [|exact Hg].
  split; [constructor|reflexivity].
Qed.

(** The groups of a grouping, as the filter of the input. *)
Lemma grouping_groups (labs : list LabResult.t) (g : JS.Obj (list LabResult.t))
  (key : string) (results : list LabResult.t) :
  Grouping labs g -> In (key, results) g ->
  results = filter (named key) labs /\ results <> [].
Proof.
  intros [Hnd Hown] Hin. apply (own_in _ _ _ Hnd) in Hin. rewrite Hown in Hin.
  destruct (filter (named key) labs) eqn:E; [discriminate|].
  injection Hin as <-. split; [reflexivity|discriminate].
Qed.

(** X5.  When [groupLabsByType] returns, its keys are distinct and the
    entries are exactly the non-empty classes of the input by analyte
    name: the group of a key holds all results of that name, in the order
    of the input, and nothing else. *)
Theorem grouping_partitions_by_name (labs : list LabResult.t)
  (grouped : JS.Obj (list LabResult.t)) :
  groupLabsByType labs = JS.Normal grouped ->
  NoDup (map fst grouped)
  /\ forall key results,
       In (key, results) grouped <->
       results <> []
       /\ results = filter (fun l => String.eqb (LabResult.name l) key) labs.
Proof.
  intros Hg. destruct (groupLabsByType_grouping _ _ Hg) as [Hnd Hown].
  split; [exact Hnd|]. intros key results.
  rewrite <- (own_in _ _ _ Hnd), Hown. unfold named.
  destruct (filter _ labs) as [|x xs]; cbn [nonEmpty].
  - split; [discriminate|]. intros [Hne ->]. congruence.
  - split.
    + intros [= <-]. split; [discriminate|reflexivity].
    + intros [_ ->]. reflexivity.
Qed.

End GroupingByName.

(** Magnesium, creatinine, magnesium: two groups, the first with both
    magnesium results. *)
Lemma grouping_partitions_by_name_example :
  In ("Magnesium", [Sample.seriesOlder; Sample.seriesPlus3])
     [ ("Magnesium", [Sample.seriesOlder; Sample.seriesPlus3]);
       ("Creatinine", [Sample.criticalCreatinineResult]) ]
  <-> [Sample.seriesOlder; Sample.seriesPlus3] <> []
      /\ [Sample.seriesOlder; Sample.seriesPlus3]
         = filter (fun l => String.eqb (LabResult.name l) "Magnesium")
             [Sample.seriesOlder; Sample.criticalCreatinineResult;
              Sample.seriesPlus3].
Proof.
  exact (proj2 (grouping_partitions_by_name
                  [Sample.seriesOlder; Sample.criticalCreatinineResult;
                   Sample.seriesPlus3]
                  [ ("Magnesium", [Sample.seriesOlder; Sample.seriesPlus3]);
                    ("Creatinine", [Sample.criticalCreatinineResult]) ]
                  eq_refl)
               "Magnesium" [Sample.seriesOlder; Sample.seriesPlus3]).
Defined.

(** ** One trend for each analyte that has numbers *)

Section TrendPerAnalyte.
Context `{Builtins}.
Import LabProcessor Notions.

Lemma trendOfGroup_name (labName : string) (results : list LabResult.t) :
  match trendOfGroup labName results with
  | Some t => LabTrend.labName t = labName /\ hasNumeric (labName, results) = true
  | None => hasNumeric (labName, results) = false
  end.
Proof.
  unfold trendOfGroup, hasNumeric. cbn [snd].
  match goal with
  | |- context [JS.sort ?c results] =>
      rewrite <- (existsb_perm isNumeric _ _ (sort_perm c results));
      generalize (JS.sort c results)
  end.
  intros sorted.
  destruct (filter isNumeric sorted) as [|current older] eqn:E.
  - now apply filter_nil_iff.
  - destruct (match option_map numberOf (hd_error older) with
              | Some previousValue => _
              | None => _
              end) as [[delta deltaPercent] trend].
    split; [reflexivity|].
    destruct (existsb isNumeric _) eqn:Ex; [reflexivity|].
    apply filter_nil_iff in Ex. congruence.
Qed.

Lemma trendsOfGroups_names (entries : list (string * list LabResult.t)) :
  map LabTrend.labName (trendsOfGroups entries)
  = map fst (filter hasNumeric entries).
Proof.
  unfold trendsOfGroups.
  assert (Hgen : forall acc,
            map LabTrend.labName
              (fold_left
                 (fun trends entry =>
                    match trendOfGroup (fst entry) (snd entry) with
                    | Some t => trends ++ [t]
                    | None => trends
                    end) entries acc)
            = map LabTrend.labName acc ++ map fst (filter hasNumeric entries)).
  { induction entries as [|[k rs] entries IH]; intros acc; cbn [fold_left filter fst snd].
    - now rewrite app_nil_r.
    - rewrite IH. pose proof (trendOfGroup_name k rs) as Hk.
      destruct (trendOfGroup k rs) as [t|].
      + destruct Hk as [Hn ->]. rewrite map_app, <- app_assoc. cbn [map app fst].
        now rewrite Hn.
      + rewrite Hk. reflexivity. }
  apply (Hgen []).
Qed.

(** The group of results behind an emitted trend. *)
Lemma trend_group (labs : list LabResult.t) (trends : list LabTrend.t)
  (t : LabTrend.t) :
  processLabTrends labs = JS.Normal trends -> In t trends ->
  trendOfGroup (LabTrend.labName t) (filter (named (LabTrend.labName t)) labs)
  = Some t.
Proof.
  unfold processLabTrends.
  destruct (groupLabsByType labs) as [grouped|e] eqn:Hg; [|discriminate].
  intros [= <-] Hin.
  destruct (trendsOfGroups_from _ _ Hin) as ([k rs] & Hentry & Ht).
  cbn [fst snd] in Ht.
  apply (Permutation_in _ (Object_entries_perm grouped)) in Hentry.
  destruct (grouping_groups _ _ _ _ (groupLabsByType_grouping _ _ Hg) Hentry)
    as [Hrs _].
  pose proof (trendOfGroup_name k rs) as Hname. rewrite Ht in Hname.
  destruct Hname as [-> _]. now rewrite <- Hrs.
Qed.

(** X6.  [processLabTrends] emits exactly one trend for each analyte name
    that has a numeric result, and none for the other names: the names of
    the emitted trends are distinct, and a name is among them exactly when
    some result of that name carries a number. *)
Theorem one_trend_per_numeric_analyte (labs : list LabResult.t)
  (trends : list LabTrend.t) :
  processLabTrends labs = JS.Normal trends ->
  NoDup (map LabTrend.labName trends)
  /\ forall labName,
       In labName (map LabTrend.labName trends) <->
       exists l, In l labs /\ LabResult.name l = labName /\ isNumeric l = true.
Proof.
  unfold processLabTrends.
  destruct (groupLabsByType labs) as [grouped|e] eqn:Hg; [|discriminate].
  intros [= <-]. rewrite trendsOfGroups_names.
  destruct (groupLabsByType_grouping _ _ Hg) as [Hnd Hown].
  assert (Hperm : Permutation (JS.Object_entries grouped) grouped)
    by apply Object_entries_perm.
  split.
  - assert (Hnd' : NoDup (map fst (JS.Object_entries grouped))).
    { apply (Permutation_NoDup (l := map fst grouped)); [|exact Hnd].
      apply Permutation_map. now symmetry. }
    revert Hnd'. generalize (JS.Object_entries grouped). intros entries.
    induction entries as [|e entries IH]; cbn [map filter]; [constructor|].
    intros Hnd'. inversion Hnd' as [|? ? Hk Hrest]; subst.
    destruct (hasNumeric e); [|now apply IH].
    cbn [map]. constructor; [|now apply IH].
    intros Hin. apply Hk. apply in_map_iff in Hin.
    destruct Hin as (e' & He' & Hin). apply filter_In in Hin.
    apply in_map_iff. exists e'. tauto.
  - intros labName. rewrite in_map_iff. split.
    + intros ([k rs] & <- & Hin). apply filter_In in Hin. destruct Hin as [Hin Hnum].
      apply (Permutation_in _ Hperm) in Hin.
      apply (own_in _ _ _ Hnd) in Hin. rewrite Hown in Hin.
      unfold hasNumeric in Hnum. cbn [snd fst] in *.
      apply existsb_exists in Hnum. destruct Hnum as (l & Hl & Hnum).
      destruct (filter (named k) labs) as [|x xs] eqn:E; [discriminate|].
      injection Hin as <-. rewrite <- E in Hl. apply filter_In in Hl.
      destruct Hl as [Hl Hname]. exists l. split; [exact Hl|].
      split; [|exact Hnum]. now apply String.eqb_eq.
    + intros (l & Hl & Hname & Hnum).
      assert (Hin : In l (filter (named labName) labs)).
      { apply filter_In. split; [exact Hl|]. now apply String.eqb_eq. }
      exists (labName, filter (named labName) labs). split; [reflexivity|].
      apply filter_In. split.
      * apply (Permutation_in _ (Permutation_sym Hperm)).
        apply (own_in _ _ _ Hnd). rewrite Hown.
        destruct (filter (named labName) labs); [destruct Hin|reflexivity].
      * unfold hasNumeric. cbn [snd]. apply existsb_exists. now exists l.
Qed.

Lemma trendOfGroup_numeric (labName : string) (results : list LabResult.t)
  (t : LabTrend.t) :
  trendOfGroup labName results = Some t ->
  let numeric := filter isNumeric results in
  (exists l, In l numeric /\ LabResult.value l = VNum (LabTrend.currentValue t))
  /\ (LabTrend.previousValue t = None <-> List.length numeric = 1%nat)
  /\ (forall p, LabTrend.previousValue t = Some p ->
        exists l, In l numeric /\ LabResult.value l = VNum p)
  /\ List.length (LabTrend.data t) = Nat.min 10 (List.length numeric).
Proof.
  unfold trendOfGroup.
  match goal with
  | |- context [JS.sort ?c results] =>
      pose proof (filter_perm isNumeric _ _ (sort_perm c results)) as Hperm;
      revert Hperm; generalize (JS.sort c results)
  end.
  intros sorted Hperm.
  assert (Hnum : forall l, In l (filter isNumeric sorted) ->
                 LabResult.value l = VNum (numberOf l)).
  { intros l Hl. apply filter_In in Hl. destruct Hl as [_ Hl].
    unfold isNumeric in Hl. unfold numberOf.
    now destruct (LabResult.value l). }
  destruct (filter isNumeric sorted) as [|current older] eqn:E; [discriminate|].
  destruct (match option_map numberOf (hd_error older) with
            | Some previousValue => _
            | None => _
            end) as [[delta deltaPercent] trend].
  remember (firstn 10 (current :: older)) as points eqn:Hpoints.
  intros [= <-]. cbv zeta.
  cbn [LabTrend.currentValue LabTrend.previousValue LabTrend.data].
  rewrite <- (Permutation_length Hperm).
  split; [|split; [|split]].
  - exists current. split.
    + apply (Permutation_in _ Hperm). now left.
    + apply Hnum. now left.
  - destruct older as [|previous older]; cbn; [tauto|].
    split; [discriminate|]. intros Hlen. discriminate.
  - intros p. destruct older as [|previous older]; cbn; [discriminate|].
    intros [= <-]. exists previous. split.
    + apply (Permutation_in _ Hperm). right. now left.
    + apply Hnum. right. now left.
  - rewrite length_rev, length_map, Hpoints, length_firstn. reflexivity.
Qed.

(** X7.  The numbers of an emitted trend are those of the numeric results
    of its analyte: the current value is the value of one of them, the
    previous value that of another and missing exactly when there is a
    single numeric result, and the trend carries min(10, n) data points
    for n numeric results. *)
Theorem trend_values_of_numeric_results (labs : list LabResult.t)
  (trends : list LabTrend.t) (t : LabTrend.t) :
  processLabTrends labs = JS.Normal trends -> In t trends ->
  let numeric := numericResultsOf (LabTrend.labName t) labs in
  (exists l, In l numeric /\ LabResult.value l = VNum (LabTrend.currentValue t))
  /\ (LabTrend.previousValue t = None <-> List.length numeric = 1%nat)
  /\ (forall p, LabTrend.previousValue t = Some p ->
        exists l, In l numeric /\ LabResult.value l = VNum p)
  /\ List.length (LabTrend.data t) = Nat.min 10 (List.length numeric).
Proof.
  intros Htrends Hin.
  pose proof (trendOfGroup_numeric _ _ _ (trend_group _ _ _ Htrends Hin)) as Hnumeric.
  rewrite filter_twice in Hnumeric. exact Hnumeric.
Qed.

Lemma groupStep_keys (l : LabResult.t) (g g' : JS.Obj (list LabResult.t)) :
  groupStep g l = JS.Normal g' ->
  map fst g'
  = if existsb (String.eqb (LabResult.name l)) (map fst g)
    then map fst g else map fst g ++ [LabResult.name l].
Proof.
  unfold groupStep. destruct (JS.own g (LabResult.name l)) as [results|] eqn:E.
  - intros [= <-]. rewrite keys_update.
    replace (existsb _ _) with true; [reflexivity|].
    symmetry. apply existsb_eqb_in.
    destruct (in_dec string_dec (LabResult.name l) (map fst g)) as [Hin|Hn];
      [exact Hin|].
    apply own_none_iff in Hn. congruence.
  - destruct (JS.inherited _); [discriminate|]. intros [= <-].
    replace (existsb _ _) with false.
    + now rewrite map_app.
    + symmetry. apply own_none_iff in E.
      destruct (existsb _ _) eqn:Ex; [|reflexivity].
      apply existsb_eqb_in in Ex. contradiction.
Qed.

Lemma groupLoop_keys (rest : list LabResult.t) (g g' : JS.Obj (list LabResult.t)) :
  groupLoop rest g = JS.Normal g' ->
  map fst g'
  = fold_left (fun seen k => if existsb (String.eqb k) seen then seen else seen ++ [k])
              (map LabResult.name rest) (map fst g).
Proof.
  revert g. induction rest as [|l rest IH]; intros g; cbn [groupLoop map fold_left].
  - now intros [= <-].
  - destruct (groupStep g l) as [g1|e] eqn:E; [|discriminate].
    intros Hloop. rewrite (IH _ Hloop), (groupStep_keys _ _ _ E). reflexivity.
Qed.

(** X8.  When no analyte name is an array index (a canonical decimal
    numeral), the trends come in the order in which their analytes first
    appear in the input. *)
Theorem trends_in_order_of_first_appearance (labs : list LabResult.t)
  (trends : list LabTrend.t) :
  processLabTrends labs = JS.Normal trends ->
  (forall l, In l labs -> JS.arrayIndex (LabResult.name l) = None) ->
  map LabTrend.labName trends
  = filter (fun labName =>
              existsb (fun l => String.eqb (LabResult.name l) labName && isNumeric l)
                      labs)
           (firstOccurrences (map LabResult.name labs)).
Proof.
  unfold processLabTrends.
  destruct (groupLabsByType labs) as [grouped|e] eqn:Hg; [|discriminate].
  intros [= <-] Hplain. rewrite trendsOfGroups_names.
  pose proof (groupLabsByType_grouping _ _ Hg) as Hgrouping.
  assert (Hgroups : forall kv, In kv grouped ->
                    snd kv = filter (named (fst kv)) labs /\ snd kv <> []).
  { intros [k rs] Hin. exact (grouping_groups _ _ _ _ Hgrouping Hin). }
  rewrite Object_entries_plain.
  - pose proof (groupLoop_keys labs [] grouped Hg) as Hkeys.
    change (map fst (@nil (string * list LabResult.t))) with (@nil string) in Hkeys.
    unfold firstOccurrences. rewrite <- Hkeys.
    clear Hgrouping Hg Hkeys. induction grouped as [|[k rs] grouped IH];
      cbn [filter map]; [reflexivity|].
    destruct (Hgroups (k, rs) (or_introl eq_refl)) as [Hrs _]. cbn [fst snd] in Hrs.
    assert (Hsame : hasNumeric (k, rs)
                    = existsb (fun l => String.eqb (LabResult.name l) k && isNumeric l)
                              labs).
    { unfold hasNumeric. cbn [snd]. rewrite Hrs. unfold named. clear.
      induction labs as [|l labs IH]; cbn [filter existsb]; [reflexivity|].
      destruct (String.eqb (LabResult.name l) k); cbn [existsb andb]; now rewrite IH. }
    cbn [fst]. rewrite <- Hsame.
    destruct (hasNumeric (k, rs)); cbn [map fst];
      rewrite IH by (intros kv Hkv; apply Hgroups; now right); reflexivity.
  - intros [k rs] Hin. destruct (Hgroups _ Hin) as [Hrs Hne]. cbn [fst snd] in *.
    destruct rs as [|l rs]; [congruence|].
    assert (Hl : In l (filter (named k) labs)) by (rewrite <- Hrs; now left).
    apply filter_In in Hl. destruct Hl as [Hl Hname].
    apply String.eqb_eq in Hname. rewrite <- Hname. now apply Hplain.
Qed.

End TrendPerAnalyte.

(** Two magnesium results give one trend. *)
Lemma one_trend_per_numeric_analyte_example :
  NoDup (map LabTrend.labName
           (match LabProcessor.processLabTrends (H := Host.builtins)
                    [Sample.seriesOlder; Sample.seriesPlus3] with
            | JS.Normal trends => trends
            | JS.Throw _ => []
            end)).
Proof.
  destruct (LabProcessor.processLabTrends (H := Host.builtins)
              [Sample.seriesOlder; Sample.seriesPlus3]) as [trends|e] eqn:E;
    [|constructor].
  exact (proj1 (one_trend_per_numeric_analyte (H := Host.builtins) _ _ E)).
Defined.

Lemma trend_values_of_numeric_results_example :
  Forall (fun t =>
            List.length (LabTrend.data t)
            = Nat.min 10
                (List.length
                   (Notions.numericResultsOf (LabTrend.labName t)
                      [Sample.seriesOlder; Sample.seriesPlus3])))
         (match LabProcessor.processLabTrends (H := Host.builtins)
                  [Sample.seriesOlder; Sample.seriesPlus3] with
          | JS.Normal trends => trends
          | JS.Throw _ => []
          end).
Proof.
  apply Forall_forall. intros t Ht.
  destruct (LabProcessor.processLabTrends (H := Host.builtins)
              [Sample.seriesOlder; Sample.seriesPlus3]) as [trends|e] eqn:E;
    [|destruct Ht].
  exact (proj2 (proj2 (proj2
           (trend_values_of_numeric_results (H := Host.builtins) _ _ _ E Ht)))).
Defined.

(** Creatinine appears before magnesium: so do their trends. *)
Lemma trends_in_order_of_first_appearance_example :
  match LabProcessor.processLabTrends (H := Host.builtins)
          [Sample.criticalCreatinineResult; Sample.seriesOlder;
           Sample.seriesPlus3] with
  | JS.Normal trends => map LabTrend.labName trends = ["Creatinine"; "Magnesium"]
  | JS.Throw _ => False
  end.
Proof.
  destruct (LabProcessor.processLabTrends (H := Host.builtins)
              [Sample.criticalCreatinineResult; Sample.seriesOlder;
               Sample.seriesPlus3]) as [trends|e] eqn:E;
    [|vm_compute in E; discriminate E].
  rewrite (trends_in_order_of_first_appearance (H := Host.builtins) _ _ E);
    [reflexivity|].
  intros l Hl. repeat (destruct Hl as [<-|Hl]; [reflexivity|]). destruct Hl.
Defined.

(** ** Results that the dates do not order *)

Lemma sub_self_not_positive (t : JS.number) : JS.gt (t - t)%float 0%float = false.
Proof.
  unfold JS.gt. rewrite ltb_spec, sub_spec.
  change (Prim2SF 0%float) with (S754_zero false).
  destruct (Prim2SF t) as [s|s| |s m e]; try (destruct s; reflexivity).
  - reflexivity.
  - unfold SF64sub, SFsub. rewrite Z.sub_diag. reflexivity.
Qed.

Section SameDate.
Context `{Builtins}.
Import LabProcessor Notions.

Lemma trendOfGroup_same_date (labName : string) (results : list LabResult.t)
  (t : LabTrend.t) :
  (forall l l', In l results -> In l' results ->
     LabResult.effectiveDateTime l = LabResult.effectiveDateTime l') ->
  trendOfGroup labName results = Some t ->
  let numeric := filter isNumeric results in
  option_map LabResult.value (hd_error numeric) = Some (VNum (LabTrend.currentValue t))
  /\ option_map LabResult.value (hd_error (tl numeric))
     = option_map VNum (LabTrend.previousValue t).
Proof.
  intros Hsame. unfold trendOfGroup, JS.sort.
  rewrite stableSort_unordered.
  2:{ intros x y Hx Hy. rewrite (Hsame y x Hy Hx). apply sub_self_not_positive. }
  assert (Hnum : forall l, In l (filter isNumeric results) ->
                 LabResult.value l = VNum (numberOf l)).
  { intros l Hl. apply filter_In in Hl. destruct Hl as [_ Hl].
    unfold isNumeric in Hl. unfold numberOf.
    now destruct (LabResult.value l). }
  destruct (filter isNumeric results) as [|current older] eqn:E; [discriminate|].
  destruct (match option_map numberOf (hd_error older) with
            | Some previousValue => _
            | None => _
            end) as [[delta deltaPercent] trend].
  remember (firstn 10 (current :: older)) as points eqn:Hpoints.
  intros [= <-]. cbv zeta.
  cbn [LabTrend.currentValue LabTrend.previousValue hd_error tl option_map].
  split.
  - f_equal. apply Hnum. now left.
  - destruct older as [|previous older]; cbn [hd_error option_map]; [reflexivity|].
    f_equal. apply Hnum. right. now left.
Qed.

(** X9.  The sort is stable: when all results of an analyte carry the
    same date, the current value of its trend is the value of the first
    numeric result of that analyte in the input, and the previous value
    that of the second. *)
Theorem same_date_keeps_input_order (labs : list LabResult.t)
  (trends : list LabTrend.t) (t : LabTrend.t) :
  processLabTrends labs = JS.Normal trends -> In t trends ->
  (forall l l', In l labs -> In l' labs ->
     LabResult.name l = LabTrend.labName t ->
     LabResult.name l' = LabTrend.labName t ->
     LabResult.effectiveDateTime l = LabResult.effectiveDateTime l') ->
  let numeric := numericResultsOf (LabTrend.labName t) labs in
  option_map LabResult.value (hd_error numeric) = Some (VNum (LabTrend.currentValue t))
  /\ option_map LabResult.value (hd_error (tl numeric))
     = option_map VNum (LabTrend.previousValue t).
Proof.
  intros Htrends Hin Hsame.
  pose proof (trend_group _ _ _ Htrends Hin) as Ht.
  assert (Hdates : forall l l',
            In l (filter (named (LabTrend.labName t)) labs) ->
            In l' (filter (named (LabTrend.labName t)) labs) ->
            LabResult.effectiveDateTime l = LabResult.effectiveDateTime l').
  { intros l l' Hl Hl'. apply filter_In in Hl, Hl'. unfold named in Hl, Hl'.
    destruct Hl as [Hl Hn], Hl' as [Hl' Hn'].
    apply String.eqb_eq in Hn, Hn'. now apply Hsame. }
  pose proof (trendOfGroup_same_date _ _ t Hdates Ht) as Hnumeric.
  rewrite filter_twice in Hnumeric. exact Hnumeric.
Qed.

End SameDate.

(** Two magnesium results of the same time: the one listed first is the
    current one. *)
Lemma same_date_keeps_input_order_example :
  Forall (fun t => LabTrend.currentValue t = 10.3%float)
         (match LabProcessor.processLabTrends (H := Host.builtins)
                  [Sample.seriesPlus3; Sample.seriesPlus6] with
          | JS.Normal trends => trends
          | JS.Throw _ => []
          end).
Proof.
  apply Forall_forall. intros t Ht.
  destruct (LabProcessor.processLabTrends (H := Host.builtins)
              [Sample.seriesPlus3; Sample.seriesPlus6]) as [trends|e] eqn:E;
    [|destruct Ht].
  assert (Hname : LabTrend.labName t = "Magnesium").
  { vm_compute in E. injection E as <-. destruct Ht as [<-|[]]. reflexivity. }
  pose proof (same_date_keeps_input_order (H := Host.builtins) _ _ t E Ht) as Hfirst.
  rewrite Hname in Hfirst.
  assert (Hcurrent : Some (VNum 10.3%float) = Some (VNum (LabTrend.currentValue t))).
  { apply Hfirst. intros l l' Hl Hl' _ _.
    destruct Hl as [<-|[<-|[]]], Hl' as [<-|[<-|[]]]; reflexivity. }
  now injection Hcurrent.
Defined.

(** ** Dates that do not parse *)

Lemma sub_nan_r (x t : JS.number) :
  JS.isNaN t = true -> JS.isNaN (x - t)%float = true.
Proof.
  rewrite !isNaN_spec, sub_spec. intros ->. now destruct (Prim2SF x).
Qed.

Lemma div_nan_l (x d : JS.number) :
  JS.isNaN x = true -> JS.isNaN (x / d)%float = true.
Proof.
  rewrite !isNaN_spec, div_spec. intros ->. reflexivity.
Qed.

Lemma le_nan (x b : JS.number) : JS.isNaN x = true -> JS.le x b = false.
Proof.
  rewrite isNaN_spec. unfold JS.le. rewrite leb_spec. unfold SFleb.
  intros ->. reflexivity.
Qed.

Section InvalidDates.
Context `{Builtins}.
Import Notions.

(** X10.  A result whose date does not parse is invisible to the risk
    score and to the summary of recent results, whatever its status and
    at every clock reading: both are computed as if it were not in the
    input. *)
Theorem invalid_dates_are_ignored (now : JS.number) (labs : list LabResult.t) :
  RiskScoreCalculator.calculatePatientRisk now labs
  = RiskScoreCalculator.calculatePatientRisk now (filter validDate labs)
  /\ LabProcessor.getRecentLabsSummary now labs
     = LabProcessor.getRecentLabsSummary now (filter validDate labs).
Proof.
  split.
  - unfold RiskScoreCalculator.calculatePatientRisk.
    rewrite (filter_within (RiskScoreCalculator.isRecent now) validDate);
      [reflexivity|].
    intros l. unfold RiskScoreCalculator.isRecent, validDate.
    destruct (JS.isNaN (Date_getTime (LabResult.effectiveDateTime l))) eqn:E;
      [|reflexivity].
    rewrite le_nan; [discriminate|]. apply div_nan_l. now apply sub_nan_r.
  - unfold LabProcessor.getRecentLabsSummary.
    rewrite (filter_within _ validDate); [reflexivity|].
    intros l. unfold validDate.
    destruct (JS.isNaN (Date_getTime (LabResult.effectiveDateTime l))) eqn:E;
      [|reflexivity].
    now rewrite gt_nan.
Qed.

End InvalidDates.

(** A critical potassium result dated "yesterday" does not count. *)
Lemma invalid_dates_are_ignored_example :
  RiskScoreCalculator.calculatePatientRisk (H := Host.builtins) Sample.now
    [Sample.undatedCritical]
  = RiskScoreCalculator.calculatePatientRisk (H := Host.builtins) Sample.now [].
Proof.
  exact (proj1 (invalid_dates_are_ignored (H := Host.builtins) Sample.now
                  [Sample.undatedCritical])).
Defined.

(** ** Deterioration: order and bounds *)

Section DeteriorationBounds.
Context `{Builtins}.
Import RiskScoreCalculator Notions.

Lemma worsening_bounds (previousLabs : list LabResult.t) (c : LabResult.t) :
  0 <= Spec.worsening previousLabs c <= 3
  /\ (codeHas "creatinine" c = false -> codeHas "lactate" c = false ->
      Spec.worsening previousLabs c <= 1)
  /\ (Spec.previousOf previousLabs c = None -> Spec.worsening previousLabs c = 0).
Proof.
  unfold Spec.worsening. rewrite coded_one, (coded_one "lactate").
  destruct (Spec.previousOf previousLabs c) as [p|].
  - destruct (Spec.escalated c p), (codeHas "creatinine" c),
      (codeHas "lactate" c), (Spec.increaseAbove 25%float c p),
      (Spec.increaseAbove 20%float c p); cbn; repeat split; intros;
      try discriminate; lia.
  - repeat split; intros; lia.
Qed.

Lemma worseningTotal_app (l l' previousLabs : list LabResult.t) :
  Spec.worseningTotal (l ++ l') previousLabs
  = Spec.worseningTotal l previousLabs + Spec.worseningTotal l' previousLabs.
Proof.
  unfold Spec.worseningTotal. induction l as [|c l IH]; cbn [app map fold_right]; lia.
Qed.

Lemma worseningTotal_nonneg (l previousLabs : list LabResult.t) :
  0 <= Spec.worseningTotal l previousLabs.
Proof.
  unfold Spec.worseningTotal. induction l as [|c l IH]; cbn [map fold_right]; [lia|].
  pose proof (worsening_bounds previousLabs c). lia.
Qed.

Lemma worseningTotal_perm (l l' previousLabs : list LabResult.t) :
  Permutation l l' ->
  Spec.worseningTotal l previousLabs = Spec.worseningTotal l' previousLabs.
Proof.
  unfold Spec.worseningTotal.
  induction 1; cbn [map fold_right]; lia.
Qed.

Lemma detectDeterioration_total (currentLabs previousLabs : list LabResult.t) :
  detectDeterioration currentLabs previousLabs
  = negb (JS.length previousLabs =? 0)
    && (3 <=? Spec.worseningTotal currentLabs previousLabs).
Proof.
  unfold detectDeterioration.
  destruct (JS.length previousLabs =? 0); [reflexivity|].
  rewrite forEach_worsening, Z.geb_leb. reflexivity.
Qed.

(** X11.  [detectDeterioration] does not depend on the order of the
    current results, and further current results never clear the flag:
    if it holds for a collection it holds for every collection that
    contains the same results and more, in any order. *)
Theorem deterioration_monotone (currentLabs currentLabs' more previousLabs
  : list LabResult.t) :
  Permutation currentLabs' (currentLabs ++ more) ->
  detectDeterioration currentLabs previousLabs = true ->
  detectDeterioration currentLabs' previousLabs = true.
Proof.
  intros Hperm. rewrite !detectDeterioration_total.
  rewrite (worseningTotal_perm _ _ previousLabs Hperm), worseningTotal_app.
  pose proof (worseningTotal_nonneg more previousLabs).
  destruct (JS.length previousLabs =? 0); cbn [negb andb]; [discriminate|].
  rewrite !Z.leb_le. lia.
Qed.

Lemma previousOf_none (previousLabs : list LabResult.t) (c : LabResult.t) :
  existsb (fun p => String.eqb (LabResult.code p) (LabResult.code c)) previousLabs
  = false ->
  Spec.previousOf previousLabs c = None.
Proof.
  intros Hex. unfold Spec.previousOf. apply find_none_iff. intros p Hp.
  destruct (String.eqb _ _) eqn:E; [|reflexivity].
  assert (existsb (fun p => String.eqb (LabResult.code p) (LabResult.code c))
                  previousLabs = true)
    by (apply existsb_exists; now exists p).
  congruence.
Qed.

Lemma worseningTotal_matched (currentLabs previousLabs : list LabResult.t) :
  Spec.worseningTotal currentLabs previousLabs
  <= 3 * JS.length (matched currentLabs previousLabs)
  /\ ((forall c, In c (matched currentLabs previousLabs) ->
         codeHas "creatinine" c = false /\ codeHas "lactate" c = false) ->
      Spec.worseningTotal currentLabs previousLabs
      <= JS.length (matched currentLabs previousLabs)).
Proof.
  unfold Spec.worseningTotal, matched, JS.length.
  induction currentLabs as [|c l [IH1 IH2]]; cbn [map fold_right filter].
  - cbn. split; intros; lia.
  - destruct (worsening_bounds previousLabs c) as (Hb & Hone & Hnone).
    destruct (existsb _ previousLabs) eqn:Ex.
    + cbn [List.length In]. split; [lia|]. intros Hall.
      destruct (Hall c (or_introl eq_refl)) as [Hc Hl].
      specialize (Hone Hc Hl).
      specialize (IH2 (fun c' Hc' => Hall c' (or_intror Hc'))). lia.
    + rewrite (Hnone (previousOf_none _ _ Ex)). split; [lia|].
      intros Hall. specialize (IH2 Hall). lia.
Qed.

(** X12.  A current result adds at most 3 to the worsening count, at most
    1 when its code names neither creatinine nor lactate, and nothing
    when no previous result has its code.  So the flag needs a current
    result matched with a previous one, and at least three of them when
    none is a creatinine or lactate result. *)
Theorem deterioration_needs_matched_results
  (currentLabs previousLabs : list LabResult.t) :
  detectDeterioration currentLabs previousLabs = true ->
  1 <= JS.length (matched currentLabs previousLabs)
  /\ ((forall c, In c (matched currentLabs previousLabs) ->
         codeHas "creatinine" c = false /\ codeHas "lactate" c = false) ->
      3 <= JS.length (matched currentLabs previousLabs)).
Proof.
  rewrite detectDeterioration_total.
  destruct (worseningTotal_matched currentLabs previousLabs) as [H3 H1].
  destruct (JS.length previousLabs =? 0); cbn [negb andb]; [discriminate|].
  rewrite Z.leb_le. intros Hw. split; [lia|]. intros Hall.
  specialize (H1 Hall). lia.
Qed.

End DeteriorationBounds.

(** The two windows of the sample, with a calcium result put in front of
    the current one. *)
Lemma deterioration_monotone_example :
  RiskScoreCalculator.detectDeterioration (H := Host.builtins)
    (Sample.normalCalcium :: Sample.currentWindow) Sample.previousWindow
  = true.
Proof.
  apply (deterioration_monotone (H := Host.builtins) Sample.currentWindow
           (Sample.normalCalcium :: Sample.currentWindow)
           [Sample.normalCalcium] Sample.previousWindow).
  - apply Permutation_cons_append.
  - vm_compute. reflexivity.
Defined.

Lemma deterioration_needs_matched_results_example :
  1 <= JS.length (Notions.matched Sample.currentWindow Sample.previousWindow).
Proof.
  apply (deterioration_needs_matched_results (H := Host.builtins)
           Sample.currentWindow Sample.previousWindow).
  vm_compute. reflexivity.
Defined.

(** ** MELD: the results that matter *)

Section MeldFrame.
Context `{Builtins}.
Import RiskScoreCalculator Notions.

(** X13.  [calculateMELD] reads the first bilirubin, INR and creatinine
    results only: leaving out results of other analytes does not change
    its value, and once it returns a score, results added at the end of
    the collection (newer ones included) do not change it either. *)
Theorem meld_ignores_other_results (labs more : list LabResult.t)
  (keep : LabResult.t -> bool) :
  ((forall l, isMeldLab l = true -> keep l = true) ->
   calculateMELD (filter keep labs) = calculateMELD labs)
  /\ (calculateMELD labs <> None ->
      calculateMELD (labs ++ more) = calculateMELD labs).
Proof.
  split.
  - intros Hkeep. unfold calculateMELD.
    rewrite !find_in_filter; [reflexivity| | |];
      intros l Hl; apply Hkeep; unfold isMeldLab; rewrite Hl;
      now rewrite ?orb_true_r.
  - unfold calculateMELD. rewrite !find_append.
    destruct (find (codeHas "bilirubin") labs); [|congruence].
    destruct (find (codeHas "inr") labs); [|congruence].
    destruct (find (codeHas "creatinine") labs); [|congruence].
    reflexivity.
Qed.

End MeldFrame.

(** The liver panel followed by a high creatinine result. *)
Lemma meld_ignores_other_results_example :
  RiskScoreCalculator.calculateMELD (H := Host.builtins)
    (Sample.liverPanel ++ [Sample.criticalCreatinineResult])
  = RiskScoreCalculator.calculateMELD (H := Host.builtins) Sample.liverPanel.
Proof.
  apply (proj2 (meld_ignores_other_results (H := Host.builtins)
                  Sample.liverPanel [Sample.criticalCreatinineResult]
                  (fun _ => true))).
  vm_compute. discriminate.
Defined.

(** ** Markers, factors and levels *)

Section MarkersAndFactors.
Context `{Builtins}.
Import RiskScoreCalculator Notions.

(** X14.  The two outputs of [checkHighRiskMarkers] agree: the score is
    the sum of the points of the listed markers (AKI Risk 15, Sepsis Risk
    20, Hepatic Dysfunction 10, Coagulopathy 15), the markers are listed
    in that order without repetition, and the score is 0 exactly when no
    marker is listed. *)
Theorem markers_account_for_score (labs : list LabResult.t) :
  let r := checkHighRiskMarkers labs in
  HighRiskMarkers.score r
  = fold_right Z.add 0 (map markerPoints (HighRiskMarkers.markers r))
  /\ subsequence (HighRiskMarkers.markers r)
       ["AKI Risk"; "Sepsis Risk"; "Hepatic Dysfunction"; "Coagulopathy"] = true
  /\ (HighRiskMarkers.score r = 0 <-> HighRiskMarkers.markers r = []).
Proof.
  cbv zeta. rewrite checkHighRiskMarkers_patterns.
  cbn [HighRiskMarkers.score HighRiskMarkers.markers].
  destruct (Spec.akiRisk labs), (Spec.sepsisRisk labs),
    (Spec.hepaticDysfunction labs), (Spec.coagulopathy labs);
    cbn; repeat split; intros; try discriminate; try lia.
Qed.

Lemma count_pos_iff (p : LabResult.t -> bool) (labs : list LabResult.t) :
  0 < Spec.count p labs <-> exists l, In l labs /\ p l = true.
Proof.
  unfold Spec.count. split.
  - destruct (filter p labs) as [|l m] eqn:E; cbn [List.length]; [lia|].
    intros _. exists l. apply filter_In. rewrite E. now left.
  - intros (l & Hl). apply filter_In in Hl.
    destruct (filter p labs); [destruct Hl|cbn [List.length]; lia].
Qed.

Lemma count_status_pos_iff (s : Status) (labs : list LabResult.t) :
  0 < Spec.count (Spec.hasStatus s) labs <->
  exists l, In l labs /\ LabResult.status l = s.
Proof.
  rewrite count_pos_iff. unfold Spec.hasStatus.
  split; intros (l & Hl & Hs); exists l; (split; [exact Hl|]).
  - now destruct (LabResult.status l), s.
  - rewrite Hs. now destruct s.
Qed.

(** X15.  The factors of [calculatePatientRisk] are listed in the fixed
    order Critical Values, Abnormal Values, High-Risk Markers, each at
    most once and each with a positive contribution; a factor is listed
    exactly when the recency window holds a critical result, an abnormal
    result, or triggers a marker pattern, respectively. *)
Theorem patient_risk_factors_listed (now : JS.number) (labs : list LabResult.t) :
  let r := calculatePatientRisk now labs in
  let window := filter (isRecent now) labs in
  let names := map RiskFactor.name (RiskScore.factors r) in
  subsequence names ["Critical Values"; "Abnormal Values"; "High-Risk Markers"]
  = true
  /\ (forall f, In f (RiskScore.factors r) -> 0 < RiskFactor.contribution f)
  /\ (In "Critical Values" names <->
      exists l, In l window /\ LabResult.status l = critical)
  /\ (In "Abnormal Values" names <->
      exists l, In l window /\ LabResult.status l = abnormal)
  /\ (In "High-Risk Markers" names <->
      HighRiskMarkers.markers (checkHighRiskMarkers window) <> []).
Proof.
  cbv zeta. unfold calculatePatientRisk.
  set (window := filter (isRecent now) labs).
  change (JS.length (filter (isStatus critical) window))
    with (Spec.count (Spec.hasStatus critical) window).
  change (JS.length (filter (isStatus abnormal) window))
    with (Spec.count (Spec.hasStatus abnormal) window).
  rewrite <- !count_status_pos_iff.
  pose proof (markers_score_bounds window) as Hm.
  assert (Hnone : HighRiskMarkers.markers (checkHighRiskMarkers window) <> [] <->
                  0 < HighRiskMarkers.score (checkHighRiskMarkers window)).
  { rewrite checkHighRiskMarkers_patterns.
    cbn [HighRiskMarkers.score HighRiskMarkers.markers].
    destruct (Spec.akiRisk window), (Spec.sepsisRisk window),
      (Spec.hepaticDysfunction window), (Spec.coagulopathy window);
      cbn; split; intros; try discriminate; try lia; congruence. }
  rewrite Hnone. clear Hnone.
  assert (Hcn : 0 <= Spec.count (Spec.hasStatus critical) window)
    by (unfold Spec.count; lia).
  assert (Han : 0 <= Spec.count (Spec.hasStatus abnormal) window)
    by (unfold Spec.count; lia).
  generalize dependent (HighRiskMarkers.score (checkHighRiskMarkers window)).
  generalize (HighRiskMarkers.markers (checkHighRiskMarkers window)).
  generalize dependent (Spec.count (Spec.hasStatus critical) window).
  generalize dependent (Spec.count (Spec.hasStatus abnormal) window).
  intros a Han c Hcn ms m Hm.
  rewrite (Z.gtb_ltb c 0), (Z.gtb_ltb a 0), (Z.gtb_ltb m 0).
  destruct (Z.ltb_spec 0 c), (Z.ltb_spec 0 a), (Z.ltb_spec 0 m);
    cbn [app map RiskScore.factors RiskFactor.name RiskFactor.contribution In];
    (split; [reflexivity|]);
    (split; [intros f Hf;
             repeat (destruct Hf as [<-|Hf]; [cbn [RiskFactor.contribution]; lia|]);
             destruct Hf|]);
    repeat split; intros; try lia; try tauto;
    repeat match goal with
    | Hor : _ \/ _ |- _ => destruct Hor as [Hor|Hor]; try discriminate
    | Hf : False |- _ => destruct Hf
    end.
Qed.

Lemma markers_score_by_count (labs : list LabResult.t) :
  let r := checkHighRiskMarkers labs in
  (List.length (HighRiskMarkers.markers r) = 0%nat -> HighRiskMarkers.score r = 0)
  /\ (List.length (HighRiskMarkers.markers r) = 1%nat -> HighRiskMarkers.score r <= 20).
Proof.
  cbv zeta. rewrite checkHighRiskMarkers_patterns.
  cbn [HighRiskMarkers.score HighRiskMarkers.markers].
  destruct (Spec.akiRisk labs), (Spec.sepsisRisk labs),
    (Spec.hepaticDysfunction labs), (Spec.coagulopathy labs);
    cbn; split; intros; try discriminate; lia.
Qed.

(** X16.  Counts alone never reach the top: the critical and abnormal
    counts contribute at most 45 + 30 = 75 points, so the level critical
    needs at least one triggered marker pattern, and the score 100 at
    least two. *)
Theorem critical_level_needs_markers (now : JS.number) (labs : list LabResult.t) :
  let r := calculatePatientRisk now labs in
  let markers :=
    HighRiskMarkers.markers (checkHighRiskMarkers (filter (isRecent now) labs)) in
  (RiskScore.level r = level_critical -> (1 <= List.length markers)%nat)
  /\ (RiskScore.score r = 100 -> (2 <= List.length markers)%nat).
Proof.
  cbv zeta. unfold calculatePatientRisk.
  set (window := filter (isRecent now) labs).
  destruct (markers_score_by_count window) as [H0 H1].
  pose proof (markers_score_bounds window) as Hm.
  assert (Hlen : (List.length (HighRiskMarkers.markers (checkHighRiskMarkers window)) = 0
                  \/ List.length (HighRiskMarkers.markers (checkHighRiskMarkers window)) = 1
                  \/ 2 <= List.length (HighRiskMarkers.markers (checkHighRiskMarkers window)))%nat)
    by lia.
  assert (Hc : 0 <= JS.length (filter (isStatus critical) window))
    by (unfold JS.length; lia).
  assert (Ha : 0 <= JS.length (filter (isStatus abnormal) window))
    by (unfold JS.length; lia).
  generalize dependent (List.length (HighRiskMarkers.markers (checkHighRiskMarkers window))).
  generalize dependent (HighRiskMarkers.score (checkHighRiskMarkers window)).
  generalize (HighRiskMarkers.markers (checkHighRiskMarkers window)).
  generalize dependent (JS.length (filter (isStatus critical) window)).
  generalize dependent (JS.length (filter (isStatus abnormal) window)).
  intros a Ha c Hc ms m Hm n H0 H1 Hlen.
  rewrite (Z.gtb_ltb c 0), (Z.gtb_ltb a 0), (Z.gtb_ltb m 0).
  destruct (Z.ltb_spec 0 c), (Z.ltb_spec 0 a), (Z.ltb_spec 0 m);
    cbn [RiskScore.score RiskScore.level];
    repeat match goal with
    | |- context [?x >=? ?y] => rewrite (Z.geb_leb x y); destruct (Z.leb_spec y x)
    end;
    split; intros; try discriminate; lia.
Qed.

Lemma organ_counts (m : list LabResult.t) :
  0 <= JS.length (filter (isStatus critical) m)
       <= JS.length (filter (fun l => negb (isStatus normal l)) m).
Proof.
  change (JS.length (filter (isStatus critical) m))
    with (Spec.count (Spec.hasStatus critical) m).
  change (JS.length (filter (fun l => negb (isStatus normal l)) m))
    with (Spec.count (fun l => negb (Spec.hasStatus normal l)) m).
  rewrite status_split. unfold Spec.count. lia.
Qed.

(** X17.  [calculateOrganSystemRisks] lists the systems in the order
    Renal, Cardiac, Hepatic, each at most once.  In every entry the score
    lies in [0, 100], the markers are not empty, and trend and score
    agree: the trend is improving exactly when the score is 0, a stable
    trend comes with a score of at least 8 and a worsening one with a
    score of at least 26. *)
Theorem organ_risks_invariants (labs : list LabResult.t) :
  subsequence (map OrganSystemRisk.system (calculateOrganSystemRisks labs))
    ["Renal"; "Cardiac"; "Hepatic"] = true
  /\ forall r, In r (calculateOrganSystemRisks labs) ->
       0 <= OrganSystemRisk.score r <= 100
       /\ OrganSystemRisk.markers r <> []
       /\ (OrganSystemRisk.trend r = improving <-> OrganSystemRisk.score r = 0)
       /\ (OrganSystemRisk.trend r = organ_stable -> 8 <= OrganSystemRisk.score r)
       /\ (OrganSystemRisk.trend r = worsening -> 26 <= OrganSystemRisk.score r).
Proof.
  rewrite organ_risks_unfold. split.
  - destruct (Spec.matching Spec.Renal labs), (Spec.matching Spec.Cardiac labs),
      (Spec.matching Spec.Hepatic labs); reflexivity.
  - intros r. rewrite !in_app_iff.
    rewrite (emitted_iff _ assessRenalRisk), (emitted_iff _ assessCardiacRisk),
            (emitted_iff _ assessHepaticRisk).
    intros [[Hne ->]|[[Hne ->]|[Hne ->]]];
      unfold assessRenalRisk, assessCardiacRisk, assessHepaticRisk;
      cbn [OrganSystemRisk.score OrganSystemRisk.markers OrganSystemRisk.trend];
      match goal with
      | |- context [map LabResult.name ?m] =>
          pose proof (organ_counts m) as Hcounts;
          assert (Hmarkers : map LabResult.name m <> [])
            by (destruct m; [congruence|discriminate]);
          generalize dependent (map LabResult.name m);
          generalize dependent (JS.length (filter (isStatus critical) m));
          generalize dependent
            (JS.length (filter (fun l => negb (isStatus normal l)) m))
      end;
      intros a c Hcounts ms Hms;
      rewrite (Z.gtb_ltb c 0), (Z.gtb_ltb a 0);
      destruct (Z.ltb_spec 0 c), (Z.ltb_spec 0 a);
      repeat split; intros; try discriminate; try lia; try assumption.
Qed.

End MarkersAndFactors.

(** Two critical results and an abnormal one of the last day: the first
    two factors are listed. *)
Lemma patient_risk_factors_listed_example :
  In "Critical Values"
     (map RiskFactor.name
        (RiskScore.factors
           (RiskScoreCalculator.calculatePatientRisk (H := Host.builtins)
              Sample.now Sample.twoCriticalOneAbnormal))).
Proof.
  destruct (patient_risk_factors_listed (H := Host.builtins) Sample.now
              Sample.twoCriticalOneAbnormal) as (_ & _ & Hcritical & _).
  apply Hcritical. eexists.
  split; [vm_compute; left; reflexivity|reflexivity].
Defined.

(** Three critical results triggering three marker patterns reach the
    level critical. *)
Lemma critical_level_needs_markers_example :
  (1 <= List.length
          (HighRiskMarkers.markers
             (RiskScoreCalculator.checkHighRiskMarkers (H := Host.builtins)
                (filter (RiskScoreCalculator.isRecent (H := Host.builtins) Sample.now)
                        Sample.threeMarkers))))%nat.
Proof.
  apply (proj1 (critical_level_needs_markers (H := Host.builtins) Sample.now
                  Sample.threeMarkers)).
  vm_compute. reflexivity.
Defined.

(** A single critical creatinine result: a worsening renal entry. *)
Lemma organ_risks_invariants_example :
  Forall (fun r => 26 <= OrganSystemRisk.score r)
         (RiskScoreCalculator.calculateOrganSystemRisks (H := Host.builtins)
            Sample.criticalCreatinine).
Proof.
  apply Forall_forall. intros r Hr.
  destruct (proj2 (organ_risks_invariants (H := Host.builtins)
                     Sample.criticalCreatinine) r Hr)
    as (_ & _ & _ & _ & Hworsening).
  apply Hworsening.
  vm_compute in Hr. destruct Hr as [<-|[]]. reflexivity.
Defined.

(** ** The client: names, statuses and the patient *)

Lemma orString_truthy (a : option string) (b : string) :
  b <> "" -> FHIRClient.orString a b <> "".
Proof.
  intros Hb. unfold FHIRClient.orString.
  destruct a as [[|c s]|]; cbn [JS.truthy_string]; try exact Hb. discriminate.
Qed.

Lemma append_truthy (a b : string) :
  JS.truthy_string (a ++ " " ++ b) = true.
Proof. destruct a; reflexivity. Qed.

Section Client.
Context `{Builtins}.
Import FHIRClient.

(** X18.  The result of [transformObservation] always has a name (the
    text of the code, else the display of its first coding, else
    Unknown) and the category laboratory, and its status is either
    critical or the status given by the reference range: the table of
    critical thresholds escalates to critical and changes nothing else. *)
Theorem observation_name_and_status (obs : FHIRObservation.t) :
  let r := transformObservation obs in
  LabResult.name r <> ""
  /\ LabResult.category r = "laboratory"
  /\ (LabResult.status r = critical
      \/ LabResult.status r
         = rangeRule (option_map Quantity.value (FHIRObservation.valueQuantity obs))
                     (first (FHIRObservation.referenceRange obs))).
Proof.
  cbv zeta. unfold transformObservation.
  cbn [LabResult.name LabResult.category LabResult.status].
  split; [|split; [reflexivity|]].
  - apply orString_truthy. apply orString_truthy. discriminate.
  - unfold criticalRule.
    destruct (findCritical _) as [entry|]; [|now right].
    destruct (option_map Quantity.value _) as [value|]; [|now right].
    destruct (outsideCritical _ _); [now left|now right].
Qed.

(** X19.  The name [getPatient] builds from an answer of the server is
    always the first given name, a blank and the family name, a missing
    part reading as the text undefined: the concatenation is never empty,
    so the fallback Unknown Patient is never used, and a resource without
    a name yields the name undefined undefined. *)
Theorem patient_name_never_falls_back (env : option string)
  (data : PatientResource.t) :
  let p := getPatient env (JS.Normal data) in
  let name0 := first (PatientResource.name data) in
  Patient.name p
  = (toStringOperand (match name0 with
                      | Some n => first (HumanName.given n)
                      | None => None
                      end)
     ++ " "
     ++ toStringOperand (match name0 with
                         | Some n => HumanName.family n
                         | None => None
                         end))%string
  /\ (name0 = None -> Patient.name p = "undefined undefined").
Proof.
  cbv zeta. unfold getPatient. cbn [Patient.name]. unfold orString.
  rewrite append_truthy. split; [reflexivity|]. intros ->. reflexivity.
Qed.

End Client.

Lemma patient_name_never_falls_back_example :
  Patient.name (FHIRClient.getPatient None (JS.Normal Sample.namelessPatient))
  = "undefined undefined".
Proof.
  apply (proj2 (patient_name_never_falls_back None Sample.namelessPatient)).
  reflexivity.
Defined.

(** ** The alert panel and the summary *)





Section AlertsAndSummary.
Context `{Builtins}.


End AlertsAndSummary.



(** ** Loading the dashboard *)

Section Fetch.
Context `{Builtins}.
Import LabDashboard.

(** X22.  A run of [fetchData] always ends with both busy flags off, the
    patient and the lab results replaced.  When the name of some fetched
    result is a property name of [Object.prototype], the trend analysis
    throws inside the [try]: the trends and the diagnostic reports of the
    state stay those from before the run, next to the new results.
    Otherwise the trends are those of the new results and the reports
    those of the answer. *)
Theorem fetch_keeps_stale_trends (env : option string) (responses : Responses)
  (isRefresh : bool) (s : State) :
  let labs := FHIRClient.getLabResults (observationResponse responses) in
  let s' := fetchData env responses isRefresh s in
  loading s' = false /\ refreshing s' = false
  /\ patient s' = Some (FHIRClient.getPatient env (patientResponse responses))
  /\ labResults s' = labs
  /\ ((exists l, In l labs /\ JS.inherited (LabResult.name l) = true) ->
      labTrends s' = labTrends s
      /\ diagnosticReports s' = diagnosticReports s)
  /\ ((forall l, In l labs -> JS.inherited (LabResult.name l) = false) ->
      LabProcessor.processLabTrends labs = JS.Normal (labTrends s')
      /\ diagnosticReports s'
         = FHIRClient.getDiagnosticReports (reportResponse responses)).
Proof.
  cbv zeta. unfold fetchData.
  set (labs := FHIRClient.getLabResults (observationResponse responses)).
  unfold LabProcessor.processLabTrends, LabProcessor.groupLabsByType.
  destruct (LabProcessor.groupLoop labs []) as [grouped|e] eqn:Hg.
  - split; [reflexivity|]. split; [reflexivity|].
    split; [now destruct isRefresh|]. split; [now destruct isRefresh|].
    split.
    + intros Hex.
      destruct (groupLoop_throws labs [] (fun _ _ => eq_refl) Hex) as [e He].
      congruence.
    + intros _. split; now destruct isRefresh.
  - split; [reflexivity|]. split; [reflexivity|].
    split; [now destruct isRefresh|]. split; [now destruct isRefresh|].
    split.
    + intros _. split; now destruct isRefresh.
    + intros Hall. destruct (groupLoop_returns labs [] Hall) as [grouped Hgr].
      congruence.
Qed.

End Fetch.

(** The first load of a patient with an observation named [constructor]:
    one result is shown, but no report, although the server sent one. *)
Lemma fetch_keeps_stale_trends_example :
  let s' := LabDashboard.fetchData (H := Host.builtins) None
              Sample.constructorResponses false LabDashboard.initialState in
  LabDashboard.labTrends s' = [] /\ LabDashboard.diagnosticReports s' = [].
Proof.
  destruct (fetch_keeps_stale_trends (H := Host.builtins) None
              Sample.constructorResponses false LabDashboard.initialState)
    as (_ & _ & _ & _ & Hstale & _).
  apply Hstale. eexists. split; [left; reflexivity|reflexivity].
Defined.

(** ** The recently selected patients *)

Section Recent.
Import PatientSelector.

(** X23.  The list of recent patients that [selectPatient] stores starts
    with the selected patient, holds it once and holds at most five
    entries, all taken from the stored list; it has no repetition when
    the stored list had none, and selecting the same patient again leaves
    it as it is. *)
Theorem recent_patients_invariants (patientId : string)
  (stored : option (list string)) :
  let recent := match stored with Some recent => recent | None => [] end in
  let updated := selectPatient patientId stored in
  hd_error updated = Some patientId
  /\ (List.length updated <= 5)%nat
  /\ count_occ string_dec updated patientId = 1%nat
  /\ (forall id, In id updated -> id = patientId \/ In id recent)
  /\ (NoDup recent -> NoDup updated)
  /\ selectPatient patientId (Some updated) = updated.
Proof.
  cbv zeta. unfold selectPatient.
  set (recent := match stored with Some recent => recent | None => [] end).
  set (others := filter (fun id => negb (String.eqb id patientId)) recent).
  assert (Hothers : forall id, In id others -> id <> patientId /\ In id recent).
  { intros id Hin. apply filter_In in Hin. destruct Hin as [Hin Hne].
    split; [|exact Hin]. intros ->. rewrite String.eqb_refl in Hne. discriminate. }
  change (firstn 5 (patientId :: others)) with (patientId :: firstn 4 others).
  split; [reflexivity|]. split; [|split; [|split; [|split]]].
  - cbn [List.length]. pose proof (firstn_le_length 4 others). lia.
  - cbn [count_occ]. destruct (string_dec patientId patientId); [|congruence].
    f_equal. apply count_occ_not_In. intros Hin. apply In_firstn in Hin.
    apply Hothers in Hin. tauto.
  - intros id [<-|Hin]; [now left|]. right. apply In_firstn in Hin.
    now apply Hothers.
  - intros Hnd. constructor.
    + intros Hin. apply In_firstn in Hin. apply Hothers in Hin. tauto.
    + apply NoDup_firstn. now apply NoDup_filter.
  - cbn [filter]. rewrite String.eqb_refl. cbn [negb].
    unfold others. rewrite filter_firstn_all.
    change (firstn 5 (patientId :: ?l)) with (patientId :: firstn 4 l).
    f_equal. rewrite firstn_firstn. reflexivity.
Qed.

End Recent.

(** Selecting the third of five stored patients moves it to the front. *)
Lemma recent_patients_invariants_example :
  NoDup (PatientSelector.selectPatient "p3" (Some ["p1"; "p2"; "p3"; "p4"; "p5"])).
Proof.
  destruct (recent_patients_invariants "p3" (Some ["p1"; "p2"; "p3"; "p4"; "p5"]))
    as (_ & _ & _ & _ & Hnodup & _).
  apply Hnodup.
  repeat (constructor; [cbn; intuition discriminate|]). constructor.
Defined.

(** ** The sign of a difference *)

Section Rounding.
Variables prec emax : Z.
Hypothesis Hprec : 0 < prec.


Lemma digits_bounds (p : positive) :
  2 ^ (Z.pos (digits2_pos p) - 1) <= Z.pos p < 2 ^ Z.pos (digits2_pos p).
Proof.
  induction p as [p IH|p IH|]; cbn [digits2_pos].
  - rewrite Pos2Z.inj_succ, (Pos2Z.inj_xI p).
    replace (Z.succ (Z.pos (digits2_pos p)) - 1) with (Z.succ (Z.pos (digits2_pos p) - 1))
      by lia.
    rewrite !Z.pow_succ_r by lia.
    generalize dependent (2 ^ (Z.pos (digits2_pos p) - 1)).
    generalize (2 ^ Z.pos (digits2_pos p)). intros; lia.
  - rewrite Pos2Z.inj_succ, (Pos2Z.inj_xO p).
    replace (Z.succ (Z.pos (digits2_pos p)) - 1) with (Z.succ (Z.pos (digits2_pos p) - 1))
      by lia.
    rewrite !Z.pow_succ_r by lia.
    generalize dependent (2 ^ (Z.pos (digits2_pos p) - 1)).
    generalize (2 ^ Z.pos (digits2_pos p)). intros; lia.
  - cbn. lia.
Qed.

Lemma shr_1_m (mrs : shr_record) :
  0 <= shr_m mrs -> shr_m (shr_1 mrs) = Z.div2 (shr_m mrs).
Proof.
  destruct mrs as [m r s]. cbn [shr_m shr_1].
  destruct m as [|[p|p|]|p]; cbn; intros Hm; try reflexivity; lia.
Qed.

Lemma iter_shr_1_m (n : positive) (mrs : shr_record) :
  0 <= shr_m mrs ->
  shr_m (@SpecFloat.iter_pos _ shr_1 n mrs) = Z.shiftr (shr_m mrs) (Z.pos n).
Proof.
  assert (Hdiv2 : forall a k, 0 <= k -> Z.div2 (Z.shiftr a k) = Z.shiftr a (k + 1)).
  { intros a k Hk. rewrite Z.div2_spec, Z.shiftr_shiftr by lia. reflexivity. }
  revert mrs. induction n as [n IH|n IH|]; intros mrs Hm; cbn [SpecFloat.iter_pos].
  - assert (H1 : 0 <= shr_m (shr_1 mrs)).
    { rewrite shr_1_m by exact Hm. apply Z.div2_nonneg. exact Hm. }
    assert (H2 : 0 <= shr_m (@SpecFloat.iter_pos _ shr_1 n (shr_1 mrs))).
    { rewrite IH by exact H1. apply Z.shiftr_nonneg. exact H1. }
    rewrite IH by exact H2. rewrite IH by exact H1. rewrite shr_1_m by exact Hm.
    rewrite Z.div2_spec, !Z.shiftr_shiftr by lia. f_equal. lia.
  - assert (H2 : 0 <= shr_m (@SpecFloat.iter_pos _ shr_1 n mrs)).
    { rewrite IH by exact Hm. apply Z.shiftr_nonneg. exact Hm. }
    rewrite IH by exact H2. rewrite IH by exact Hm.
    rewrite Z.shiftr_shiftr by lia. f_equal. lia.
  - rewrite shr_1_m by exact Hm. apply Z.div2_spec.
Qed.

(** Shifting a positive mantissa to its canonical exponent leaves it
    positive. *)
Lemma shr_fexp_pos (m e : Z) (l : location) :
  0 < m -> SpecFloat.emin prec emax <= e ->
  0 < shr_m (fst (shr_fexp prec emax m e l))
  /\ SpecFloat.emin prec emax <= snd (shr_fexp prec emax m e l).
Proof.
  intros Hm He. unfold shr_fexp.
  assert (Hrec : shr_m (shr_record_of_loc m l) = m)
    by (destruct l as [|[]]; reflexivity).
  destruct m as [|p|p]; try lia. cbn [Zdigits2].
  unfold shr.
  destruct (SpecFloat.fexp prec emax (Z.pos (digits2_pos p) + e) - e) as [|n|n] eqn:En;
    cbn [fst snd]; rewrite ?Hrec; try (split; lia).
  assert (Hn : Z.pos n = Z.pos (digits2_pos p) - prec).
  { unfold SpecFloat.fexp in En. lia. }
  split; [|lia].
  rewrite iter_shr_1_m by (rewrite Hrec; lia). rewrite Hrec.
  rewrite Z.shiftr_div_pow2 by lia.
  apply Z.div_str_pos. split; [apply Z.pow_pos_nonneg; lia|].
  pose proof (digits_bounds p) as [Hlow _].
  apply Z.le_trans with (2 := Hlow). apply Z.pow_le_mono_r; lia.
Qed.

Lemma round_nearest_even_pos (m : Z) (l : location) :
  0 < m -> 0 < round_nearest_even m l.
Proof.
  intros Hm. unfold round_nearest_even.
  destruct l as [|[]]; try lia. destruct (Z.even m); lia.
Qed.

Lemma binary_round_aux_sign (s : bool) (m e : Z) (l : location) :
  0 < m -> SpecFloat.emin prec emax <= e ->
  binary_round_aux prec emax s m e l = S754_infinity s
  \/ exists m' e', binary_round_aux prec emax s m e l = S754_finite s m' e'.
Proof.
  intros Hm He. unfold binary_round_aux.
  pose proof (shr_fexp_pos m e l Hm He) as [H1 H1e].
  destruct (shr_fexp prec emax m e l) as [mrs' e']. cbn [fst snd] in H1, H1e.
  pose proof (shr_fexp_pos _ e' loc_Exact
                (round_nearest_even_pos _ (loc_of_shr_record mrs') H1) H1e) as [H2 _].
  destruct (shr_fexp prec emax _ e' loc_Exact) as [mrs'' e'']. cbn [fst] in H2.
  destruct (shr_m mrs'') as [|p|p]; try lia.
  destruct (e'' <=? emax - prec); [right; eauto|now left].
Qed.

Lemma binary_round_sign (s : bool) (p : positive) (e : Z) :
  SpecFloat.emin prec emax <= e ->
  binary_round prec emax s p e = S754_infinity s
  \/ exists m' e', binary_round prec emax s p e = S754_finite s m' e'.
Proof.
  intros He. unfold binary_round.
  destruct (shl_align p e (SpecFloat.fexp prec emax (Z.pos (digits2_pos p) + e))) as [mz ez] eqn:Ealign.
  apply binary_round_aux_sign; [lia|].
  unfold shl_align in Ealign.
  destruct (SpecFloat.fexp prec emax (Z.pos (digits2_pos p) + e) - e) eqn:Ed;
    injection Ealign as <- <-; try exact He.
  unfold SpecFloat.fexp. lia.
Qed.


Lemma iter_xO_value (p d : positive) :
  Z.pos (Pos.iter xO p d) = Z.pos p * 2 ^ Z.pos d.
Proof.
  induction d as [|d IH] using Pos.peano_ind.
  - cbn [Pos.iter]. rewrite (Pos2Z.inj_xO p). change (2 ^ 1) with 2. lia.
  - rewrite Pos.iter_succ, (Pos2Z.inj_xO (Pos.iter xO p d)), IH, Pos2Z.inj_succ.
    rewrite Z.pow_succ_r by lia. lia.
Qed.

Lemma shl_align_value (p : positive) (e ez : Z) :
  ez <= e -> Z.pos (fst (shl_align p e ez)) = Z.pos p * 2 ^ (e - ez).
Proof.
  intros He. unfold shl_align.
  destruct (ez - e) as [|d|d] eqn:Ed; cbn [fst]; try lia.
  - replace (e - ez) with 0 by lia. lia.
  - rewrite iter_xO_value. f_equal. f_equal. lia.
Qed.

(** What a canonical mantissa says of its number of digits. *)
Lemma canonical_digits (m : positive) (e : Z) :
  canonical_mantissa prec emax m e = true ->
  Z.pos (digits2_pos m) <= prec /\ SpecFloat.emin prec emax <= e
  /\ (SpecFloat.emin prec emax < e -> Z.pos (digits2_pos m) = prec).
Proof.
  unfold canonical_mantissa, SpecFloat.fexp. intros Hc. apply Z.eqb_eq in Hc. lia.
Qed.

Lemma lower_exponent_is_smaller (mx my : positive) (ex ey : Z) :
  canonical_mantissa prec emax mx ex = true ->
  canonical_mantissa prec emax my ey = true ->
  ex < ey ->
  Z.pos mx < Z.pos my * 2 ^ (ey - ex).
Proof.
  intros Hx Hy Hlt.
  destruct (canonical_digits _ _ Hx) as (Hdx & Hex & _).
  destruct (canonical_digits _ _ Hy) as (_ & _ & Hdy).
  specialize (Hdy ltac:(lia)).
  pose proof (digits_bounds mx) as [_ Hmx].
  pose proof (digits_bounds my) as [Hmy _]. rewrite Hdy in Hmy.
  assert (Hpow : 2 ^ Z.pos (digits2_pos mx) <= 2 ^ prec)
    by (apply Z.pow_le_mono_r; lia).
  assert (Htwo : 2 ^ 1 <= 2 ^ (ey - ex)) by (apply Z.pow_le_mono_r; lia).
  change (2 ^ 1) with 2 in Htwo.
  assert (Hprec' : 2 ^ prec = 2 * 2 ^ (prec - 1)).
  { replace prec with (Z.succ (prec - 1)) at 1 by lia.
    apply Z.pow_succ_r. lia. }
  assert (Hpos : 0 < 2 ^ (prec - 1)) by (apply Z.pow_pos_nonneg; lia).
  nia.
Qed.

(** For canonical mantissas the comparison by exponent, then mantissa,
    is the comparison of the numbers. *)
Lemma compare_aligned (mx my : positive) (ex ey : Z) :
  canonical_mantissa prec emax mx ex = true ->
  canonical_mantissa prec emax my ey = true ->
  let ez := Z.min ex ey in
  (Z.pos mx * 2 ^ (ex - ez) ?= Z.pos my * 2 ^ (ey - ez))
  = match ex ?= ey with
    | Lt => Lt
    | Gt => Gt
    | Eq => Pos.compare_cont Eq mx my
    end.
Proof.
  intros Hx Hy ez. subst ez.
  destruct (Z.compare_spec ex ey) as [Heq|Hlt|Hgt].
  - subst ey. rewrite Z.min_id, Z.sub_diag, !Z.mul_1_r. reflexivity.
  - rewrite Z.min_l by lia. rewrite Z.sub_diag, Z.mul_1_r.
    apply Z.compare_lt_iff. now apply lower_exponent_is_smaller.
  - rewrite Z.min_r by lia. rewrite Z.sub_diag, Z.mul_1_r.
    apply Z.compare_gt_iff. now apply lower_exponent_is_smaller.
Qed.

Lemma SFcompare_aligned (sx sy : bool) (mx my : positive) (ex ey : Z) :
  canonical_mantissa prec emax mx ex = true ->
  canonical_mantissa prec emax my ey = true ->
  let ez := Z.min ex ey in
  SFcompare (S754_finite sx mx ex) (S754_finite sy my ey)
  = Some (Notions.aligned sx mx ex ez ?= Notions.aligned sy my ey ez).
Proof.
  intros Hx Hy ez. unfold Notions.aligned.
  rewrite !shl_align_value by (subst ez; lia).
  pose proof (compare_aligned mx my ex ey Hx Hy) as Hcmp. cbv zeta in Hcmp.
  fold ez in Hcmp.
  assert (HX : 0 < Z.pos mx * 2 ^ (ex - ez))
    by (apply Z.mul_pos_pos; [lia|apply Z.pow_pos_nonneg; subst ez; lia]).
  assert (HY : 0 < Z.pos my * 2 ^ (ey - ez))
    by (apply Z.mul_pos_pos; [lia|apply Z.pow_pos_nonneg; subst ez; lia]).
  revert Hcmp HX HY.
  generalize (Z.pos mx * 2 ^ (ex - ez)), (Z.pos my * 2 ^ (ey - ez)).
  intros X Y Hcmp HX HY. cbn [SFcompare]. f_equal.
  destruct sx, sy; cbn [cond_Zopp].
  - rewrite Z.compare_opp, (Z.compare_antisym X Y), Hcmp.
    now destruct (ex ?= ey).
  - symmetry. apply Z.compare_lt_iff. lia.
  - symmetry. apply Z.compare_gt_iff. lia.
  - rewrite Hcmp. reflexivity.
Qed.

Lemma binary_normalize_positive (d ez : Z) :
  SpecFloat.emin prec emax <= ez ->
  SFltb (S754_zero false) (binary_normalize prec emax d ez false) = (0 <? d).
Proof.
  intros He. destruct d as [|p|p]; cbn [binary_normalize]; [reflexivity| |].
  - destruct (binary_round_sign false p ez He) as [->|(m' & e' & ->)]; reflexivity.
  - destruct (binary_round_sign true p ez He) as [->|(m' & e' & ->)]; reflexivity.
Qed.

(** The difference of two finite numbers is positive exactly when the
    first one is the larger. *)
Lemma SFsub_positive (sx sy : bool) (mx my : positive) (ex ey : Z) :
  canonical_mantissa prec emax mx ex = true ->
  canonical_mantissa prec emax my ey = true ->
  SFltb (S754_zero false)
        (SFsub prec emax (S754_finite sy my ey) (S754_finite sx mx ex))
  = SFltb (S754_finite sx mx ex) (S754_finite sy my ey).
Proof.
  intros Hx Hy. unfold SFltb at 2.
  rewrite (SFcompare_aligned sx sy mx my ex ey Hx Hy). cbv zeta.
  cbn [SFsub]. rewrite (Z.min_comm ey ex).
  destruct (canonical_digits _ _ Hx) as (_ & Hex & _).
  destruct (canonical_digits _ _ Hy) as (_ & Hey & _).
  rewrite binary_normalize_positive by lia.
  fold (Notions.aligned sy my ey (Z.min ex ey)). fold (Notions.aligned sx mx ex (Z.min ex ey)).
  generalize (Notions.aligned sx mx ex (Z.min ex ey)), (Notions.aligned sy my ey (Z.min ex ey)).
  intros X Y.
  destruct (Z.compare_spec X Y), (Z.ltb_spec 0 (Y - X)); try reflexivity; lia.
Qed.

End Rounding.

(** [b - a > 0] says [a < b], for all numbers. *)
Lemma difference_positive (a b : JS.number) :
  JS.gt (b - a)%float 0%float = JS.lt a b.
Proof.
  unfold JS.gt, JS.lt. rewrite !ltb_spec, sub_spec.
  change (Prim2SF 0%float) with (S754_zero false).
  pose proof (Prim2SF_valid a) as Ha. pose proof (Prim2SF_valid b) as Hb.
  destruct (Prim2SF a) as [sa|sa| |sa ma ea], (Prim2SF b) as [sb|sb| |sb mb eb];
    try (destruct sa, sb; reflexivity); try (destruct sa; reflexivity);
    try (destruct sb; reflexivity); try reflexivity.
  cbn [valid_binary] in Ha, Hb. unfold bounded in Ha, Hb.
  apply andb_prop in Ha, Hb. destruct Ha as [Ha _], Hb as [Hb _].
  apply (SFsub_positive prec emax); [reflexivity|exact Ha|exact Hb].
Qed.

(** ** The order of numbers *)





(** ** Sorting by a strict order *)

Section Sorting.
Context {A : Type}.
Variable after : A -> A -> bool.
Hypothesis after_asym : forall x y, after y x = true -> after x y = false.
Hypothesis after_trans :
  forall x y z, after y x = true -> after y z = false -> after x z = false.




End Sorting.


(** ** The newest results first *)


Section NewestFirstTrends.
Context `{Builtins}.
Import LabProcessor Notions.




End NewestFirstTrends.


(** ** The direction of a trend *)

Section Direction.
Context `{Builtins}.
Import LabProcessor Notions.

Lemma trendOfGroup_direction (labName : string) (results : list LabResult.t)
  (t : LabTrend.t) (previous : JS.number) :
  trendOfGroup labName results = Some t ->
  LabTrend.previousValue t = Some previous ->
  (LabTrend.trend t = rising -> JS.lt previous (LabTrend.currentValue t) = true)
  /\ (LabTrend.trend t = falling -> JS.lt previous (LabTrend.currentValue t) = false).
Proof.
  unfold trendOfGroup.
  destruct (filter isNumeric _) as [|current older]; [discriminate|].
  destruct (hd_error older) as [p|]; cbn [option_map].
  - remember (firstn 10 (current :: older)) as points eqn:Hpoints.
    intros [= <-]. cbn [LabTrend.previousValue LabTrend.trend LabTrend.currentValue].
    intros [= <-]. unfold classifyTrend.
    rewrite difference_positive.
    destruct (JS.lt (JS.Math_abs _) 5%float); [split; discriminate|].
    destruct (JS.lt (numberOf p) (numberOf current)); split; congruence.
  - remember (firstn 10 (current :: older)) as points eqn:Hpoints.
    intros [= <-]. discriminate.
Qed.

(** X25.  The direction of a trend agrees with its two values: a rising
    trend has a current value greater than the previous one, and a
    falling trend never has. *)
Theorem trend_direction_matches_values (labs : list LabResult.t)
  (trends : list LabTrend.t) (t : LabTrend.t) (previous : JS.number) :
  processLabTrends labs = JS.Normal trends -> In t trends ->
  LabTrend.previousValue t = Some previous ->
  (LabTrend.trend t = rising -> JS.lt previous (LabTrend.currentValue t) = true)
  /\ (LabTrend.trend t = falling -> JS.lt previous (LabTrend.currentValue t) = false).
Proof.
  intros Htrends Hin.
  exact (trendOfGroup_direction _ _ _ _ (trend_group _ _ _ Htrends Hin)).
Qed.

End Direction.

(** Magnesium from 10.0 to 10.6: a rising trend, above the previous
    value. *)
Lemma trend_direction_matches_values_example :
  Forall (fun t => JS.lt 10%float (LabTrend.currentValue t) = true)
         (match LabProcessor.processLabTrends (H := Host.builtins)
                  [Sample.seriesOlder; Sample.seriesPlus6] with
          | JS.Normal trends => trends
          | JS.Throw _ => []
          end).
Proof.
  apply Forall_forall. intros t Ht.
  destruct (LabProcessor.processLabTrends (H := Host.builtins)
              [Sample.seriesOlder; Sample.seriesPlus6]) as [trends|e] eqn:E;
    [|destruct Ht].
  pose proof E as E'. vm_compute in E'. injection E' as <-.
  destruct Ht as [<-|[]].
  exact (proj1 (trend_direction_matches_values (H := Host.builtins) _ _ _
                  10%float E (or_introl eq_refl) eq_refl) eq_refl).
Defined.

(** ** The trend sentence *)

Section RoundingNegative.
Variables prec emax : Z.
Hypothesis Hprec : 0 < prec.

Lemma binary_normalize_negative (d ez : Z) :
  SpecFloat.emin prec emax <= ez ->
  SFltb (binary_normalize prec emax d ez false) (S754_zero false) = (d <? 0).
Proof.
  intros He. destruct d as [|p|p]; cbn [binary_normalize]; [reflexivity| |].
  - destruct (binary_round_sign prec emax Hprec false p ez He)
      as [->|(m' & e' & ->)]; reflexivity.
  - destruct (binary_round_sign prec emax Hprec true p ez He)
      as [->|(m' & e' & ->)]; reflexivity.
Qed.

Lemma SFsub_negative (sx sy : bool) (mx my : positive) (ex ey : Z) :
  canonical_mantissa prec emax mx ex = true ->
  canonical_mantissa prec emax my ey = true ->
  SFltb (SFsub prec emax (S754_finite sy my ey) (S754_finite sx mx ex))
        (S754_zero false)
  = SFltb (S754_finite sy my ey) (S754_finite sx mx ex).
Proof.
  intros Hx Hy. unfold SFltb at 2.
  rewrite (SFcompare_aligned prec emax Hprec sy sx my mx ey ex Hy Hx). cbv zeta.
  cbn [SFsub].
  destruct (canonical_digits prec emax _ _ Hx) as (_ & Hex & _).
  destruct (canonical_digits prec emax _ _ Hy) as (_ & Hey & _).
  rewrite binary_normalize_negative by lia.
  fold (Notions.aligned sy my ey (Z.min ey ex)).
  fold (Notions.aligned sx mx ex (Z.min ey ex)).
  generalize (Notions.aligned sx mx ex (Z.min ey ex)),
    (Notions.aligned sy my ey (Z.min ey ex)).
  intros X Y.
  destruct (Z.compare_spec Y X), (Z.ltb_spec (Y - X) 0); try reflexivity; lia.
Qed.

End RoundingNegative.

(** [b - a < 0] says [b < a], for all numbers. *)
Lemma difference_negative (a b : JS.number) :
  JS.lt (b - a)%float 0%float = JS.lt b a.
Proof.
  unfold JS.lt. rewrite !ltb_spec, sub_spec.
  change (Prim2SF 0%float) with (S754_zero false).
  pose proof (Prim2SF_valid a) as Ha. pose proof (Prim2SF_valid b) as Hb.
  destruct (Prim2SF a) as [sa|sa| |sa ma ea], (Prim2SF b) as [sb|sb| |sb mb eb];
    try (destruct sa, sb; reflexivity); try (destruct sa; reflexivity);
    try (destruct sb; reflexivity); try reflexivity.
  cbn [valid_binary] in Ha, Hb. unfold bounded in Ha, Hb.
  apply andb_prop in Ha, Hb. destruct Ha as [Ha _], Hb as [Hb _].
  apply (SFsub_negative prec emax); [reflexivity|exact Ha|exact Hb].
Qed.

(** A number that is neither above nor below zero is falsy. *)
Lemma neither_sign_falsy (x : JS.number) :
  JS.gt x 0%float = false -> JS.lt x 0%float = false -> JS.truthy x = false.
Proof.
  unfold JS.gt, JS.lt, JS.truthy, is_zero, is_nan.
  rewrite !ltb_spec, !FloatAxioms.eqb_spec. unfold SFltb, SFeqb.
  change (Prim2SF 0%float) with (S754_zero false).
  change (Prim2SF PrimFloat.zero) with (S754_zero false).
  destruct (Prim2SF x) as [s|s| |s m e]; cbn; try reflexivity;
    destruct s; discriminate.
Qed.

Section Narrative.
Context `{Builtins} `{Formatting}.
Import LabProcessor Notions.

Lemma trendOfGroup_fields (labName : string) (results : list LabResult.t)
  (t : LabTrend.t) :
  trendOfGroup labName results = Some t ->
  match LabTrend.previousValue t with
  | Some previous =>
      let delta := (LabTrend.currentValue t - previous)%float in
      let deltaPercent := ((delta / previous) * 100)%float in
      LabTrend.delta t = Some delta
      /\ LabTrend.deltaPercent t = Some deltaPercent
      /\ LabTrend.trend t = classifyTrend delta deltaPercent
  | None =>
      LabTrend.delta t = None /\ LabTrend.deltaPercent t = None
      /\ LabTrend.trend t = stable
  end.
Proof.
  unfold trendOfGroup.
  destruct (filter isNumeric _) as [|current older]; [discriminate|].
  remember (firstn 10 (current :: older)) as points eqn:Hpoints.
  destruct (hd_error older) as [p|]; cbn [option_map]; intros [= <-];
    cbn [LabTrend.previousValue LabTrend.delta LabTrend.deltaPercent
         LabTrend.trend LabTrend.currentValue]; repeat split.
Qed.

(** X26.  The trend sentence agrees with the two values of the trend.  For
    a trend of [processLabTrends] the sentence is empty when there is no
    previous value and when the current value is neither above nor below
    the previous one; otherwise it is empty, the sentence for a stable
    value, [increased by] only when the current value is above the
    previous one, or [decreased by] only when it is below, and the amount
    is the text with one decimal of the size of the change in percent. *)
Theorem trend_narrative_matches_values (labs : list LabResult.t)
  (trends : list LabTrend.t) (t : LabTrend.t) :
  processLabTrends labs = JS.Normal trends -> In t trends ->
  let text := getTrendNarrative t in
  let current := LabTrend.currentValue t in
  (LabTrend.previousValue t = None -> text = "")
  /\ forall previous,
       LabTrend.previousValue t = Some previous ->
       let amount :=
         Number_toFixed1
           (JS.Math_abs (((current - previous) / previous) * 100)%float) in
       (JS.lt previous current = false -> JS.lt current previous = false ->
        text = "")
       /\ (text = ""
           \/ text = "The value has remained relatively stable."
           \/ (JS.lt previous current = true
               /\ text = ("The value has increased by " ++ amount
                          ++ "% since the last test.")%string)
           \/ (JS.lt current previous = true
               /\ text = ("The value has decreased by " ++ amount
                          ++ "% since the last test.")%string)).
Proof.
  intros Htrends Hin. cbv zeta.
  pose proof (trendOfGroup_fields _ _ _ (trend_group _ _ _ Htrends Hin)) as Hfields.
  unfold getTrendNarrative.
  destruct (LabTrend.previousValue t) as [p|].
  - destruct Hfields as (-> & -> & ->). split; [discriminate|].
    intros previous [= <-]. cbn [falsy]. unfold classifyTrend.
    set (c := LabTrend.currentValue t).
    rewrite (difference_positive p c).
    pose proof (neither_sign_falsy (c - p)%float) as Hneither.
    rewrite (difference_positive p c), (difference_negative p c) in Hneither.
    split.
    + intros Hup Hdown. now rewrite (Hneither Hup Hdown).
    + destruct (JS.truthy (c - p)%float) eqn:Hdelta; cbn [negb orb]; [|now left].
      destruct (JS.truthy ((c - p) / p * 100)%float); cbn [negb]; [|now left].
      destruct (JS.lt (JS.Math_abs _) 5%float); [right; now left|].
      destruct (JS.lt p c) eqn:Hup; [right; right; left; now split|].
      right; right; right. split; [|reflexivity].
      destruct (JS.lt c p); [reflexivity|].
      specialize (Hneither eq_refl eq_refl). discriminate.
  - destruct Hfields as (-> & _ & _). split; [reflexivity|discriminate].
Qed.

End Narrative.

(** Magnesium from 10.0 to 10.6, with the texts of the reference host. *)
Lemma trend_narrative_matches_values_example :
  Forall (fun t => JS.lt 10%float (LabTrend.currentValue t) = true
                   /\ LabProcessor.getTrendNarrative (H0 := Host.formatting) t
                      = "The value has increased by 6.0% since the last test.")
         (match LabProcessor.processLabTrends (H := Host.builtins)
                  [Sample.seriesOlder; Sample.seriesPlus6] with
          | JS.Normal trends => trends
          | JS.Throw _ => []
          end).
Proof.
  apply Forall_forall. intros t Ht.
  destruct (LabProcessor.processLabTrends (H := Host.builtins)
              [Sample.seriesOlder; Sample.seriesPlus6]) as [trends|e] eqn:E;
    [|destruct Ht].
  pose proof E as E'. vm_compute in E'. injection E' as <-.
  destruct Ht as [<-|[]].
  destruct (proj2 (trend_narrative_matches_values (H := Host.builtins)
                     (H0 := Host.formatting) _ _ _ E (or_introl eq_refl))
              10%float eq_refl) as [_ Hcases].
  match goal with
  | |- _ /\ ?text = _ =>
      assert (Htext : text
                      = "The value has increased by 6.0% since the last test.")
        by (vm_compute; reflexivity)
  end.
  split; [|exact Htext].
  rewrite Htext in Hcases.
  destruct Hcases as [Hc|[Hc|[[Hup _]|[_ Hc]]]]; try discriminate Hc.
  exact Hup.
Defined.

(** ** The risk score under an All Clear panel *)

Lemma all_clear_normal (labs : list LabResult.t) :
  CriticalAlerts.render labs false = CriticalAlerts.AllClear ->
  forall l, In l labs -> LabResult.status l = normal.
Proof.
  unfold CriticalAlerts.render.
  destruct (filter (fun lab => Status_eqb (LabResult.status lab) critical) labs)
    as [|c cs] eqn:Ec;
    [|unfold JS.length; cbn [List.length];
      destruct (Z.eqb_spec (Z.of_nat (S (List.length cs))) 0); [lia|];
      cbn [andb]; discriminate].
  destruct (filter (fun lab => Status_eqb (LabResult.status lab) abnormal) labs)
    as [|a As] eqn:Ea;
    [|unfold JS.length; cbn [List.length];
      destruct (Z.eqb_spec (Z.of_nat (S (List.length As))) 0); [lia|];
      rewrite andb_false_r; discriminate].
  intros _ l Hl.
  destruct (LabResult.status l) eqn:Es; [reflexivity| |]; exfalso.
  - assert (Hin : In l (filter (fun lab => Status_eqb (LabResult.status lab) critical)
                               labs))
      by (apply filter_In; split; [exact Hl|now rewrite Es]).
    rewrite Ec in Hin. exact Hin.
  - assert (Hin : In l (filter (fun lab => Status_eqb (LabResult.status lab) abnormal)
                               labs))
      by (apply filter_In; split; [exact Hl|now rewrite Es]).
    rewrite Ea in Hin. exact Hin.
Qed.

Section AllClearRisk.
Context `{Builtins}.
Import RiskScoreCalculator.

Lemma firstCoded_false (keys : list string) (p : LabResult.t -> bool)
  (labs : list LabResult.t) :
  (forall l, In l labs -> p l = false) -> Spec.firstCoded keys p labs = false.
Proof.
  intros Hall. unfold Spec.firstCoded.
  destruct (find (Spec.coded keys) labs) as [l|] eqn:E; [|reflexivity].
  apply find_some in E. now apply Hall.
Qed.

(** X27.  Under an All Clear panel the risk level is low, but the score
    need not be 0: with every result normal no count factor is listed and
    the AKI and hepatic patterns cannot trigger, while Sepsis Risk
    (lactate above 2) and Coagulopathy (INR above 2, platelets below 50)
    look at the values only and may add up to 35 points. *)
Theorem all_clear_risk_is_low (now : JS.number) (labs : list LabResult.t) :
  CriticalAlerts.render labs false = CriticalAlerts.AllClear ->
  let r := calculatePatientRisk now labs in
  RiskScore.score r <= 35
  /\ RiskScore.level r = level_low
  /\ (forall f, In f (RiskScore.factors r) ->
        RiskFactor.name f = "High-Risk Markers").
Proof.
  intros Hclear. pose proof (all_clear_normal labs Hclear) as Hnormal.
  cbv zeta. unfold calculatePatientRisk.
  set (window := filter (isRecent now) labs).
  assert (Hwindow : forall l, In l window -> LabResult.status l = normal).
  { intros l Hl. apply filter_In in Hl. now apply Hnormal. }
  rewrite (filter_none (isStatus critical) window)
    by (intros l Hl; unfold isStatus; now rewrite (Hwindow l Hl)).
  rewrite (filter_none (isStatus abnormal) window)
    by (intros l Hl; unfold isStatus; now rewrite (Hwindow l Hl)).
  assert (Hmarkers : 0 <= HighRiskMarkers.score (checkHighRiskMarkers window) <= 35).
  { rewrite checkHighRiskMarkers_patterns. cbn [HighRiskMarkers.score].
    unfold Spec.akiRisk, Spec.hepaticDysfunction.
    rewrite !firstCoded_false;
      try (intros l Hl; unfold Spec.hasStatus; now rewrite (Hwindow l Hl)).
    destruct (Spec.sepsisRisk window), (Spec.coagulopathy window); cbn; lia. }
  change (JS.length (@nil LabResult.t)) with 0. cbn [Z.gtb Z.compare].
  generalize dependent (HighRiskMarkers.score (checkHighRiskMarkers window)).
  generalize (HighRiskMarkers.markers (checkHighRiskMarkers window)).
  intros ms m Hm.
  rewrite (Z.gtb_ltb m 0).
  destruct (Z.ltb_spec 0 m);
    cbn [app RiskScore.score RiskScore.level RiskScore.factors Z.add];
    repeat match goal with
    | |- context [?x >=? ?y] => rewrite (Z.geb_leb x y); destruct (Z.leb_spec y x)
    end; try lia;
    (split; [lia|]); (split; [reflexivity|]);
    intros f Hf; [destruct Hf as [<-|[]]; reflexivity|destruct Hf].
Qed.

End AllClearRisk.

(** A normal lactate of 3.1 among normal results: the panel is clear, the
    score is 20 and the level is low. *)
Lemma all_clear_risk_is_low_example :
  CriticalAlerts.render Sample.normalLactate false = CriticalAlerts.AllClear
  /\ RiskScore.score
       (RiskScoreCalculator.calculatePatientRisk (H := Host.builtins)
          Sample.now Sample.normalLactate) = 20
  /\ RiskScore.level
       (RiskScoreCalculator.calculatePatientRisk (H := Host.builtins)
          Sample.now Sample.normalLactate) = level_low.
Proof.
  split; [reflexivity|].
  destruct (all_clear_risk_is_low (H := Host.builtins) Sample.now
              Sample.normalLactate eq_refl) as (_ & Hlevel & _).
  split; [vm_compute; reflexivity|exact Hlevel].
Defined.
